(** * DockerManager: update detection, deployment promotion and process supervision

    A shallow embedding of [src/docker.ts] (class [Docker]) and
    [src/monitor.ts] (class [Monitor]) and the properties of the
    specification that are stated about them.

    Conventions of the embedding.
    - Strings are [string]; positions are [Z] because [indexOf] answers [-1].
    - A JavaScript object used as a dictionary ([Record<string, boolean>],
      [Record<string, string>]) is a [gmap string _] of the keys written to
      it.  Where the program writes, and where it looks up a name of its
      configuration, [k in o] is [is_Some (o !! k)]: these names are taken
      not to be names of [Object.prototype] members.  Where it looks up a
      name that a request brings ([GetContainerStatus]), the members that
      every object inherits are there too ([JS.has], [JS.read]).
    - Everything the program does to the outside (file system, version cache,
      logger, spawned commands, HTTP requests, timers) is threaded through a
      [world]; a computation is a function from a world to an outcome and a
      world, so that what was done before an exception stays done.
    - Completion callbacks and promise continuations are run in program
      order, one profile after the other.
    - An exception that nothing catches is recorded as the effect
      [EUnhandled]; the process ends there. *)

From Stdlib Require Import ZArith List String Ascii Bool Lia.
From stdpp Require Import base option list strings gmap.

Set Warnings "-register-all".
Local Open Scope Z_scope.

(** ** JavaScript string primitives used by the sources *)

Module JS.

Definition LF : ascii := ascii_of_nat 10.

(** [s.indexOf(needle)] *)
Definition indexOf (s needle : string) : Z :=
  match String.index 0 needle s with
  | Some i => Z.of_nat i
  | None => -1
  end.

Definition clamp (len : nat) (i : Z) : nat :=
  Z.to_nat (Z.min (Z.max i 0) (Z.of_nat len)).

(** [s.substring(a, b)]: both ends are clamped to [0, length] and swapped
    when [a > b]. *)
Definition substring (s : string) (a b : Z) : string :=
  let a' := clamp (String.length s) a in
  let b' := clamp (String.length s) b in
  String.substring (Nat.min a' b') (Nat.max a' b' - Nat.min a' b') s.

(** White space of [trim] among the code units below 256. *)
Definition is_space (c : ascii) : bool :=
  let n := nat_of_ascii c in
  ((9 <=? n)%nat && (n <=? 13)%nat) || (n =? 32)%nat || (n =? 160)%nat.

Fixpoint trimStart (s : string) : string :=
  match s with
  | EmptyString => EmptyString
  | String c s' => if is_space c then trimStart s' else s
  end.

Fixpoint trimEnd (s : string) : string :=
  match s with
  | EmptyString => EmptyString
  | String c s' =>
      match trimEnd s' with
      | EmptyString => if is_space c then EmptyString else String c EmptyString
      | t => String c t
      end
  end.

Definition trim (s : string) : string := trimEnd (trimStart s).

Definition startsWith (s p : string) : bool := String.prefix p s.

Fixpoint endsWith (s p : string) : bool :=
  String.eqb s p
  || match s with
     | EmptyString => false
     | String _ s' => endsWith s' p
     end.

(** [s.split("\n")]: never empty, the last piece may be the empty string. *)
Fixpoint split_lines (s : string) : list string :=
  match s with
  | EmptyString => [EmptyString]
  | String c s' =>
      if Ascii.eqb c LF then EmptyString :: split_lines s'
      else match split_lines s' with
           | l :: ls => String c l :: ls
           | [] => [String c EmptyString]
           end
  end.

(** Truthiness of an array: every array is truthy, the empty one too. *)
Definition truthy_array {A} (a : list A) : bool := true.

(** Truthiness of a string: [if (s)]. *)
Definition truthy (s : string) : bool :=
  match s with EmptyString => false | _ => true end.

Fixpoint last_dot (s : string) : option (string * string) :=
  match s with
  | EmptyString => None
  | String c s' =>
      match last_dot s' with
      | Some (pre, ext) => Some (String c pre, ext)
      | None => if Ascii.eqb c "."%char then Some (EmptyString, s') else None
      end
  end.

Fixpoint has_slash (s : string) : bool :=
  match s with
  | EmptyString => false
  | String c s' => Ascii.eqb c "/"%char || has_slash s'
  end.

(** [s.replace(/\.[^/.]+$/, "")]: the pattern can only match at the last
    dot, and does when what follows is not empty and has no slash. *)
Definition strip_extension (s : string) : string :=
  match last_dot s with
  | Some (pre, ext) => if truthy ext && negb (has_slash ext) then pre else s
  | None => s
  end.

(** *** A dictionary of booleans read by an arbitrary name

    The snapshot is a plain object: besides the keys written to it, it has
    the members that [Object.prototype] hands down. *)

Definition prototype_members : list string :=
  ["constructor"; "hasOwnProperty"; "isPrototypeOf"; "propertyIsEnumerable";
   "toLocaleString"; "toString"; "valueOf"; "__defineGetter__";
   "__defineSetter__"; "__lookupGetter__"; "__lookupSetter__"; "__proto__"].

Definition inherited (name : string) : bool :=
  existsb (String.eqb name) prototype_members.

(** What [o[name]] can be: nothing, one of the booleans of [o], or a member
    of the prototype (a function, or the prototype itself). *)
Inductive value :=
| Undefined
| Boolean (b : bool)
| Member.

(** [name in o] *)
Definition has (o : gmap string bool) (name : string) : bool :=
  bool_decide (is_Some (o !! name)) || inherited name.

(** [o[name]].  [__proto__] is an accessor of the prototype: it never
    becomes a key of the object, and reads as the prototype. *)
Definition read (o : gmap string bool) (name : string) : value :=
  if String.eqb name "__proto__" then Member
  else match o !! name with
       | Some b => Boolean b
       | None => if inherited name then Member else Undefined
       end.

(** [v ?? false] *)
Definition or_false (v : value) : value :=
  match v with
  | Undefined => Boolean false
  | _ => v
  end.

(** [v == b] for a boolean [b]: [undefined] equals no boolean, and an
    object is compared through its text, which is no number. *)
Definition loose_eq (v : value) (b : bool) : bool :=
  match v with
  | Boolean a => Bool.eqb a b
  | _ => false
  end.


End JS.

(** ** The file system, as the calls of [fs] see it *)

Module Fs.

(** A path is the list of its components: the template
    [`${a}/builds/${b}`] is [a ++ ["builds"; b]]. *)
Definition path := list string.

Inductive node :=
| File (content : string) (mtime : Z)
| Dir (mtime : Z) (entries : list (string * node)).

Fixpoint assoc (k : string) (es : list (string * node)) : option node :=
  match es with
  | [] => None
  | (k', n) :: es' => if String.eqb k k' then Some n else assoc k es'
  end.

Fixpoint assoc_set (k : string) (n : node) (es : list (string * node))
  : list (string * node) :=
  match es with
  | [] => [(k, n)]
  | (k', n') :: es' =>
      if String.eqb k k' then (k, n) :: es' else (k', n') :: assoc_set k n es'
  end.

Fixpoint assoc_del (k : string) (es : list (string * node))
  : list (string * node) :=
  match es with
  | [] => []
  | (k', n') :: es' =>
      if String.eqb k k' then es' else (k', n') :: assoc_del k es'
  end.

Fixpoint lookup (p : path) (n : node) : option node :=
  match p with
  | [] => Some n
  | k :: p' =>
      match n with
      | Dir _ es => match assoc k es with Some c => lookup p' c | None => None end
      | File _ _ => None
      end
  end.

(** Put [new] at [p]; the parent has to be an existing directory. *)
Fixpoint put (p : path) (new : node) (n : node) : option node :=
  match p with
  | [] => Some new
  | k :: p' =>
      match n with
      | Dir t es =>
          match p' with
          | [] => Some (Dir t (assoc_set k new es))
          | _ =>
              match assoc k es with
              | Some c =>
                  match put p' new c with
                  | Some c' => Some (Dir t (assoc_set k c' es))
                  | None => None
                  end
              | None => None
              end
          end
      | File _ _ => None
      end
  end.

(** Remove what is at [p], if anything. *)
Fixpoint remove (p : path) (n : node) : node :=
  match p with
  | [] => n
  | k :: p' =>
      match n with
      | Dir t es =>
          match p' with
          | [] => Dir t (assoc_del k es)
          | _ =>
              match assoc k es with
              | Some c => Dir t (assoc_set k (remove p' c) es)
              | None => n
              end
          end
      | File _ _ => n
      end
  end.

(** [mkdir -p]: the directories along [p] that are missing are created. *)
Fixpoint mkdirs (now : Z) (p : path) (n : node) : option node :=
  match p with
  | [] => match n with Dir _ _ => Some n | File _ _ => None end
  | k :: p' =>
      match n with
      | Dir t es =>
          let c := match assoc k es with Some c => c | None => Dir now [] end in
          match mkdirs now p' c with
          | Some c' => Some (Dir t (assoc_set k c' es))
          | None => None
          end
      | File _ _ => None
      end
  end.

(** What a recursive, forced copy of [src] leaves where [dst] was. *)
Fixpoint copy_node (now : Z) (src : node) (dst : option node) : option node :=
  match src with
  | File c _ =>
      match dst with
      | Some (Dir _ _) => None
      | _ => Some (File c now)
      end
  | Dir _ es =>
      match dst with
      | Some (File _ _) => None
      | _ =>
          let '(t, ds) := match dst with
                          | Some (Dir t ds) => (t, ds)
                          | _ => (now, [])
                          end in
          let step (acc : option (list (string * node))) (e : string * node) :=
            match acc with
            | Some ds' =>
                match copy_node now (snd e) (assoc (fst e) ds') with
                | Some c => Some (assoc_set (fst e) c ds')
                | None => None
                end
            | None => None
            end in
          match fold_left step es (Some ds) with
          | Some ds' => Some (Dir t ds')
          | None => None
          end
      end
  end.

Definition set_mtime (t : Z) (n : node) : node :=
  match n with
  | File c _ => File c t
  | Dir _ es => Dir t es
  end.

Definition is_dir (n : node) : bool :=
  match n with Dir _ _ => true | File _ _ => false end.

(** The files below a node, with where they are and what they hold. *)
Fixpoint listing (n : node) : list (path * string) :=
  match n with
  | File c _ => [([], c)]
  | Dir _ es =>
      flat_map (fun e => map (fun f => (fst e :: fst f, snd f)) (listing (snd e))) es
  end.

Fixpoint is_prefix (p q : path) : bool :=
  match p, q with
  | [], _ => true
  | a :: p', b :: q' => String.eqb a b && is_prefix p' q'
  | _ :: _, [] => false
  end.

End Fs.

(** ** The world the program acts on *)

Inductive level := Info | Error.

(** What leaves the process. *)
Inductive effect :=
| EExec (cmd : string)        (* child_process.exec *)
| ESpawn (cmd : string)       (* child_process.spawn, detached *)
| EGet (url : string)         (* an axios GET *)
| ETimeout (ms : Z)           (* setTimeout *)
| EUnhandled (e : string).    (* an exception or rejection nobody handles *)

Record world := World {
  fs : Fs.node;
  cache : gmap string string;          (* Monitor.cache *)
  logs : list (level * string);
  effects : list effect;
  clock : Z;                           (* milliseconds *)
  next_obj : nat;                      (* identity of the next object *)
  ps_runs : nat                        (* status queries made so far *)
}.

Definition with_fs (f : Fs.node) (w : world) : world :=
  World f (cache w) (logs w) (effects w) (clock w) (next_obj w) (ps_runs w).
Definition with_cache (c : gmap string string) (w : world) : world :=
  World (fs w) c (logs w) (effects w) (clock w) (next_obj w) (ps_runs w).
Definition add_log (l : level) (msg : string) (w : world) : world :=
  World (fs w) (cache w) (logs w ++ [(l, msg)]) (effects w) (clock w)
        (next_obj w) (ps_runs w).
Definition add_effect (e : effect) (w : world) : world :=
  World (fs w) (cache w) (logs w) (effects w ++ [e]) (clock w)
        (next_obj w) (ps_runs w).
Definition with_clock (t : Z) (w : world) : world :=
  World (fs w) (cache w) (logs w) (effects w) t (next_obj w) (ps_runs w).
Definition with_next_obj (n : nat) (w : world) : world :=
  World (fs w) (cache w) (logs w) (effects w) (clock w) n (ps_runs w).
Definition with_ps_runs (n : nat) (w : world) : world :=
  World (fs w) (cache w) (logs w) (effects w) (clock w) (next_obj w) n.

(** A call returns, throws, or is still running when the fuel is spent. *)
Inductive outcome (A : Type) :=
| Ok (a : A)
| Throw (e : string)
| Fuel.
Arguments Ok {A} a.
Arguments Throw {A} e.
Arguments Fuel {A}.

Definition M (A : Type) : Type := world -> outcome A * world.

#[global] Instance M_ret : MRet M := fun A a w => (Ok a, w).
#[global] Instance M_bind : MBind M := fun A B f m w =>
  match m w with
  | (Ok a, w') => f a w'
  | (Throw e, w') => (Throw e, w')
  | (Fuel, w') => (Fuel, w')
  end.

Definition throw {A} (e : string) : M A := fun w => (Throw e, w).
Definition out_of_fuel {A} : M A := fun w => (Fuel, w).
Definition get {A} (f : world -> A) : M A := fun w => (Ok (f w), w).
Definition modify (f : world -> world) : M unit := fun w => (Ok tt, f w).

(** [try { m } catch (e) { h e }], and [p.catch(h)] on a promise. *)
Definition catch_ {A} (m : M A) (h : string -> M A) : M A := fun w =>
  match m w with
  | (Throw e, w') => h e w'
  | r => r
  end.

(** A continuation whose exceptions nobody catches: a callback of [exec],
    of a stream event, or a [then] with no [catch] behind it.  What it
    throws is recorded as [EUnhandled].  Node ends the process on such an
    exception: the world with that effect is where the run of the program
    stops, and a statement about a later world is one about runs that
    recorded none. *)
Definition detached (m : M unit) : M unit :=
  catch_ m (fun e => modify (add_effect (EUnhandled e))).

(** Run [k] once [m] is over, whatever its outcome, which is kept. *)
Definition finally_ {A} (m : M A) (k : M unit) : M A := fun w =>
  match m w with
  | (r, w') => (r, snd (k w'))
  end.

Fixpoint forEach {A} (f : A -> M unit) (l : list A) : M unit :=
  match l with
  | [] => mret tt
  | x :: l' => f x ;; forEach f l'
  end.

Module Logger.
Definition info (msg : string) : M unit := modify (add_log Info msg).
Definition error (msg : string) : M unit := modify (add_log Error msg).
End Logger.

(** [new Date()]: a fresh object holding the time of the call. *)
Record Date := { date_ref : nat; date_ms : Z }.

Definition new_Date : M Date := fun w =>
  (Ok {| date_ref := next_obj w; date_ms := clock w |},
   with_next_obj (S (next_obj w)) w).

(** [a != b] on two objects compares what they are, not what they hold. *)
Definition object_neq (a b : Date) : bool := negb (date_ref a =? date_ref b)%nat.

Definition setTimeout (ms : Z) : M unit :=
  modify (fun w => with_clock (clock w + ms) (add_effect (ETimeout ms) w)).

(** ** What the program receives from outside *)

Record exec_result := {
  exec_error : option string;     (* the message of a non-zero exit *)
  stdout : string;
  stderr : string
}.

(** What a request of [axios] comes to.  The promise is resolved for the
    statuses from 200 to 299 only; an answer with any other status is a
    rejection, as a network error is. *)
Inductive axios (A : Type) :=
| Rejected (e : string)
| Resolved (status : Z) (data : A).
Arguments Rejected {A} e.
Arguments Resolved {A} status data.

Record asset := { asset_name : string; browser_download_url : string }.
Record release := { prerelease : bool; assets : list asset }.

Record Docker := {
  services : list string;
  profiles : list string
}.

Record env := {
  docker : Docker;
  (** the outcome of the k-th [docker compose ps -a] *)
  exec_ps : nat -> exec_result;
  AutostartMonitorProfiles : list string;
  (** [subject.match(pattern)] is not null *)
  regex_match : string -> string -> bool;
  get_tree : string -> axios string;              (* data.sha *)
  get_releases : string -> axios (list release);
  get_archive : string -> axios string;           (* the bytes of the zip *)
  (** the entries of an archive, [None] when it cannot be extracted *)
  unzip : string -> option (list (string * Fs.node))
}.

Definition includes (l : list string) (x : string) : bool :=
  existsb (String.eqb x) l.

(** ** The calls of Node's [fs] module

    A call that throws leaves the file system as it was: what a recursive
    copy had already written when it failed is not modelled. *)

Module Node.

Definition parent (p : Fs.path) : Fs.path := removelast p.

Definition show (p : Fs.path) : string := String.concat "/" p.

Definition existsSync (p : Fs.path) : M bool :=
  get (fun w => match Fs.lookup p (fs w) with Some _ => true | None => false end).

(** [fs.mkdirSync(p)], not recursive. *)
Definition mkdirSync (p : Fs.path) : M unit := fun w =>
  match Fs.lookup p (fs w) with
  | Some _ => (Throw "EEXIST", w)
  | None =>
      match Fs.put p (Fs.Dir (clock w) []) (fs w) with
      | Some f => (Ok tt, with_fs f w)
      | None => (Throw "ENOENT", w)
      end
  end.

(** [fs.rmSync(p, { recursive: true, force: true })], and [fs.rm(p, cb)]
    with a callback that ignores the error. *)
Definition rmSync (p : Fs.path) : M unit :=
  modify (fun w => with_fs (Fs.remove p (fs w)) w).

Definition rename_conflict (src : Fs.node) (dst : option Fs.node) : option string :=
  match src, dst with
  | _, None => None
  | Fs.File _ _, Some (Fs.File _ _) => None
  | Fs.File _ _, Some (Fs.Dir _ _) => Some "EISDIR"
  | Fs.Dir _ _, Some (Fs.File _ _) => Some "ENOTDIR"
  | Fs.Dir _ _, Some (Fs.Dir _ []) => None
  | Fs.Dir _ _, Some (Fs.Dir _ (_ :: _)) => Some "ENOTEMPTY"
  end%string.

Definition renameSync (src dst : Fs.path) : M unit := fun w =>
  match Fs.lookup src (fs w) with
  | None => (Throw "ENOENT", w)
  | Some n =>
      if bool_decide (src = dst) then (Ok tt, w)
      else if Fs.is_prefix src dst then (Throw "EINVAL", w)
      else match rename_conflict n (Fs.lookup dst (fs w)) with
           | Some e => (Throw e, w)
           | None =>
               match Fs.put dst n (Fs.remove src (fs w)) with
               | Some f => (Ok tt, with_fs f w)
               | None => (Throw "ENOENT", w)
               end
           end
  end.

(** [fs.cpSync(src, dst, { recursive: true, force: true })]: missing
    parents of [dst] are created, directories are merged, files are
    overwritten and get the time of the copy. *)
Definition cpSync (src dst : Fs.path) : M unit := fun w =>
  match Fs.lookup src (fs w) with
  | None => (Throw "ENOENT", w)
  | Some n =>
      if Fs.is_prefix src dst then (Throw "ERR_FS_CP_EINVAL", w)
      else match Fs.mkdirs (clock w) (parent dst) (fs w) with
           | None => (Throw "ENOTDIR", w)
           | Some f1 =>
               match Fs.copy_node (clock w) n (Fs.lookup dst f1) with
               | None => (Throw "ERR_FS_CP_DIR_TO_NON_DIR", w)
               | Some c =>
                   match Fs.put dst c f1 with
                   | Some f2 => (Ok tt, with_fs f2 w)
                   | None => (Throw "ENOTDIR", w)
                   end
               end
           end
  end.

(** [fs.utimesSync(p, atime, mtime)] writes the times of [p]. *)
Definition utimesSync (p : Fs.path) (atime mtime : Date) : M unit := fun w =>
  match Fs.lookup p (fs w) with
  | None => (Throw "ENOENT", w)
  | Some n =>
      match Fs.put p (Fs.set_mtime (date_ms mtime) n) (fs w) with
      | Some f => (Ok tt, with_fs f w)
      | None => (Throw "ENOENT", w)
      end
  end.

(** [fs.readdirSync(p, { withFileTypes: true })] *)
Definition readdirSync (p : Fs.path) : M (list (string * Fs.node)) := fun w =>
  match Fs.lookup p (fs w) with
  | Some (Fs.Dir _ es) => (Ok es, w)
  | Some (Fs.File _ _) => (Throw "ENOTDIR", w)
  | None => (Throw "ENOENT", w)
  end.

(** [stream.pipe(fs.createWriteStream(p))] up to its [finish] event. *)
Definition writeStream (p : Fs.path) (bytes : string) : M unit := fun w =>
  match Fs.lookup p (fs w) with
  | Some (Fs.Dir _ _) => (Throw "EISDIR", w)
  | _ =>
      match Fs.put p (Fs.File bytes (clock w)) (fs w) with
      | Some f => (Ok tt, with_fs f w)
      | None => (Throw "ENOENT", w)
      end
  end.

End Node.

Section Program.

Variable E : env.

(** ** class Docker *)

Definition exec_compose_ps : M exec_result := fun w =>
  (Ok (exec_ps E (ps_runs w)),
   with_ps_runs (S (ps_runs w)) (add_effect (EExec "docker compose ps -a") w)).

Definition spawn (cmd : string) : M unit := modify (add_effect (ESpawn cmd)).

Definition StartProfile (profileName : string) : M bool :=
  Logger.info ("Starting profile " +:+ profileName) ;;
  if negb (includes (profiles (docker E)) profileName) then
    Logger.error ("Invalid profile " +:+ profileName) ;; mret false
  else
    spawn ("docker compose --profile " +:+ profileName +:+ " up --build") ;;
    mret true.

Definition StopProfile (profileName : string) : M bool :=
  if negb (includes (profiles (docker E)) profileName) then
    Logger.error ("Invalid profile " +:+ profileName) ;; mret false
  else
    Logger.info ("Stopping profile " +:+ profileName) ;;
    spawn ("docker compose --profile " +:+ profileName +:+ " stop") ;;
    mret true.

(** The column offsets read off the header line. *)
Record columns := {
  nameEnd : Z; imageEnd : Z;
  serviceStart : Z; serviceEnd : Z;
  statusStart : Z; statusEnd : Z
}.

Definition header_columns (h : string) : columns :=
  {| nameEnd := JS.indexOf h "IMAGE";
     imageEnd := JS.indexOf h "COMMND";
     serviceStart := JS.indexOf h "SERVICE";
     serviceEnd := JS.indexOf h "CREATED";
     statusStart := JS.indexOf h "STATUS";
     statusEnd := JS.indexOf h "PORTS" |}.

Definition row_name (c : columns) (line : string) : string :=
  JS.trim (JS.substring line 0 (nameEnd c)).
Definition row_image (c : columns) (line : string) : string :=
  JS.trim (JS.substring line (nameEnd c) (imageEnd c)).
Definition row_service (c : columns) (line : string) : string :=
  JS.trim (JS.substring line (serviceStart c) (serviceEnd c)).
Definition row_status (c : columns) (line : string) : string :=
  JS.substring line (statusStart c) (statusEnd c).
Definition row_isUp (c : columns) (line : string) : bool :=
  JS.startsWith (row_status c line) "Up".

(** The body of the [for] loop over the lines after the header. *)
Definition row_step (c : columns) (results : gmap string bool) (line : string)
  : gmap string bool :=
  if negb (JS.truthy (row_service c line)) then results
  else
    let isUp := row_isUp c line in
    <[row_image c line := isUp]>
      (<[row_name c line := isUp]>
         (<[row_service c line := isUp]> results)).

Definition parse_rows (lines : list string) : gmap string bool :=
  let c := header_columns (hd EmptyString lines) in
  fold_left (row_step c) (tl lines) ∅.

Definition fill_services (known : list string) (results : gmap string bool)
  : gmap string bool :=
  fold_left
    (fun r serviceKey =>
       match r !! serviceKey with
       | Some _ => r
       | None => <[serviceKey := false]> r
       end)
    known results.

Definition parse_statuses (out : string) : gmap string bool :=
  fill_services (services (docker E)) (parse_rows (JS.split_lines out)).

Definition GetStatuses : M (bool * gmap string bool) :=
  r ← exec_compose_ps;
  match exec_error r with
  | Some msg => Logger.error msg ;; mret (false, ∅)
  | None =>
      if JS.truthy (stderr r) then Logger.error (stderr r) ;; mret (false, ∅)
      else mret (true, parse_statuses (stdout r))
  end.

(** The [isUp] of the callback is [statuses[containerName] ?? false]: a
    boolean, or what the name inherits. *)
Definition GetContainerStatus (containerName : string) : M (bool * JS.value) :=
  '(success, statuses) ← GetStatuses;
  if negb success then mret (false, JS.Boolean false)
  else if negb (JS.has statuses containerName) then
    Logger.error ("Container: " +:+ containerName +:+ " is invalid") ;;
    mret (false, JS.Boolean false)
  else mret (success, JS.or_false (JS.read statuses containerName)).

(** One unit of fuel pays for one poll; [attempts] is the number as the
    source has it, compared with [0] and decremented. *)
Fixpoint WaitForStatus (fuel : nat) (containerName : string)
    (desiredStatus : bool) (attempts : Z) : M bool :=
  if attempts =? 0 then mret false
  else
    match fuel with
    | O => out_of_fuel
    | S fuel' =>
        '(success, isUp) ← GetContainerStatus containerName;
        if JS.loose_eq isUp desiredStatus then mret true
        else
          setTimeout 5000 ;;
          WaitForStatus fuel' containerName desiredStatus (attempts - 1)
    end.

(** ** class Monitor *)

Record MonitorDetails := {
  Profile : string;
  Type_ : string;
  Owner : string;
  Repo : string;
  AllowPrerelease : bool;
  AssetRegex : string;
  AutoRestart : bool;
  DestinationDirectory : option Fs.path;
  RemoveParentFolder : bool;
  CopyFiles : list Fs.path;
  MonitorContainers : list string
}.

(** [`${monitor.DestinationDirectory}`] *)
Definition dest (monitor : MonitorDetails) : Fs.path :=
  match DestinationDirectory monitor with
  | Some p => p
  | None => ["undefined"]
  end.

(** [if (monitor.DestinationDirectory)] *)
Definition has_destination (monitor : MonitorDetails) : bool :=
  match DestinationDirectory monitor with
  | Some (_ :: _) => true
  | _ => false
  end.

Definition autostart (isInit : bool) (monitor : MonitorDetails) : bool :=
  isInit && includes (AutostartMonitorProfiles E) (Profile monitor).

(** [monitor.Profile in this.cache && this.cache[monitor.Profile] == v] *)
Definition cache_is (monitor : MonitorDetails) (v : string) : M bool :=
  get (fun w => bool_decide (cache w !! Profile monitor = Some v)).

(** [this.cache[monitor.Profile] = v] *)
Definition cache_set (monitor : MonitorDetails) (v : string) : M unit :=
  modify (fun w => with_cache (<[Profile monitor := v]> (cache w)) w).

Definition sync_one (monitor : MonitorDetails) (file : Fs.path) : M unit :=
  let source := dest monitor ++ file in
  let destination := dest monitor ++ ["current"] ++ file in
  sourceDate ← new_Date;
  destinationDate ← new_Date;
  atime ← new_Date;
  Node.utimesSync source atime sourceDate ;;
  atime' ← new_Date;
  Node.utimesSync destination atime' destinationDate ;;
  if object_neq sourceDate destinationDate then
    Logger.info ("Copying " +:+ Node.show source +:+ " to "
                 +:+ Node.show destination) ;;
    Node.cpSync source destination
  else mret tt.

Definition syncMonitorFiles (monitor : MonitorDetails) : M unit :=
  forEach (sync_one monitor) (CopyFiles monitor).

(** The poll of [stopAndRestart] asks for 12 attempts; 12 units of fuel
    pay for them ([WaitForStatus_returns]). *)
Definition stopAndRestart (monitor : MonitorDetails) : M unit :=
  Logger.info ("Restarting docker profile " +:+ Profile monitor) ;;
  _ ← StopProfile (Profile monitor);
  detached (
    success ← WaitForStatus 12 (Profile monitor) false 12;
    if success : bool then
      syncMonitorFiles monitor ;;
      _ ← StartProfile (Profile monitor);
      mret tt
    else
      Logger.error ("Unable to start docker profile " +:+ Profile monitor)).

(** [x in upStatuses && upStatuses[x] === true] *)
Definition running (upStatuses : gmap string bool) (x : string) : bool :=
  bool_decide (upStatuses !! x = Some true).

(** The line [`${monitor.Profile} status(es): ${statuses}`]. *)
Definition status_report (monitor : MonitorDetails)
    (upStatuses : gmap string bool) : string :=
  let statuses :=
    String.concat ", "
      (map (fun x => x +:+ ": " +:+
                     (if running upStatuses x then "RUNNING" else "NOT RUNNING"))
           (MonitorContainers monitor)) in
  Profile monitor +:+ " status(es): " +:+ statuses.

Definition checkMonitorStatus (monitor : MonitorDetails)
    (upStatuses : gmap string bool) : M unit :=
  if (length (MonitorContainers monitor) =? 0)%nat then mret tt
  else
    let numRunning :=
      fold_left (fun n x => if running upStatuses x then S n else n)
                (MonitorContainers monitor) O in
    Logger.info (status_report monitor upStatuses) ;;
    if negb (numRunning =? length (MonitorContainers monitor))%nat then
      Logger.info ("One or more images for " +:+ Profile monitor
                   +:+ " was not found. Restarting.") ;;
      stopAndRestart monitor
    else
      Logger.info (Profile monitor +:+ " up-to-date and running successfully").

(** [axios.get(url)]: a rejected promise skips the [then] and reaches the
    [catch]. *)
Definition axios_get {A} (feed : string -> axios A) (url : string)
  : M (Z * A) := fun w =>
  match feed url with
  | Rejected e => (Throw e, add_effect (EGet url) w)
  | Resolved status data => (Ok (status, data), add_effect (EGet url) w)
  end.

(** [extract(zip, { dir })] *)
Definition extract (zip dir : Fs.path) : M unit := fun w =>
  match Fs.lookup zip (fs w) with
  | Some (Fs.File bytes _) =>
      match unzip E bytes with
      | None => (Throw "invalid archive", w)
      | Some entries =>
          match Fs.mkdirs (clock w) dir (fs w) with
          | None => (Throw "ENOTDIR", w)
          | Some f1 =>
              match Fs.copy_node (clock w) (Fs.Dir (clock w) entries)
                                 (Fs.lookup dir f1) with
              | None => (Throw "EEXIST", w)
              | Some c =>
                  match Fs.put dir c f1 with
                  | Some f2 => (Ok tt, with_fs f2 w)
                  | None => (Throw "ENOTDIR", w)
                  end
              end
          end
      end
  | _ => (Throw "ENOENT", w)
  end.

Definition restart_after_update (monitor : MonitorDetails) (isInit : bool)
  : M unit :=
  if AutoRestart monitor then stopAndRestart monitor
  else if autostart isInit monitor then stopAndRestart monitor
  else mret tt.

(** The continuation of [extract(...)], in its three file-system steps:
    the staged tree is moved to [builds/<cacheValue>], ... *)
Definition move_to_builds (monitor : MonitorDetails) (cacheValue : string)
  : M unit :=
  let tempDirectory := dest monitor ++ ["temp"] in
  let tempZip := dest monitor ++ ["temp"; "files.zip"] in
  let buildDirectory := dest monitor ++ ["builds"; cacheValue] in
  Logger.info (Node.show tempZip +:+ " extracted") ;;
  copyPath ←
    (if RemoveParentFolder monitor then
       es ← Node.readdirSync tempDirectory;
       let subFolder :=
         match List.filter (fun x => Fs.is_dir (snd x)) es with
         | x :: _ => fst x
         | [] => "undefined"
         end in
       mret (tempDirectory ++ [subFolder])
     else mret tempDirectory);
  Logger.info ("Renaming " +:+ Node.show copyPath +:+ " to "
               +:+ Node.show buildDirectory) ;;
  Node.renameSync copyPath buildDirectory.

(** ... [current] is removed and copied anew from the build, ... *)
Definition replace_current (monitor : MonitorDetails) (cacheValue : string)
  : M unit :=
  let buildDirectory := dest monitor ++ ["builds"; cacheValue] in
  let current := dest monitor ++ ["current"] in
  c ← Node.existsSync current;
  (if c : bool then
     Logger.info ("Removing " +:+ Node.show current +:+ " folder") ;;
     Node.rmSync current
   else mret tt) ;;
  Logger.info ("Updating " +:+ Node.show current +:+ " to build " +:+ cacheValue) ;;
  Node.cpSync buildDirectory current.

(** ... and the auxiliary files are copied next to it. *)
Definition copy_auxiliary (monitor : MonitorDetails) : M unit :=
  let current := dest monitor ++ ["current"] in
  forEach (fun file =>
             Logger.info ("Copying " +:+ Node.show file +:+ " to "
                          +:+ Node.show (current ++ file)) ;;
             Node.cpSync (dest monitor ++ file) (current ++ file))
          (CopyFiles monitor).

Definition promote_files (monitor : MonitorDetails) (cacheValue : string)
  : M unit :=
  move_to_builds monitor cacheValue ;;
  replace_current monitor cacheValue ;;
  copy_auxiliary monitor.

Definition promote (monitor : MonitorDetails) (cacheValue : string)
    (isInit : bool) : M unit :=
  promote_files monitor cacheValue ;;
  cache_set monitor cacheValue ;;
  restart_after_update monitor isInit.

(** The archive is written to [temp/files.zip] and extracted in place. *)
Definition stage (monitor : MonitorDetails) (bytes : string) : M unit :=
  let tempDirectory := dest monitor ++ ["temp"] in
  let tempZip := dest monitor ++ ["temp"; "files.zip"] in
  Node.writeStream tempZip bytes ;;
  extract tempZip tempDirectory.

(** The [then] of the download request.  The removal of the archive asked
    for by [fs.rm(tempZip, cb)] completes after the continuation has run. *)
Definition staged (monitor : MonitorDetails) (cacheValue : string)
    (isInit : bool) (status : Z) (bytes : string) : M unit :=
  let tempZip := dest monitor ++ ["temp"; "files.zip"] in
  if negb (status =? 200) then
    if autostart isInit monitor then stopAndRestart monitor else mret tt
  else
    catch_
      (detached (
         stage monitor bytes ;;
         finally_ (promote monitor cacheValue isInit) (Node.rmSync tempZip)))
      (fun e =>
         Logger.error e ;;
         if autostart isInit monitor then stopAndRestart monitor else mret tt).

(** The branch taken when [builds/<cacheValue>] is already there. *)
Definition already_built (monitor : MonitorDetails) (cacheValue : string)
    (isInit : bool) : M unit :=
  Logger.info ("Build " +:+ cacheValue +:+ " already exists under "
               +:+ Profile monitor +:+ " builds folder") ;;
  cache_set monitor cacheValue ;;
  if AutoRestart monitor || autostart isInit monitor
  then stopAndRestart monitor
  else mret tt.

(** The scratch directory is emptied and made anew. *)
Definition prepare_temp (monitor : MonitorDetails) (url : string) : M unit :=
  let tempDirectory := dest monitor ++ ["temp"] in
  let tempZip := dest monitor ++ ["temp"; "files.zip"] in
  t ← Node.existsSync tempDirectory;
  (if t : bool then Node.rmSync tempDirectory else mret tt) ;;
  Node.mkdirSync tempDirectory ;;
  Logger.info ("Downloading " +:+ url +:+ " to " +:+ Node.show tempZip).

(** The branch taken otherwise: download, staging, promotion. *)
Definition fetch_and_promote (monitor : MonitorDetails) (url : string)
    (cacheValue : string) (isInit : bool) : M unit :=
  prepare_temp monitor url ;;
  catch_
    ('(status, bytes) ← axios_get (get_archive E) url;
     staged monitor cacheValue isInit status bytes)
    Logger.error.

Definition ensure_builds (monitor : MonitorDetails) : M unit :=
  let builds := dest monitor ++ ["builds"] in
  b ← Node.existsSync builds;
  if negb b then
    Logger.info ("Created builds folder for " +:+ Profile monitor) ;;
    Node.mkdirSync builds
  else mret tt.

Definition downloadAndExtract (monitor : MonitorDetails) (url : string)
    (cacheValue : string) (isInit : bool) : M unit :=
  let buildDirectory := dest monitor ++ ["builds"; cacheValue] in
  ensure_builds monitor ;;
  e ← Node.existsSync buildDirectory;
  if e : bool then already_built monitor cacheValue isInit
  else fetch_and_promote monitor url cacheValue isInit.

Definition repoUrl (monitor : MonitorDetails) : string :=
  "https://api.github.com/repos/" +:+ Owner monitor +:+ "/"
  +:+ Repo monitor +:+ "/git/trees/main".

Definition releaseUrl (monitor : MonitorDetails) : string :=
  "https://api.github.com/repos/" +:+ Owner monitor +:+ "/"
  +:+ Repo monitor +:+ "/releases".

Definition runRepoMonitor (monitor : MonitorDetails) (isInit : bool)
    (upStatuses : gmap string bool) : M unit :=
  Logger.info ("Run repo monitor for " +:+ Profile monitor) ;;
  catch_
    ('(_, sha) ← axios_get (get_tree E) (repoUrl monitor);
     hit ← cache_is monitor sha;
     if hit : bool then
       Logger.info (Profile monitor +:+ " has up-to-date version of " +:+ sha) ;;
       syncMonitorFiles monitor ;;
       checkMonitorStatus monitor upStatuses
     else if has_destination monitor then
       let downloadUrl := "https://github.com/" +:+ Owner monitor +:+ "/"
                          +:+ Repo monitor +:+ "/archive/refs/heads/main.zip" in
       downloadAndExtract monitor downloadUrl sha isInit
     else if AutoRestart monitor then stopAndRestart monitor
     else if autostart isInit monitor then stopAndRestart monitor
     else checkMonitorStatus monitor upStatuses)
    Logger.error.

(** [response.data.filter(...).map(...).reduce(...)] *)
Definition release_results (monitor : MonitorDetails) (data : list release)
  : list asset :=
  fold_left
    (fun a b => a ++ b)
    (map (fun x => List.filter
                     (fun y => regex_match E (AssetRegex monitor) (asset_name y))
                     (assets x))
         (List.filter (fun x => negb (prerelease x) || AllowPrerelease monitor)
                      data))
    [].

(** [results[0].name.replace(...)] and [results[0].browser_download_url];
    reading [name] is a [TypeError] when there is no first element. *)
Definition resolve_first (results : list asset) : M (string * string) :=
  match results with
  | y :: _ => mret (JS.strip_extension (asset_name y), browser_download_url y)
  | [] => throw "TypeError: Cannot read properties of undefined (reading 'name')"
  end.

Definition runReleaseMonitor (monitor : MonitorDetails) (isInit : bool)
    (upStatuses : gmap string bool) : M unit :=
  Logger.info ("Run release monitor for " +:+ Profile monitor) ;;
  catch_
    ('(status, data) ← axios_get (get_releases E) (releaseUrl monitor);
     if negb (status =? 200) then
       if autostart isInit monitor then stopAndRestart monitor else mret tt
     else
       let results := release_results monitor data in
       if negb (JS.truthy_array results) then
         Logger.info ("No release found for " +:+ Profile monitor)
       else
         '(name, downloadUrl) ← resolve_first results;
         hit ← cache_is monitor name;
         if hit : bool then
           Logger.info (Profile monitor +:+ " has up-to-date version of " +:+ name) ;;
           syncMonitorFiles monitor ;;
           checkMonitorStatus monitor upStatuses
         else if has_destination monitor then
           downloadAndExtract monitor downloadUrl name isInit
         else if AutoRestart monitor || autostart isInit monitor
         then stopAndRestart monitor
         else checkMonitorStatus monitor upStatuses)
    Logger.error.

(** The body of [this.monitors.forEach]. *)
Definition evaluate (isInit : bool) (upStatuses : gmap string bool)
    (monitor : MonitorDetails) : M unit :=
  catch_
    (if String.eqb (Type_ monitor) "repo" then
       runRepoMonitor monitor isInit upStatuses
     else if String.eqb (Type_ monitor) "release" then
       runReleaseMonitor monitor isInit upStatuses
     else mret tt)
    (fun e =>
       Logger.error ("Error running " +:+ Profile monitor +:+ " monitor") ;;
       Logger.error e).

Definition runMonitor (monitors : list MonitorDetails) (isInit : bool)
  : M unit :=
  '(success, upStatuses) ← GetStatuses;
  if negb success then mret tt
  else forEach (evaluate isInit upStatuses) monitors.

End Program.

(** ** What a status query tells, read off its outcome *)

Definition compose_ps : string := "docker compose ps -a".

Definition query_failed (r : exec_result) : bool :=
  match exec_error r with
  | Some _ => true
  | None => JS.truthy (stderr r)
  end.

(** The [isUp] that [GetContainerStatus] hands to its callback. *)
Definition container_isUp (E : env) (r : exec_result) (containerName : string)
  : JS.value :=
  if query_failed r then JS.Boolean false
  else if JS.has (parse_statuses E (stdout r)) containerName
  then JS.or_false (JS.read (parse_statuses E (stdout r)) containerName)
  else JS.Boolean false.

(** Whether the k-th status query shows the container in the wanted state. *)
Definition reached (E : env) (containerName : string) (desiredStatus : bool)
    (k : nat) : bool :=
  JS.loose_eq (container_isUp E (exec_ps E k) containerName) desiredStatus.

(** A row is read when its service field is not empty; it then writes
    three identifiers. *)
Definition contributes (c : columns) (line : string) : bool :=
  JS.truthy (row_service c line).

Definition row_keys (c : columns) (line : string) : list string :=
  [row_service c line; row_name c line; row_image c line].

(** One unsuccessful poll: the query, then the timer. *)
Definition poll_round : list effect := [EExec compose_ps; ETimeout 5000].

Fixpoint rounds (k : nat) : list effect :=
  match k with
  | O => []
  | S k' => poll_round ++ rounds k'
  end.

(** The world right after a status query. *)
Definition queried (w : world) : world :=
  with_ps_runs (S (ps_runs w)) (add_effect (EExec compose_ps) w).

(** ** Version resolution, in the words of the specification

    Section 4.3: list the releases, filter out prereleases unless they are
    allowed, flatten all release assets, keep the assets whose name matches
    the filter pattern, take the first one; the fingerprint is its file name
    with the extension stripped. *)


(** ** What a promotion is to leave behind *)

Definition files_at (p : Fs.path) (w : world) : list (Fs.path * string) :=
  match Fs.lookup p (fs w) with
  | Some n => Fs.listing n
  | None => []
  end.

(** [current] holds every file of the build, and every auxiliary entry as
    it is beside [current]. *)
Definition promoted (monitor : MonitorDetails) (cacheValue : string)
    (w : world) : Prop :=
  Forall (fun f => f ∈ files_at (dest monitor ++ ["current"]) w)
         (files_at (dest monitor ++ ["builds"; cacheValue]) w)
  /\ Forall (fun file =>
               Forall (fun f => f ∈ files_at (dest monitor ++ ["current"] ++ file) w)
                      (files_at (dest monitor ++ file) w))
            (CopyFiles monitor).

(** ** Parts of the world a computation leaves alone *)

Definition is_request (e : effect) : bool :=
  match e with EGet _ => true | _ => false end.

(** The HTTP requests made so far, oldest first. *)
Definition requests (w : world) : list effect :=
  List.filter is_request (effects w).

(** A view of the world that only the version cache and HTTP requests can
    change. *)
Record blind {X : Type} (view : world -> X) : Prop := {
  blind_fs : forall f w, view (with_fs f w) = view w;
  blind_log : forall l msg w, view (add_log l msg w) = view w;
  blind_clock : forall t w, view (with_clock t w) = view w;
  blind_obj : forall n w, view (with_next_obj n w) = view w;
  blind_ps : forall n w, view (with_ps_runs n w) = view w;
  blind_effect : forall e w, is_request e = false -> view (add_effect e w) = view w
}.

Definition keeps {X A : Type} (view : world -> X) (m : M A) : Prop :=
  forall w, view (snd (m w)) = view w.


(** ** Concrete inputs *)

Module Sample.

Definition nl : string := String JS.LF EmptyString.

(** The table of the specification: one service up, one exited. *)
Definition table : string :=
  "NAME    IMAGE   COMMAND   SERVICE   CREATED      STATUS       PORTS" +:+ nl +:+
  "app-1   nginx   run       web       2 days ago   Up 3 hours   80/tcp" +:+ nl +:+
  "app-2   mysql   run       db        2 days ago   Exited (1)   " +:+ nl.

(** A service with two containers, the first up, the second exited. *)
Definition table_replicas : string :=
  "NAME    IMAGE   COMMAND   SERVICE   CREATED      STATUS       PORTS" +:+ nl +:+
  "web-1   nginx   run       web       2 days ago   Up 3 hours   80/tcp" +:+ nl +:+
  "web-2   nginx   run       web       2 days ago   Exited (1)   " +:+ nl.

Definition compose : Docker :=
  {| services := ["web"; "db"; "cache"]; profiles := ["site"] |}.

Definition answers (out : string) : exec_result :=
  {| exec_error := None; stdout := out; stderr := EmptyString |}.

Definition fails (msg : string) : exec_result :=
  {| exec_error := Some msg; stdout := EmptyString; stderr := EmptyString |}.

(** An environment with no network, given what the status query answers. *)
Definition offline (ps : nat -> exec_result) : env :=
  {| docker := compose;
     exec_ps := ps;
     AutostartMonitorProfiles := [];
     regex_match := fun _ _ => true;
     get_tree := fun _ => Rejected "ENOTFOUND";
     get_releases := fun _ => Rejected "ENOTFOUND";
     get_archive := fun _ => Rejected "ENOTFOUND";
     unzip := fun _ => None |}.

Definition steady : env := offline (fun _ => answers table).
Definition replicas : env := offline (fun _ => answers table_replicas).
Definition broken : env := offline (fun _ => fails "Command failed: docker compose ps -a").

Definition empty_world : world :=
  World (Fs.Dir 0 []) ∅ [] [] 0 0 0.

End Sample.

Module Site.

(** A branch-source profile staged under [srv], with one auxiliary file. *)
Definition site : MonitorDetails :=
  {| Profile := "site"; Type_ := "repo"; Owner := "acme"; Repo := "site";
     AllowPrerelease := false; AssetRegex := ".*"; AutoRestart := false;
     DestinationDirectory := Some ["srv"]; RemoveParentFolder := true;
     CopyFiles := [["env.txt"]]; MonitorContainers := ["web"] |}.

Definition archive_url : string :=
  "https://github.com/acme/site/archive/refs/heads/main.zip".

(** Upstream is at [v2]; its archive unpacks to one folder. *)
Definition upstream : env :=
  {| docker := Sample.compose;
     exec_ps := fun _ => Sample.answers Sample.table;
     AutostartMonitorProfiles := [];
     regex_match := fun _ _ => true;
     get_tree := fun _ => Resolved 200 "v2";
     get_releases := fun _ => Rejected "ENOTFOUND";
     get_archive := fun _ => Resolved 200 "PK v2";
     unzip := fun bytes =>
                if String.eqb bytes "PK v2"
                then Some [("site-main",
                            Fs.Dir 0 [("index.html", Fs.File "new" 0)])]
                else None |}.

Definition on_disk (srv : list (string * Fs.node)) : world :=
  World (Fs.Dir 0 [("srv", Fs.Dir 0 srv)]) ∅ [] [] 1000 0 0.

(** The same, with the archive out of reach. *)
Definition no_archive : env :=
  {| docker := Sample.compose;
     exec_ps := fun _ => Sample.answers Sample.table;
     AutostartMonitorProfiles := [];
     regex_match := fun _ _ => true;
     get_tree := fun _ => Resolved 200 "v2";
     get_releases := fun _ => Rejected "ENOTFOUND";
     get_archive := fun _ => Rejected "ETIMEDOUT";
     unzip := fun _ => None |}.

(** [v1] is live, [v2] is unknown, the auxiliary file is in place. *)
Definition fresh : world :=
  on_disk [("env.txt", Fs.File "SECRET" 5);
           ("current", Fs.Dir 1 [("index.html", Fs.File "old" 1);
                                 ("env.txt", Fs.File "SECRET" 5)])].

(** [v1] is live and [builds/v2] is already there. *)
Definition built : world :=
  on_disk [("env.txt", Fs.File "SECRET" 5);
           ("builds", Fs.Dir 7 [("v2", Fs.Dir 7 [("index.html", Fs.File "new" 7)])]);
           ("current", Fs.Dir 1 [("index.html", Fs.File "old" 1)])].

(** [v2] is live and cached. *)
Definition settled : world :=
  World (Fs.Dir 0 [("srv", Fs.Dir 0
           [("env.txt", Fs.File "SECRET" 5);
            ("builds", Fs.Dir 7 [("v2", Fs.Dir 7 [("index.html", Fs.File "new" 7)])]);
            ("current", Fs.Dir 8 [("index.html", Fs.File "new" 8);
                                  ("env.txt", Fs.File "SECRET" 8)])])])
        {[ "site" := "v2" ]} [] [] 1000 0 0.

(** The same profile, watching the container that is down in
    [Sample.table]. *)
Definition watching_db : MonitorDetails :=
  {| Profile := "site"; Type_ := "repo"; Owner := "acme"; Repo := "site";
     AllowPrerelease := false; AssetRegex := ".*"; AutoRestart := false;
     DestinationDirectory := Some ["srv"]; RemoveParentFolder := true;
     CopyFiles := [["env.txt"]]; MonitorContainers := ["db"] |}.

(** The snapshot of [Sample.table]: [web] is up, [db] is not. *)
Definition snapshot : gmap string bool :=
  parse_statuses upstream Sample.table.

(** [v1] is live, [v2] is unknown, and the auxiliary file is missing. *)
Definition lacking : world :=
  on_disk [("current", Fs.Dir 1 [("index.html", Fs.File "old" 1)])].

End Site.

Module Feed.

Definition named (n : string) : asset :=
  {| asset_name := n;
     browser_download_url := "https://github.com/acme/tool/releases/" +:+ n |}.

(** The feed of the specification: a prerelease with [a.zip], then a
    release with [b.zip] and [c.txt]. *)
Definition feed : list release :=
  [ {| prerelease := true; assets := [named "a.zip"] |};
    {| prerelease := false; assets := [named "b.zip"; named "c.txt"] |} ].

(** A feed whose only release carries no archive. *)
Definition notes_only : list release :=
  [ {| prerelease := false; assets := [named "notes.txt"] |} ].

Definition tool : MonitorDetails :=
  {| Profile := "tool"; Type_ := "release"; Owner := "acme"; Repo := "tool";
     AllowPrerelease := false; AssetRegex := "\.zip$"; AutoRestart := true;
     DestinationDirectory := Some ["opt"]; RemoveParentFolder := false;
     CopyFiles := []; MonitorContainers := [] |}.

(** The one pattern in use, [\.zip$], holds of the names that end in
    [.zip]. *)
Definition zip_pattern (pattern subject : string) : bool :=
  if String.eqb pattern "\.zip$" then JS.endsWith subject ".zip" else true.

Definition serving (data : list release) : env :=
  {| docker := Sample.compose;
     exec_ps := fun _ => Sample.answers Sample.table;
     AutostartMonitorProfiles := ["tool"];
     regex_match := zip_pattern;
     get_tree := fun _ => Rejected "ENOTFOUND";
     get_releases := fun _ => Resolved 200 data;
     get_archive := fun _ => Rejected "ENOTFOUND";
     unzip := fun _ => None |}.

Definition cached (v : string) : world :=
  World (Fs.Dir 0 [("opt", Fs.Dir 0 [])]) {[ "tool" := v ]} [] [] 0 0 0.

(** A feed that answers 204, with nothing. *)
Definition no_content : env :=
  {| docker := Sample.compose;
     exec_ps := fun _ => Sample.answers Sample.table;
     AutostartMonitorProfiles := ["tool"];
     regex_match := zip_pattern;
     get_tree := fun _ => Rejected "ENOTFOUND";
     get_releases := fun _ => Resolved 204 [];
     get_archive := fun _ => Rejected "ENOTFOUND";
     unzip := fun _ => None |}.

End Feed.

(** ** The rest of class Docker *)



Definition GetServiceNames (E : env) : list string := services (docker E).

(** [Start()]: the whole composition is brought up, detached. *)
Definition Start : M unit :=
  Logger.info "Starting main docker compose" ;;
  spawn "docker compose up --build".

(** The parsed compose file: the keys of [services] in their order, each
    with its [profiles] when it has any.  Every service is taken to be a
    mapping. *)
Definition compose_file := list (string * option (list string)).

(** The fields that the constructor fills from the compose file. *)
Definition Docker_of (yaml : compose_file) : Docker :=
  {| services := map fst yaml;
     profiles := flat_map (fun service => default [] (snd service)) yaml |}.

Definition with_docker (d : Docker) (E : env) : env :=
  {| docker := d;
     exec_ps := exec_ps E;
     AutostartMonitorProfiles := AutostartMonitorProfiles E;
     regex_match := regex_match E;
     get_tree := get_tree E;
     get_releases := get_releases E;
     get_archive := get_archive E;
     unzip := unzip E |}.

(** The constructor, from the parsed file on; [stringify] is
    [JSON.stringify] on a list of strings. *)
Definition Docker_constructor (E : env) (stringify : list string -> string)
    (yaml : compose_file) (AutostartProfiles : list string) : M Docker :=
  let this := Docker_of yaml in
  Logger.info ("Docker profiles: " +:+ stringify (profiles this)) ;;
  forEach (fun profile => _ ← StartProfile (with_docker this E) profile; mret tt)
          AutostartProfiles ;;
  mret this.

(** ** environment.ts *)

(** [s.split(c)] for a separator of one character. *)
Fixpoint split_on (c : ascii) (s : string) : list string :=
  match s with
  | EmptyString => [EmptyString]
  | String a s' =>
      if Ascii.eqb a c then EmptyString :: split_on c s'
      else match split_on c s' with
           | l :: ls => String a l :: ls
           | [] => [String a EmptyString]
           end
  end.

(** [process.env.NAME?.split(",") ?? []] *)
Definition env_list (value : option string) : list string :=
  match value with
  | Some s => split_on ","%char s
  | None => []
  end.

(** ** The rest of class Monitor *)

Definition syncProfileFiles (monitors : list MonitorDetails) (profile : string)
  : M unit :=
  match List.find (fun x => String.eqb (Profile x) profile) monitors with
  | None => mret tt
  | Some monitor => syncMonitorFiles monitor
  end.

(** ** Views of the world used below *)

Definition is_spawn (e : effect) : bool :=
  match e with ESpawn _ => true | _ => false end.

(** The commands spawned so far, oldest first. *)
Definition spawns (w : world) : list effect :=
  List.filter is_spawn (effects w).

(** A computation that comes to an end whatever the world: it returns or
    throws, the fuel is never what stops it. *)
Definition settles {A : Type} (m : M A) : Prop :=
  forall w, fst (m w) <> Fuel.

(** A view that changes of the file system, of the log and of the object
    counter do not show. *)
Record local {X : Type} (view : world -> X) : Prop := {
  local_fs : forall f w, view (with_fs f w) = view w;
  local_log : forall l msg w, view (add_log l msg w) = view w;
  local_obj : forall n w, view (with_next_obj n w) = view w
}.

Fixpoint contains_char (c : ascii) (s : string) : bool :=
  match s with
  | EmptyString => false
  | String a s' => Ascii.eqb a c || contains_char c s'
  end.

(** What the [StopProfile] and the [StartProfile] of a restart spawn:
    nothing for a profile that the compose file does not have. *)
Definition stop_effects (E : env) (monitor : MonitorDetails) : list effect :=
  if includes (profiles (docker E)) (Profile monitor)
  then [ESpawn ("docker compose --profile " +:+ Profile monitor +:+ " stop")]
  else [].

Definition start_effects (E : env) (monitor : MonitorDetails) : list effect :=
  if includes (profiles (docker E)) (Profile monitor)
  then [ESpawn ("docker compose --profile " +:+ Profile monitor +:+ " up --build")]
  else [].

(** The world in which the callback of the wait of a restart runs. *)
Definition after_wait (E : env) (monitor : MonitorDetails) (w : world) : world :=
  snd (WaitForStatus E 12 (Profile monitor) false 12
         (snd (StopProfile E (Profile monitor)
                 (add_log Info ("Restarting docker profile " +:+ Profile monitor)
                    w)))).

Module Web.

(** A profile named as the service [web], which [Sample.table] shows up;
    the compose file of [Sample.steady] has no profile of that name. *)
Definition web : MonitorDetails :=
  {| Profile := "web"; Type_ := "repo"; Owner := "acme"; Repo := "web";
     AllowPrerelease := false; AssetRegex := ".*"; AutoRestart := true;
     DestinationDirectory := None; RemoveParentFolder := false;
     CopyFiles := []; MonitorContainers := [] |}.

End Web.

(** The cache entry of one profile. *)
Definition cache_at (key : string) (w : world) : option string :=
  cache w !! key.

(** What is at a path below [current] of a profile. *)
Definition in_current (monitor : MonitorDetails) (q : Fs.path) (w : world)
  : option Fs.node :=
  Fs.lookup (dest monitor ++ "current" :: q) (fs w).

(** ** index.ts *)

(** The handler of [GET /start/:name]: the status code and [isStarting]. *)
Definition route_start (E : env) (monitors : list MonitorDetails)
    (name : string) : M (Z * bool) :=
  syncProfileFiles monitors name ;;
  success ← StartProfile E name;
  mret (if success : bool then 200 else 500, success).

(** ** Where two paths part *)

(** What is at a path. *)
Definition node_at (p : Fs.path) (w : world) : option Fs.node :=
  Fs.lookup p (fs w).

(** Two paths that share their first components and then differ. *)
Definition apart (p q : Fs.path) : Prop :=
  exists r a b p' q', p = r ++ a :: p' /\ q = r ++ b :: q' /\ a <> b.

(** The build of a fingerprint, [<destination>/builds/<fingerprint>]. *)
Definition build_at (monitor : MonitorDetails) (fingerprint : string)
  : world -> option Fs.node :=
  node_at (dest monitor ++ ["builds"; fingerprint]).

(** The auxiliary files are named outside [builds]. *)
Definition outside_builds (monitor : MonitorDetails) : Prop :=
  forall file, file ∈ CopyFiles monitor ->
               exists a rest, file = a :: rest /\ a <> "builds".

(** ** The worlds of a call that fetches *)

(** Whether the [builds] folder and the scratch folder were made ready. *)
Definition prepared (monitor : MonitorDetails) (url : string) (w : world)
  : bool :=
  match ensure_builds monitor w with
  | (Ok _, w1) =>
      match fst (prepare_temp monitor url w1) with
      | Ok _ => true
      | _ => false
      end
  | _ => false
  end.

(** The world in which the answer to the download request arrives. *)
Definition requested (monitor : MonitorDetails) (url : string) (w : world)
  : world :=
  add_effect (EGet url)
    (snd (prepare_temp monitor url (snd (ensure_builds monitor w)))).

(** ** Auxiliary files that are plain files *)

(** The line that the resync logs before it copies an entry. *)
Definition copying_line (monitor : MonitorDetails) (file : Fs.path)
  : level * string :=
  (Info, "Copying " +:+ Node.show (dest monitor ++ file) +:+ " to "
         +:+ Node.show (dest monitor ++ ["current"] ++ file)).

(** Every auxiliary entry is named outside [current], and its source and
    its active copy are files. *)
Definition plain_entries (monitor : MonitorDetails) (w : world) : Prop :=
  forall file,
    file ∈ CopyFiles monitor ->
    (exists a rest, file = a :: rest /\ a <> "current")
    /\ (exists c t,
          Fs.lookup (dest monitor ++ file) (fs w) = Some (Fs.File c t))
    /\ (exists c t,
          Fs.lookup (dest monitor ++ "current" :: file) (fs w)
          = Some (Fs.File c t)).

(** Every active copy in [w1] holds the text that its source held in [w],
    and so does the source; both carry the time of [w]. *)
Definition resynced (monitor : MonitorDetails) (w w1 : world) : Prop :=
  forall file c t,
    file ∈ CopyFiles monitor ->
    Fs.lookup (dest monitor ++ file) (fs w) = Some (Fs.File c t) ->
    Fs.lookup (dest monitor ++ file) (fs w1) = Some (Fs.File c (clock w))
    /\ Fs.lookup (dest monitor ++ "current" :: file) (fs w1)
       = Some (Fs.File c (clock w)).

(** ** The world of a cache hit *)

(** The world in which the resync of a cache hit starts: the evaluation
    was announced, the version was asked for, and the hit was logged. *)
Definition hit_world (announce url : string) (monitor : MonitorDetails)
    (v : string) (w : world) : world :=
  add_log Info (Profile monitor +:+ " has up-to-date version of " +:+ v)
    (add_effect (EGet url) (add_log Info announce w)).

(** ** Exceptions that nothing caught *)


(** * Properties *)

(** A closed decidable proposition, settled by evaluation. *)
Ltac closed_decide :=
  match goal with
  | |- ?P => refine (@bool_decide_unpack P _ _); vm_compute; exact I
  end.

Section DockerFacts.

Variable E : env.

Lemma GetStatuses_run (w : world) :
  GetStatuses E w =
    let r := exec_ps E (ps_runs w) in
    match exec_error r with
    | Some msg => (Ok (false, ∅), add_log Error msg (queried w))
    | None =>
        if JS.truthy (stderr r)
        then (Ok (false, ∅), add_log Error (stderr r) (queried w))
        else (Ok (true, parse_statuses E (stdout r)), queried w)
    end.
Proof.
  unfold GetStatuses, mbind, M_bind, exec_compose_ps; simpl.
  fold compose_ps. fold (queried w).
  destruct (exec_error (exec_ps E (ps_runs w))); [reflexivity|].
  destruct (JS.truthy (stderr (exec_ps E (ps_runs w)))); reflexivity.
Qed.

(** A status query that failed hands [(false, {})] to the callback. *)
Lemma GetStatuses_failed (w : world) :
  query_failed (exec_ps E (ps_runs w)) = true ->
  exists msg, GetStatuses E w = (Ok (false, ∅), add_log Error msg (queried w)).
Proof.
  intros Hf. rewrite GetStatuses_run. unfold query_failed in Hf. simpl.
  destruct (exec_error (exec_ps E (ps_runs w))) as [msg|]; [by exists msg|].
  rewrite Hf. by eexists.
Qed.

Lemma GetStatuses_succeeded (w : world) :
  query_failed (exec_ps E (ps_runs w)) = false ->
  GetStatuses E w
  = (Ok (true, parse_statuses E (stdout (exec_ps E (ps_runs w)))), queried w).
Proof.
  intros Hf. rewrite GetStatuses_run. unfold query_failed in Hf. simpl.
  destruct (exec_error (exec_ps E (ps_runs w))); [done|]. by rewrite Hf.
Qed.

(** One poll: what it answers and what it leaves behind. *)
Lemma GetContainerStatus_run (containerName : string) (w : world) :
  exists success w',
    GetContainerStatus E containerName w
    = (Ok (success, container_isUp E (exec_ps E (ps_runs w)) containerName), w')
    /\ ps_runs w' = S (ps_runs w)
    /\ effects w' = effects w ++ [EExec compose_ps]
    /\ clock w' = clock w /\ fs w' = fs w /\ cache w' = cache w
    /\ next_obj w' = next_obj w.
Proof.
  unfold GetContainerStatus, container_isUp, mbind, M_bind.
  destruct (query_failed (exec_ps E (ps_runs w))) eqn:Hq.
  - destruct (GetStatuses_failed w Hq) as [msg ->]. simpl.
    eexists _, _. split; [reflexivity|]. by simpl.
  - rewrite (GetStatuses_succeeded w Hq). simpl.
    destruct (JS.has (parse_statuses E (stdout (exec_ps E (ps_runs w))))
                containerName);
      simpl; eexists _, _; (split; [reflexivity|]); by simpl.
Qed.

Lemma WaitForStatus_zero fuel containerName desiredStatus (w : world) :
  WaitForStatus E fuel containerName desiredStatus 0 w = (Ok false, w).
Proof. by destruct fuel. Qed.

Lemma WaitForStatus_step fuel containerName desiredStatus attempts (w : world) :
  attempts <> 0 ->
  WaitForStatus E (S fuel) containerName desiredStatus attempts w =
    ('(success, isUp) ← GetContainerStatus E containerName;
     if JS.loose_eq isUp desiredStatus then mret true
     else setTimeout 5000 ;;
          WaitForStatus E fuel containerName desiredStatus (attempts - 1)) w.
Proof.
  intros Hne. simpl. destruct (Z.eqb_spec attempts 0); [done|reflexivity].
Qed.

(** The poll that first shows the wanted state ends the wait with success. *)
Lemma WaitForStatus_reaches containerName desiredStatus (k : nat) :
  forall (n fuel : nat) (w : world),
    (k < n)%nat -> (n <= fuel)%nat ->
    reached E containerName desiredStatus (ps_runs w + k) = true ->
    (forall j, (j < k)%nat ->
               reached E containerName desiredStatus (ps_runs w + j) = false) ->
    exists w',
      WaitForStatus E fuel containerName desiredStatus (Z.of_nat n) w
      = (Ok true, w')
      /\ ps_runs w' = (ps_runs w + S k)%nat
      /\ effects w' = effects w ++ rounds k ++ [EExec compose_ps]
      /\ clock w' = clock w + 5000 * Z.of_nat k
      /\ fs w' = fs w /\ cache w' = cache w.
Proof.
  induction k as [|k IH]; intros n fuel w Hk Hfuel Hnow Hbefore.
  - destruct fuel as [|fuel]; [lia|].
    rewrite WaitForStatus_step by lia.
    destruct (GetContainerStatus_run containerName w)
      as (s & w1 & Hrun & Hps & Heff & Hclk & Hfs & Hc & _).
    unfold mbind, M_bind. rewrite Hrun.
    unfold reached in Hnow. rewrite Nat.add_0_r in Hnow. rewrite Hnow.
    exists w1. simpl. repeat split; try done; lia.
  - destruct fuel as [|fuel]; [lia|].
    rewrite WaitForStatus_step by lia.
    destruct (GetContainerStatus_run containerName w)
      as (s & w1 & Hrun & Hps & Heff & Hclk & Hfs & Hc & _).
    unfold mbind, M_bind. rewrite Hrun.
    pose proof (Hbefore O ltac:(lia)) as H0.
    unfold reached in H0. rewrite Nat.add_0_r in H0. rewrite H0.
    unfold setTimeout, modify.
    set (w2 := with_clock (clock w1 + 5000) (add_effect (ETimeout 5000) w1)).
    destruct (IH (n - 1)%nat fuel w2) as (w' & Hw & Hps' & Heff' & Hclk' & Hfs' & Hc').
    + lia.
    + lia.
    + subst w2; simpl. rewrite Hps.
      replace (S (ps_runs w) + k)%nat with (ps_runs w + S k)%nat by lia. done.
    + intros j Hj. subst w2; simpl. rewrite Hps.
      replace (S (ps_runs w) + j)%nat with (ps_runs w + S j)%nat by lia.
      apply Hbefore. lia.
    + replace (Z.of_nat n - 1) with (Z.of_nat (n - 1)) by lia.
      exists w'. split; [exact Hw|].
      subst w2; simpl in *.
      repeat split.
      * lia.
      * rewrite Heff', Heff. rewrite <- !app_assoc. reflexivity.
      * lia.
      * congruence.
      * congruence.
Qed.

(** When no poll shows the wanted state, the wait fails after as many
    polls, and as many timers, as attempts were given. *)
Lemma WaitForStatus_exhausts containerName desiredStatus (n : nat) :
  forall (fuel : nat) (w : world),
    (n <= fuel)%nat ->
    (forall j, (j < n)%nat ->
               reached E containerName desiredStatus (ps_runs w + j) = false) ->
    exists w',
      WaitForStatus E fuel containerName desiredStatus (Z.of_nat n) w
      = (Ok false, w')
      /\ ps_runs w' = (ps_runs w + n)%nat
      /\ effects w' = effects w ++ rounds n
      /\ clock w' = clock w + 5000 * Z.of_nat n
      /\ fs w' = fs w /\ cache w' = cache w.
Proof.
  induction n as [|n IH]; intros fuel w Hfuel Hnever.
  - exists w. rewrite WaitForStatus_zero. simpl.
    rewrite app_nil_r. repeat split; lia.
  - destruct fuel as [|fuel]; [lia|].
    rewrite WaitForStatus_step by lia.
    destruct (GetContainerStatus_run containerName w)
      as (s & w1 & Hrun & Hps & Heff & Hclk & Hfs & Hc & _).
    unfold mbind, M_bind. rewrite Hrun.
    pose proof (Hnever O ltac:(lia)) as H0.
    unfold reached in H0. rewrite Nat.add_0_r in H0. rewrite H0.
    unfold setTimeout, modify.
    set (w2 := with_clock (clock w1 + 5000) (add_effect (ETimeout 5000) w1)).
    destruct (IH fuel w2) as (w' & Hw & Hps' & Heff' & Hclk' & Hfs' & Hc').
    + lia.
    + intros j Hj. subst w2; simpl. rewrite Hps.
      replace (S (ps_runs w) + j)%nat with (ps_runs w + S j)%nat by lia.
      apply Hnever. lia.
    + replace (Z.of_nat (S n) - 1) with (Z.of_nat n) by lia.
      exists w'. split; [exact Hw|].
      subst w2; simpl in *.
      repeat split.
      * lia.
      * rewrite Heff', Heff. rewrite <- !app_assoc. reflexivity.
      * lia.
      * congruence.
      * congruence.
Qed.


(** A count below zero never meets the test [attempts == 0]: while the
    wanted state is not seen the polling goes on, whatever the fuel. *)
Lemma WaitForStatus_negative_attempts containerName desiredStatus (fuel : nat) :
  forall (attempts : Z) (w : world),
    attempts < 0 ->
    (forall k, reached E containerName desiredStatus k = false) ->
    fst (WaitForStatus E fuel containerName desiredStatus attempts w) = Fuel.
Proof.
  induction fuel as [|fuel IH]; intros attempts w Hneg Hnever.
  - simpl. destruct (Z.eqb_spec attempts 0); [lia|reflexivity].
  - rewrite WaitForStatus_step by lia.
    destruct (GetContainerStatus_run containerName w)
      as (s & w1 & Hrun & _).
    unfold mbind, M_bind. rewrite Hrun.
    pose proof (Hnever (ps_runs w)) as H0. unfold reached in H0. rewrite H0.
    unfold setTimeout, modify. apply IH; [lia|done].
Qed.

End DockerFacts.

(** ** The status table *)

Section StatusTable.

Variable E : env.
Variable c : columns.

Lemma row_step_skipped results line :
  contributes c line = false -> row_step c results line = results.
Proof. unfold contributes, row_step. by intros ->. Qed.

Lemma row_step_own results line :
  contributes c line = true ->
  row_step c results line !! row_service c line = Some (row_isUp c line).
Proof.
  unfold contributes, row_step. intros ->. simpl.
  rewrite lookup_insert. case_decide; [done|].
  rewrite lookup_insert. case_decide; [done|].
  apply lookup_insert_eq.
Qed.

Lemma row_step_other results line (k : string) :
  (contributes c line = true -> k ∉ row_keys c line) ->
  row_step c results line !! k = results !! k.
Proof.
  intros Hk. destruct (contributes c line) eqn:Hc.
  - specialize (Hk eq_refl). unfold row_keys in Hk.
    apply not_elem_of_cons in Hk as [H1 Hk].
    apply not_elem_of_cons in Hk as [H2 Hk].
    apply not_elem_of_cons in Hk as [H3 _].
    unfold row_step. unfold contributes in Hc. rewrite Hc. simpl.
    rewrite !lookup_insert_ne by done. reflexivity.
  - by rewrite row_step_skipped.
Qed.

Lemma rows_other (rows : list string) results (k : string) :
  (forall l, l ∈ rows -> contributes c l = true -> k ∉ row_keys c l) ->
  fold_left (row_step c) rows results !! k = results !! k.
Proof.
  revert results. induction rows as [|l rows IH]; intros results Hk; [done|].
  simpl. rewrite IH.
  - apply row_step_other. intros Hc. apply Hk; [left|done].
  - intros l' Hl'. apply Hk. by right.
Qed.

(** The last row that writes an identifier decides its entry. *)
Lemma rows_last_writer (pre post : list string) line results :
  contributes c line = true ->
  (forall l, l ∈ post -> contributes c l = true ->
             row_service c line ∉ row_keys c l) ->
  fold_left (row_step c) (pre ++ line :: post) results !! row_service c line
  = Some (row_isUp c line).
Proof.
  intros Hc Hpost. rewrite fold_left_app. simpl.
  rewrite rows_other by done. by apply row_step_own.
Qed.

(** Rows with an empty service field leave the table as it is. *)
Lemma rows_skip_empty (rows : list string) results :
  fold_left (row_step c) rows results
  = fold_left (row_step c) (List.filter (contributes c) rows) results.
Proof.
  revert results. induction rows as [|l rows IH]; intros results; [done|].
  simpl. destruct (contributes c l) eqn:Hc; simpl.
  - apply IH.
  - rewrite row_step_skipped by done. apply IH.
Qed.

Lemma fill_services_kept (known : list string) results (k : string) (b : bool) :
  results !! k = Some b -> fill_services known results !! k = Some b.
Proof.
  revert results. induction known as [|s known IH]; intros results Hk; [done|].
  simpl. apply IH. destruct (results !! s) eqn:Hs; [done|].
  rewrite lookup_insert_ne; [done|]. intros ->. congruence.
Qed.

Lemma fill_services_known (known : list string) results (k : string) :
  k ∈ known -> is_Some (fill_services known results !! k).
Proof.
  revert results. induction known as [|s known IH]; intros results Hin.
  - by apply elem_of_nil in Hin.
  - simpl. apply elem_of_cons in Hin as [->|Hin]; [|by apply IH].
    destruct (results !! s) as [b|] eqn:Hs.
    + exists b. by apply fill_services_kept.
    + exists false. apply fill_services_kept. apply lookup_insert_eq.
Qed.

Lemma fill_services_absent (known : list string) results (k : string) :
  k ∈ known -> results !! k = None ->
  fill_services known results !! k = Some false.
Proof.
  revert results. induction known as [|s known IH]; intros results Hin Hk.
  - by apply elem_of_nil in Hin.
  - simpl. destruct (decide (k = s)) as [->|Hne].
    + rewrite Hk. apply fill_services_kept. apply lookup_insert_eq.
    + apply elem_of_cons in Hin as [?|Hin]; [done|].
      apply IH; [done|]. destruct (results !! s); [done|].
      by rewrite lookup_insert_ne.
Qed.

End StatusTable.

(** ** The file system *)

Lemma lookup_app_is_Some (p q : Fs.path) (n : Fs.node) :
  is_Some (Fs.lookup (p ++ q) n) -> is_Some (Fs.lookup p n).
Proof.
  revert n. induction p as [|k p IH]; intros n H; simpl in *; [by eexists|].
  destruct n as [|t es]; [done|]. destruct (Fs.assoc k es); [by apply IH|done].
Qed.

Lemma assoc_set_same k n es : Fs.assoc k (Fs.assoc_set k n es) = Some n.
Proof.
  induction es as [|[k' n'] es IH]; simpl.
  - by rewrite String.eqb_refl.
  - destruct (String.eqb k k') eqn:Hk; simpl; by rewrite ?String.eqb_refl, ?Hk.
Qed.

(** What was put at a path is found there. *)
Lemma lookup_put (p : Fs.path) (new n n' : Fs.node) :
  Fs.put p new n = Some n' -> Fs.lookup p n' = Some new.
Proof.
  revert n n'. induction p as [|k p IH]; intros n n' H; simpl in *.
  - congruence.
  - destruct n as [|t es]; [done|]. destruct p as [|k' p].
    + inversion H; subst. simpl. by rewrite assoc_set_same.
    + destruct (Fs.assoc k es) as [c|]; [|done].
      destruct (Fs.put (k' :: p) new c) as [c'|] eqn:Hc; [|done].
      inversion H; subst. cbn [Fs.lookup]. rewrite assoc_set_same.
      by apply (IH c).
Qed.

Lemma lookup_app (p q : Fs.path) (n : Fs.node) :
  Fs.lookup (p ++ q) n = Fs.lookup p n ≫= Fs.lookup q.
Proof.
  revert n. induction p as [|k p IH]; intros n; simpl; [done|].
  destruct n as [|t es]; [done|]. destruct (Fs.assoc k es); [apply IH|done].
Qed.

(** *** Paths that part ways *)

Lemma assoc_set_other k k' n es :
  k <> k' -> Fs.assoc k (Fs.assoc_set k' n es) = Fs.assoc k es.
Proof.
  intros Hne. induction es as [|[k0 n0] es IH]; simpl.
  - by rewrite (proj2 (String.eqb_neq k k') Hne).
  - destruct (String.eqb_spec k' k0) as [->|Hk0]; simpl.
    + by rewrite (proj2 (String.eqb_neq k k0) Hne).
    + destruct (String.eqb k k0); [done|exact IH].
Qed.

Lemma assoc_del_other k k' es :
  k <> k' -> Fs.assoc k (Fs.assoc_del k' es) = Fs.assoc k es.
Proof.
  intros Hne. induction es as [|[k0 n0] es IH]; simpl; [done|].
  destruct (String.eqb_spec k' k0) as [->|Hk0]; simpl.
  - by rewrite (proj2 (String.eqb_neq k k0) Hne).
  - destruct (String.eqb k k0); [done|exact IH].
Qed.

Lemma assoc_set_id k n es : Fs.assoc k es = Some n -> Fs.assoc_set k n es = es.
Proof.
  induction es as [|[k0 n0] es IH]; simpl; [done|].
  destruct (String.eqb_spec k k0) as [->|Hk0].
  - by intros [= ->].
  - intros H. by rewrite IH.
Qed.

(** Putting a node at one path leaves what is at a path that parts from it
    as it was. *)
Lemma lookup_put_apart (r : Fs.path) (a b : string) (p q : Fs.path)
    (new n n' : Fs.node) :
  a <> b ->
  Fs.put (r ++ b :: q) new n = Some n' ->
  Fs.lookup (r ++ a :: p) n' = Fs.lookup (r ++ a :: p) n.
Proof.
  intros Hne. revert n n'. induction r as [|k r IH]; intros n n' Hput.
  - simpl in *. destruct n as [|t es]; [done|].
    destruct q as [|k' q].
    + inversion Hput; subst. simpl. by rewrite assoc_set_other.
    + destruct (Fs.assoc b es) as [c|]; [|done].
      destruct (Fs.put (k' :: q) new c) as [c'|]; [|done].
      inversion Hput; subst. simpl. by rewrite assoc_set_other.
  - destruct n as [|t es]; [done|].
    change ((k :: r) ++ b :: q) with (k :: (r ++ b :: q)) in Hput.
    change ((k :: r) ++ a :: p) with (k :: (r ++ a :: p)).
    cbn [Fs.put] in Hput.
    destruct (r ++ b :: q) as [|k' rest] eqn:Hrest; [by destruct r|].
    destruct (Fs.assoc k es) as [c|] eqn:Hc; [|done].
    destruct (Fs.put (k' :: rest) new c) as [c'|] eqn:Hc'; [|done].
    inversion Hput; subst. cbn [Fs.lookup].
    rewrite assoc_set_same, Hc. by apply IH.
Qed.

Lemma lookup_remove_apart (r : Fs.path) (a b : string) (p q : Fs.path)
    (n : Fs.node) :
  a <> b ->
  Fs.lookup (r ++ a :: p) (Fs.remove (r ++ b :: q) n)
  = Fs.lookup (r ++ a :: p) n.
Proof.
  intros Hne. revert n. induction r as [|k r IH]; intros n.
  - simpl. destruct n as [|t es]; [done|].
    destruct q as [|k' q].
    + simpl. by rewrite assoc_del_other.
    + destruct (Fs.assoc b es) as [c|]; [|done].
      simpl. by rewrite assoc_set_other.
  - destruct n as [|t es]; [done|].
    change ((k :: r) ++ b :: q) with (k :: (r ++ b :: q)).
    change ((k :: r) ++ a :: p) with (k :: (r ++ a :: p)).
    cbn [Fs.remove].
    destruct (r ++ b :: q) as [|k' rest] eqn:Hrest; [by destruct r|].
    destruct (Fs.assoc k es) as [c|] eqn:Hc; [|done].
    cbn [Fs.lookup]. rewrite assoc_set_same, Hc. apply IH.
Qed.

(** A node can be put where a node is. *)
Lemma put_existing (p : Fs.path) (new n : Fs.node) :
  is_Some (Fs.lookup p n) -> is_Some (Fs.put p new n).
Proof.
  revert n. induction p as [|k p IH]; intros n H; simpl in *; [by eexists|].
  destruct n as [|t es]; [by destruct H|].
  destruct p as [|k' p]; [by eexists|].
  destruct (Fs.assoc k es) as [c|]; [|by destruct H].
  destruct (IH c H) as [c' ->]. by eexists.
Qed.

Lemma mkdirs_existing (now : Z) (p : Fs.path) (n : Fs.node) t es :
  Fs.lookup p n = Some (Fs.Dir t es) -> Fs.mkdirs now p n = Some n.
Proof.
  revert n. induction p as [|k p IH]; intros n H; simpl in *.
  - by inversion H.
  - destruct n as [|t0 es0]; [done|].
    destruct (Fs.assoc k es0) as [c|] eqn:Hc; [|done].
    rewrite (IH c H). by rewrite (assoc_set_id _ _ _ Hc).
Qed.

Lemma lookup_parent (p : Fs.path) (n c : Fs.node) :
  p <> [] -> Fs.lookup p n = Some c ->
  exists t es, Fs.lookup (removelast p) n = Some (Fs.Dir t es).
Proof.
  revert n. induction p as [|k p IH]; intros n Hp H; [done|].
  destruct n as [|t es]; [done|].
  destruct p as [|k' p]; [by eexists _, _|].
  change (removelast (k :: k' :: p)) with (k :: removelast (k' :: p)).
  simpl in H |- *. destruct (Fs.assoc k es) as [c0|]; [|done].
  by apply IH.
Qed.

Lemma is_prefix_app (p q : Fs.path) :
  Fs.is_prefix p q = true -> exists rest, q = p ++ rest.
Proof.
  revert q. induction p as [|a p IH]; intros q H; [by exists q|].
  destruct q as [|b q]; [done|]. simpl in H.
  apply andb_true_iff in H as [Hab Hpq].
  apply String.eqb_eq in Hab as ->.
  destruct (IH q Hpq) as [rest ->]. by exists rest.
Qed.

Lemma paths_apart (p q : Fs.path) :
  Fs.is_prefix p q = false -> Fs.is_prefix q p = false ->
  exists r a b p' q', p = r ++ a :: p' /\ q = r ++ b :: q' /\ a <> b.
Proof.
  revert q. induction p as [|a p IH]; intros q Hpq Hqp; [done|].
  destruct q as [|b q]; [done|]. simpl in Hpq, Hqp.
  destruct (String.eqb_spec a b) as [->|Hne].
  - rewrite String.eqb_refl in Hqp. simpl in *.
    destruct (IH q Hpq Hqp) as (r & a' & b' & p' & q' & -> & -> & Hne).
    by exists (b :: r), a', b', p', q'.
  - by exists [], a, b, p, q.
Qed.

Lemma lookup_below_file (p rest : Fs.path) (n : Fs.node) c t :
  Fs.lookup p n = Some (Fs.File c t) -> rest <> [] ->
  Fs.lookup (p ++ rest) n = None.
Proof.
  intros Hp Hrest. rewrite lookup_app, Hp. by destruct rest.
Qed.

Lemma lookup_mkdirs_below (now : Z) (p x : Fs.path) (n f : Fs.node) :
  x <> [] -> Fs.mkdirs now p n = Some f ->
  Fs.lookup (p ++ x) f = Fs.lookup (p ++ x) n.
Proof.
  intros Hx. revert n f. induction p as [|k p IH]; intros n f; simpl.
  - destruct n; [done|]. by intros [= <-].
  - destruct n as [|t es]; [done|].
    destruct (Fs.mkdirs now p _) as [c'|] eqn:Hmk; [|done]. intros [= <-].
    simpl. rewrite assoc_set_same, (IH _ _ Hmk).
    destruct (Fs.assoc k es); [done|].
    destruct (p ++ x) eqn:Hpx; [by destruct p, x|done].
Qed.

Lemma lookup_mkdirs_apart (r : Fs.path) (a b : string) (p q : Fs.path)
    (now : Z) (n f : Fs.node) :
  a <> b -> Fs.mkdirs now (r ++ b :: q) n = Some f ->
  Fs.lookup (r ++ a :: p) f = Fs.lookup (r ++ a :: p) n.
Proof.
  intros Hab. revert n f. induction r as [|k r IH]; intros n f; simpl.
  - destruct n as [|t es]; [done|].
    destruct (Fs.mkdirs now q _); [|done]. intros [= <-]. simpl.
    by rewrite assoc_set_other.
  - destruct n as [|t es]; [done|].
    destruct (Fs.mkdirs now (r ++ b :: q) _) as [c'|] eqn:Hmk; [|done].
    intros [= <-]. simpl. rewrite assoc_set_same, (IH _ _ Hmk).
    destruct (Fs.assoc k es); [done|]. by destruct r.
Qed.

(** ** Parts of the world a computation leaves alone *)

Lemma blind_cache : blind cache.
Proof. by split. Qed.

Lemma blind_requests : blind requests.
Proof.
  split; try done.
  intros e w He. unfold requests. simpl.
  rewrite List.filter_app. simpl. rewrite He. apply app_nil_r.
Qed.

Section Keeps.

Context {X : Type} (view : world -> X).

Lemma keeps_ret {A} (a : A) : keeps view (mret a).
Proof. by intros w. Qed.

Lemma keeps_throw {A} (e : string) : keeps view (@throw A e).
Proof. by intros w. Qed.

Lemma keeps_get {A} (f : world -> A) : keeps view (get f).
Proof. by intros w. Qed.

Lemma keeps_bind {A B} (m : M A) (f : A -> M B) :
  keeps view m -> (forall a, keeps view (f a)) -> keeps view (m ≫= f).
Proof.
  intros Hm Hf w. unfold mbind, M_bind.
  specialize (Hm w). destruct (m w) as [[a|e|] w']; simpl in *; [|done|done].
  by rewrite Hf.
Qed.

Lemma keeps_catch {A} (m : M A) (h : string -> M A) :
  keeps view m -> (forall e, keeps view (h e)) -> keeps view (catch_ m h).
Proof.
  intros Hm Hh w. unfold catch_.
  specialize (Hm w). destruct (m w) as [[a|e|] w']; simpl in *; [done| |done].
  by rewrite Hh.
Qed.

Lemma keeps_finally {A} (m : M A) (k : M unit) :
  keeps view m -> keeps view k -> keeps view (finally_ m k).
Proof.
  intros Hm Hk w. unfold finally_.
  specialize (Hm w). destruct (m w) as [r w']; simpl in *.
  by rewrite Hk.
Qed.

Lemma keeps_forEach {A} (f : A -> M unit) (l : list A) :
  (forall a, keeps view (f a)) -> keeps view (forEach f l).
Proof.
  intros Hf. induction l as [|a l IH]; simpl.
  - apply keeps_ret.
  - apply keeps_bind; [apply Hf|by intros _].
Qed.

Lemma keeps_if {A} (b : bool) (m1 m2 : M A) :
  keeps view m1 -> keeps view m2 -> keeps view (if b then m1 else m2).
Proof. by destruct b. Qed.

Hypothesis Hblind : blind view.

Lemma keeps_info msg : keeps view (Logger.info msg).
Proof. intros w. apply (blind_log _ Hblind). Qed.

Lemma keeps_error msg : keeps view (Logger.error msg).
Proof. intros w. apply (blind_log _ Hblind). Qed.

Lemma keeps_detached (m : M unit) : keeps view m -> keeps view (detached m).
Proof.
  intros Hm. apply keeps_catch; [done|].
  intros e w. simpl. by rewrite (blind_effect _ Hblind).
Qed.

Lemma keeps_new_Date : keeps view new_Date.
Proof. intros w. apply (blind_obj _ Hblind). Qed.

Lemma keeps_setTimeout ms : keeps view (setTimeout ms).
Proof.
  intros w. simpl. rewrite (blind_clock _ Hblind).
  by rewrite (blind_effect _ Hblind).
Qed.

Lemma keeps_spawn cmd : keeps view (spawn cmd).
Proof. intros w. simpl. by rewrite (blind_effect _ Hblind). Qed.

Ltac fs_only :=
  let w := fresh "w" in
  intros w; cbv beta delta [Node.existsSync Node.mkdirSync Node.rmSync
    Node.renameSync Node.cpSync Node.utimesSync Node.readdirSync
    Node.writeStream extract get modify];
  repeat case_match; simpl; try done; apply (blind_fs _ Hblind).

Lemma keeps_existsSync p : keeps view (Node.existsSync p).
Proof. fs_only. Qed.
Lemma keeps_mkdirSync p : keeps view (Node.mkdirSync p).
Proof. fs_only. Qed.
Lemma keeps_rmSync p : keeps view (Node.rmSync p).
Proof. fs_only. Qed.
Lemma keeps_renameSync p q : keeps view (Node.renameSync p q).
Proof. fs_only. Qed.
Lemma keeps_cpSync p q : keeps view (Node.cpSync p q).
Proof. fs_only. Qed.
Lemma keeps_utimesSync p a b : keeps view (Node.utimesSync p a b).
Proof. fs_only. Qed.
Lemma keeps_readdirSync p : keeps view (Node.readdirSync p).
Proof. fs_only. Qed.
Lemma keeps_writeStream p b : keeps view (Node.writeStream p b).
Proof. fs_only. Qed.

Variable E : env.

Lemma keeps_extract p q : keeps view (extract E p q).
Proof. fs_only. Qed.

Lemma keeps_GetStatuses : keeps view (GetStatuses E).
Proof.
  intros w. rewrite GetStatuses_run. simpl.
  assert (view (queried w) = view w) as Hq.
  { unfold queried. rewrite (blind_ps _ Hblind).
    by rewrite (blind_effect _ Hblind). }
  repeat case_match; simpl; by rewrite ?(blind_log _ Hblind).
Qed.

Lemma keeps_GetContainerStatus name : keeps view (GetContainerStatus E name).
Proof.
  apply keeps_bind; [apply keeps_GetStatuses|].
  intros [success statuses]. apply keeps_if; [apply keeps_ret|].
  apply keeps_if; [|apply keeps_ret].
  apply keeps_bind; [apply keeps_error|intros _; apply keeps_ret].
Qed.

Lemma keeps_WaitForStatus fuel name desired attempts :
  keeps view (WaitForStatus E fuel name desired attempts).
Proof.
  revert attempts. induction fuel as [|fuel IH]; intros attempts; simpl.
  - apply keeps_if; [apply keeps_ret|by intros w].
  - apply keeps_if; [apply keeps_ret|].
    apply keeps_bind; [apply keeps_GetContainerStatus|].
    intros [success isUp]. apply keeps_if; [apply keeps_ret|].
    apply keeps_bind; [apply keeps_setTimeout|intros _; apply IH].
Qed.

Lemma keeps_StartProfile p : keeps view (StartProfile E p).
Proof.
  apply keeps_bind; [apply keeps_info|intros _].
  apply keeps_if.
  - apply keeps_bind; [apply keeps_error|intros _; apply keeps_ret].
  - apply keeps_bind; [apply keeps_spawn|intros _; apply keeps_ret].
Qed.

Lemma keeps_StopProfile p : keeps view (StopProfile E p).
Proof.
  apply keeps_if.
  - apply keeps_bind; [apply keeps_error|intros _; apply keeps_ret].
  - apply keeps_bind; [apply keeps_info|intros _].
    apply keeps_bind; [apply keeps_spawn|intros _; apply keeps_ret].
Qed.

Lemma keeps_sync_one monitor file : keeps view (sync_one monitor file).
Proof.
  unfold sync_one.
  apply keeps_bind; [apply keeps_new_Date|intros sourceDate].
  apply keeps_bind; [apply keeps_new_Date|intros destinationDate].
  apply keeps_bind; [apply keeps_new_Date|intros atime].
  apply keeps_bind; [apply keeps_utimesSync|intros _].
  apply keeps_bind; [apply keeps_new_Date|intros atime'].
  apply keeps_bind; [apply keeps_utimesSync|intros _].
  apply keeps_if; [|apply keeps_ret].
  apply keeps_bind; [apply keeps_info|intros _; apply keeps_cpSync].
Qed.

Lemma keeps_syncMonitorFiles monitor : keeps view (syncMonitorFiles monitor).
Proof. apply keeps_forEach, keeps_sync_one. Qed.

Lemma keeps_stopAndRestart monitor : keeps view (stopAndRestart E monitor).
Proof.
  unfold stopAndRestart.
  apply keeps_bind; [apply keeps_info|intros _].
  apply keeps_bind; [apply keeps_StopProfile|intros _].
  apply keeps_detached.
  apply keeps_bind; [apply keeps_WaitForStatus|intros success].
  apply keeps_if; [|apply keeps_error].
  apply keeps_bind; [apply keeps_syncMonitorFiles|intros _].
  apply keeps_bind; [apply keeps_StartProfile|intros _; apply keeps_ret].
Qed.

Lemma keeps_checkMonitorStatus monitor ups :
  keeps view (checkMonitorStatus E monitor ups).
Proof.
  unfold checkMonitorStatus.
  apply keeps_if; [apply keeps_ret|].
  apply keeps_bind; [apply keeps_info|intros _].
  apply keeps_if; [|apply keeps_info].
  apply keeps_bind; [apply keeps_info|intros _; apply keeps_stopAndRestart].
Qed.

Lemma keeps_move_to_builds monitor v : keeps view (move_to_builds monitor v).
Proof.
  unfold move_to_builds.
  apply keeps_bind; [apply keeps_info|intros _].
  apply keeps_bind.
  - apply keeps_if; [|apply keeps_ret].
    apply keeps_bind; [apply keeps_readdirSync|intros es; apply keeps_ret].
  - intros copyPath.
    apply keeps_bind; [apply keeps_info|intros _; apply keeps_renameSync].
Qed.

Lemma keeps_replace_current monitor v : keeps view (replace_current monitor v).
Proof.
  unfold replace_current.
  apply keeps_bind; [apply keeps_existsSync|intros c].
  apply keeps_bind.
  - apply keeps_if; [|apply keeps_ret].
    apply keeps_bind; [apply keeps_info|intros _; apply keeps_rmSync].
  - intros _.
    apply keeps_bind; [apply keeps_info|intros _; apply keeps_cpSync].
Qed.

Lemma keeps_copy_auxiliary monitor : keeps view (copy_auxiliary monitor).
Proof.
  apply keeps_forEach. intros file.
  apply keeps_bind; [apply keeps_info|intros _; apply keeps_cpSync].
Qed.

Lemma keeps_promote_files monitor v : keeps view (promote_files monitor v).
Proof.
  unfold promote_files.
  apply keeps_bind; [apply keeps_move_to_builds|intros _].
  apply keeps_bind; [apply keeps_replace_current|intros _].
  apply keeps_copy_auxiliary.
Qed.

Lemma keeps_stage monitor bytes : keeps view (stage E monitor bytes).
Proof.
  unfold stage.
  apply keeps_bind; [apply keeps_writeStream|intros _; apply keeps_extract].
Qed.

Lemma keeps_restart_after_update monitor isInit :
  keeps view (restart_after_update E monitor isInit).
Proof.
  unfold restart_after_update.
  apply keeps_if; [apply keeps_stopAndRestart|].
  apply keeps_if; [apply keeps_stopAndRestart|apply keeps_ret].
Qed.

End Keeps.

(** ** What starting and stopping a profile does *)

Lemma StartProfile_run (E : env) (profileName : string) (w : world) :
  StartProfile E profileName w
  = if includes (profiles (docker E)) profileName
    then (Ok true,
          add_effect
            (ESpawn ("docker compose --profile " +:+ profileName +:+ " up --build"))
            (add_log Info ("Starting profile " +:+ profileName) w))
    else (Ok false,
          add_log Error ("Invalid profile " +:+ profileName)
            (add_log Info ("Starting profile " +:+ profileName) w)).
Proof.
  unfold StartProfile, mbind, M_bind. simpl.
  by destruct (includes (profiles (docker E)) profileName).
Qed.

Lemma StopProfile_run (E : env) (profileName : string) (w : world) :
  StopProfile E profileName w
  = if includes (profiles (docker E)) profileName
    then (Ok true,
          add_effect
            (ESpawn ("docker compose --profile " +:+ profileName +:+ " stop"))
            (add_log Info ("Stopping profile " +:+ profileName) w))
    else (Ok false, add_log Error ("Invalid profile " +:+ profileName) w).
Proof.
  unfold StopProfile, mbind, M_bind.
  by destruct (includes (profiles (docker E)) profileName).
Qed.

(** ** Paths that a computation leaves alone *)

Section Apart.

Variable T : Fs.path.

Lemma put_apart (p : Fs.path) (new n f : Fs.node) :
  apart T p -> Fs.put p new n = Some f -> Fs.lookup T f = Fs.lookup T n.
Proof.
  intros (r & a & b & t & q & -> & -> & Hab) Hput.
  by apply (lookup_put_apart r a b t q _ _ _ Hab Hput).
Qed.

Lemma remove_apart (p : Fs.path) (n : Fs.node) :
  apart T p -> Fs.lookup T (Fs.remove p n) = Fs.lookup T n.
Proof.
  intros (r & a & b & t & q & -> & -> & Hab).
  by apply lookup_remove_apart.
Qed.

Lemma mkdirs_apart (now : Z) (p : Fs.path) (n f : Fs.node) :
  apart T p -> Fs.mkdirs now p n = Some f -> Fs.lookup T f = Fs.lookup T n.
Proof.
  intros (r & a & b & t & q & -> & -> & Hab) Hmk.
  by apply (lookup_mkdirs_apart r a b t q _ _ _ Hab Hmk).
Qed.

Lemma mkdirs_parent_apart (now : Z) (p : Fs.path) (n f : Fs.node) :
  apart T p -> Fs.mkdirs now (Node.parent p) n = Some f ->
  Fs.lookup T f = Fs.lookup T n.
Proof.
  intros (r & a & b & t & q & -> & -> & Hab). unfold Node.parent.
  destruct q as [|c q].
  - rewrite removelast_last. by apply lookup_mkdirs_below.
  - rewrite removelast_app by done.
    change (removelast (b :: c :: q)) with (b :: removelast (c :: q)).
    by apply lookup_mkdirs_apart.
Qed.

Lemma keeps_fs {A} (m : M A) : keeps fs m -> keeps (node_at T) m.
Proof. intros Hm w. unfold node_at. by rewrite Hm. Qed.

Lemma apart_mkdirSync p : apart T p -> keeps (node_at T) (Node.mkdirSync p).
Proof.
  intros Hp w. unfold Node.mkdirSync.
  destruct (Fs.lookup p (fs w)); [done|].
  destruct (Fs.put p _ (fs w)) as [f|] eqn:Hput; [|done].
  by apply (put_apart _ _ _ _ Hp Hput).
Qed.

Lemma apart_rmSync p : apart T p -> keeps (node_at T) (Node.rmSync p).
Proof. intros Hp w. by apply remove_apart. Qed.

Lemma apart_renameSync p q :
  apart T p -> apart T q -> keeps (node_at T) (Node.renameSync p q).
Proof.
  intros Hp Hq w. unfold Node.renameSync.
  destruct (Fs.lookup p (fs w)) as [n|]; [|done].
  destruct (bool_decide (p = q)); [done|].
  destruct (Fs.is_prefix p q); [done|].
  destruct (Node.rename_conflict n _); [done|].
  destruct (Fs.put q n _) as [f|] eqn:Hput; [|done].
  unfold node_at. simpl.
  by rewrite (put_apart _ _ _ _ Hq Hput), remove_apart.
Qed.

Lemma apart_cpSync p q : apart T q -> keeps (node_at T) (Node.cpSync p q).
Proof.
  intros Hq w. unfold Node.cpSync.
  destruct (Fs.lookup p (fs w)) as [n|]; [|done].
  destruct (Fs.is_prefix p q); [done|].
  destruct (Fs.mkdirs _ _ (fs w)) as [f1|] eqn:Hmk; [|done].
  destruct (Fs.copy_node _ n _) as [c|]; [|done].
  destruct (Fs.put q c f1) as [f2|] eqn:Hput; [|done].
  unfold node_at. simpl.
  by rewrite (put_apart _ _ _ _ Hq Hput), (mkdirs_parent_apart _ _ _ _ Hq Hmk).
Qed.

Lemma apart_utimesSync p a b :
  apart T p -> keeps (node_at T) (Node.utimesSync p a b).
Proof.
  intros Hp w. unfold Node.utimesSync.
  destruct (Fs.lookup p (fs w)) as [n|]; [|done].
  destruct (Fs.put p _ (fs w)) as [f|] eqn:Hput; [|done].
  by apply (put_apart _ _ _ _ Hp Hput).
Qed.

Lemma apart_writeStream p bytes :
  apart T p -> keeps (node_at T) (Node.writeStream p bytes).
Proof.
  intros Hp w. unfold Node.writeStream.
  assert (node_at T
            (snd (match Fs.put p (Fs.File bytes (clock w)) (fs w) with
                  | Some f => (Ok tt, with_fs f w)
                  | None => (Throw "ENOENT", w)
                  end)) = node_at T w) as Hput.
  { destruct (Fs.put p _ (fs w)) as [f|] eqn:Hput; [|done].
    by apply (put_apart _ _ _ _ Hp Hput). }
  by destruct (Fs.lookup p (fs w)) as [[]|].
Qed.

Lemma apart_extract (E : env) zip dir :
  apart T dir -> keeps (node_at T) (extract E zip dir).
Proof.
  intros Hd w. unfold extract.
  destruct (Fs.lookup zip (fs w)) as [[bytes t|]|]; [|done|done].
  destruct (unzip E bytes) as [entries|]; [|done].
  destruct (Fs.mkdirs _ dir (fs w)) as [f1|] eqn:Hmk; [|done].
  destruct (Fs.copy_node _ _ _) as [c|]; [|done].
  destruct (Fs.put dir c f1) as [f2|] eqn:Hput; [|done].
  unfold node_at. simpl.
  by rewrite (put_apart _ _ _ _ Hd Hput), (mkdirs_apart _ _ _ _ Hd Hmk).
Qed.

Lemma node_info msg : keeps (node_at T) (Logger.info msg).
Proof. by intros w. Qed.

Lemma node_error msg : keeps (node_at T) (Logger.error msg).
Proof. by intros w. Qed.

Lemma node_new_Date : keeps (node_at T) new_Date.
Proof. by intros w. Qed.

Lemma node_detached (m : M unit) :
  keeps (node_at T) m -> keeps (node_at T) (detached m).
Proof. intros Hm. apply keeps_catch; [done|]. by intros e w. Qed.

End Apart.

Section Untouched.

Variable E : env.

Lemma fs_GetStatuses : keeps fs (GetStatuses E).
Proof. intros w. rewrite GetStatuses_run. simpl. by repeat case_match. Qed.

Lemma fs_GetContainerStatus name : keeps fs (GetContainerStatus E name).
Proof.
  apply keeps_bind; [apply fs_GetStatuses|].
  intros [success statuses]. apply keeps_if; [apply keeps_ret|].
  apply keeps_if; [|apply keeps_ret].
  apply keeps_bind; [by intros w|intros _; apply keeps_ret].
Qed.

Lemma fs_WaitForStatus fuel name desired attempts :
  keeps fs (WaitForStatus E fuel name desired attempts).
Proof.
  revert attempts. induction fuel as [|fuel IH]; intros attempts; simpl.
  - apply keeps_if; [apply keeps_ret|by intros w].
  - apply keeps_if; [apply keeps_ret|].
    apply keeps_bind; [apply fs_GetContainerStatus|].
    intros [success isUp]. apply keeps_if; [apply keeps_ret|].
    apply keeps_bind; [by intros w|intros _; apply IH].
Qed.

Lemma fs_StartProfile p : keeps fs (StartProfile E p).
Proof. intros w. rewrite StartProfile_run. by case_match. Qed.

Lemma fs_StopProfile p : keeps fs (StopProfile E p).
Proof. intros w. rewrite StopProfile_run. by case_match. Qed.

End Untouched.

Section Builds.

Variable E : env.
Variable monitor : MonitorDetails.
Variable fingerprint : string.
Hypothesis Houtside : outside_builds monitor.

Lemma apart_from_build (a : string) (q : Fs.path) :
  a <> "builds" ->
  apart (dest monitor ++ ["builds"; fingerprint]) (dest monitor ++ a :: q).
Proof.
  intros Ha. exists (dest monitor), "builds", a, [fingerprint], q.
  by repeat split.
Qed.

Lemma apart_from_other_build (other : string) :
  other <> fingerprint ->
  apart (dest monitor ++ ["builds"; fingerprint])
        (dest monitor ++ ["builds"; other]).
Proof.
  intros Ho. exists (dest monitor ++ ["builds"]), fingerprint, other, [], [].
  rewrite <- !app_assoc. by repeat split.
Qed.

Lemma build_sync_one file :
  file ∈ CopyFiles monitor ->
  keeps (build_at monitor fingerprint) (sync_one monitor file).
Proof.
  intros Hin. destruct (Houtside file Hin) as (a & rest & -> & Ha).
  unfold sync_one, build_at.
  repeat (apply keeps_bind; [apply node_new_Date|intros ?]).
  apply keeps_bind; [by apply apart_utimesSync, apart_from_build|intros _].
  apply keeps_bind; [apply node_new_Date|intros ?].
  apply keeps_bind; [by apply apart_utimesSync, apart_from_build|intros _].
  apply keeps_if; [|apply keeps_ret].
  apply keeps_bind; [apply node_info|intros _].
  by apply apart_cpSync, apart_from_build.
Qed.

Lemma keeps_forEach_in {X A} (view : world -> X) (f : A -> M unit) (l : list A) :
  (forall a, a ∈ l -> keeps view (f a)) -> keeps view (forEach f l).
Proof.
  induction l as [|a l IH]; intros Hf; simpl.
  - apply keeps_ret.
  - apply keeps_bind; [apply Hf; by left|intros _].
    apply IH. intros b Hb. apply Hf. by right.
Qed.

Lemma build_syncMonitorFiles :
  keeps (build_at monitor fingerprint) (syncMonitorFiles monitor).
Proof. apply keeps_forEach_in. apply build_sync_one. Qed.

Lemma build_stopAndRestart :
  keeps (build_at monitor fingerprint) (stopAndRestart E monitor).
Proof.
  unfold stopAndRestart, build_at.
  apply keeps_bind; [apply node_info|intros _].
  apply keeps_bind; [apply keeps_fs, fs_StopProfile|intros _].
  apply node_detached.
  apply keeps_bind; [apply keeps_fs, fs_WaitForStatus|intros success].
  apply keeps_if; [|apply node_error].
  apply keeps_bind; [apply build_syncMonitorFiles|intros _].
  apply keeps_bind; [apply keeps_fs, fs_StartProfile|intros _; apply keeps_ret].
Qed.

Lemma build_ensure_builds :
  keeps (build_at monitor fingerprint) (ensure_builds monitor).
Proof.
  intros w. unfold ensure_builds, mbind, M_bind, Node.existsSync, get.
  destruct (Fs.lookup (dest monitor ++ ["builds"]) (fs w)) eqn:Hb; simpl; [done|].
  unfold Node.mkdirSync. simpl. rewrite Hb.
  destruct (Fs.put (dest monitor ++ ["builds"]) _ (fs w)) as [f|] eqn:Hput;
    simpl; [|done].
  unfold build_at, node_at. simpl.
  change (dest monitor ++ ["builds"; fingerprint])
    with (dest monitor ++ ["builds"] ++ [fingerprint]).
  rewrite !app_assoc, !(lookup_app (dest monitor ++ ["builds"])), Hb,
    (lookup_put _ _ _ _ Hput).
  done.
Qed.

Lemma build_already_built cacheValue isInit :
  keeps (build_at monitor fingerprint) (already_built E monitor cacheValue isInit).
Proof.
  unfold already_built.
  apply keeps_bind; [apply node_info|intros _].
  apply keeps_bind; [by intros w|intros _].
  apply keeps_if; [apply build_stopAndRestart|apply keeps_ret].
Qed.

Lemma build_restart_if isInit :
  keeps (build_at monitor fingerprint)
        (if autostart E isInit monitor then stopAndRestart E monitor else mret tt).
Proof. apply keeps_if; [apply build_stopAndRestart|apply keeps_ret]. Qed.

Lemma keeps_bind_post {X A B} (view : world -> X) (P : A -> Prop)
    (m : M A) (f : A -> M B) :
  keeps view m ->
  (forall w a w', m w = (Ok a, w') -> P a) ->
  (forall a, P a -> keeps view (f a)) ->
  keeps view (m ≫= f).
Proof.
  intros Hm HP Hf w. unfold mbind, M_bind.
  specialize (Hm w). specialize (HP w).
  destruct (m w) as [[a|e|] w']; simpl in *; [|done|done].
  rewrite (Hf a); [done|]. by eapply HP.
Qed.

Lemma build_move_to_builds cacheValue :
  cacheValue <> fingerprint ->
  keeps (build_at monitor fingerprint) (move_to_builds monitor cacheValue).
Proof.
  intros Hne. unfold move_to_builds, build_at.
  apply keeps_bind; [apply node_info|intros _].
  apply (keeps_bind_post _
           (apart (dest monitor ++ ["builds"; fingerprint]))).
  - destruct (RemoveParentFolder monitor); [|apply keeps_ret].
    apply keeps_bind; [apply keeps_readdirSync|intros es; apply keeps_ret].
  - intros w a w'. destruct (RemoveParentFolder monitor).
    + unfold mbind, M_bind.
      destruct (Node.readdirSync _ w) as [[es|e|] w1]; [|done|done].
      intros [= <- _]. rewrite <- app_assoc. by apply apart_from_build.
    + intros [= <- _]. by apply apart_from_build.
  - intros a Ha. apply keeps_bind; [apply node_info|intros _].
    apply apart_renameSync; [done|by apply apart_from_other_build].
Qed.

Lemma build_replace_current cacheValue :
  keeps (build_at monitor fingerprint) (replace_current monitor cacheValue).
Proof.
  unfold replace_current, build_at.
  apply keeps_bind; [apply keeps_existsSync|intros c].
  apply keeps_bind; [|intros _].
  { apply keeps_if; [|apply keeps_ret].
    apply keeps_bind; [apply node_info|intros _].
    by apply apart_rmSync, apart_from_build. }
  apply keeps_bind; [apply node_info|intros _].
  by apply apart_cpSync, apart_from_build.
Qed.

Lemma build_copy_auxiliary :
  keeps (build_at monitor fingerprint) (copy_auxiliary monitor).
Proof.
  unfold copy_auxiliary, build_at. apply keeps_forEach. intros file.
  apply keeps_bind; [apply node_info|intros _].
  apply apart_cpSync. rewrite <- app_assoc. by apply apart_from_build.
Qed.

Lemma build_promote cacheValue isInit :
  cacheValue <> fingerprint ->
  keeps (build_at monitor fingerprint) (promote E monitor cacheValue isInit).
Proof.
  intros Hne. unfold promote, promote_files.
  apply keeps_bind; [|intros _].
  { apply keeps_bind; [by apply build_move_to_builds|intros _].
    apply keeps_bind; [apply build_replace_current|intros _].
    apply build_copy_auxiliary. }
  apply keeps_bind; [by intros w|intros _].
  unfold restart_after_update.
  apply keeps_if; [apply build_stopAndRestart|apply build_restart_if].
Qed.

Lemma build_staged cacheValue isInit status bytes :
  cacheValue <> fingerprint ->
  keeps (build_at monitor fingerprint)
        (staged E monitor cacheValue isInit status bytes).
Proof.
  intros Hne. unfold staged.
  apply keeps_if; [apply build_restart_if|].
  apply keeps_catch.
  - apply node_detached. apply keeps_bind; [|intros _].
    + unfold stage. apply keeps_bind; [|intros _].
      * by apply apart_writeStream, apart_from_build.
      * by apply apart_extract, apart_from_build.
    + apply keeps_finally; [by apply build_promote|].
      by apply apart_rmSync, apart_from_build.
  - intros e. apply keeps_bind; [apply node_error|intros _].
    apply build_restart_if.
Qed.

Lemma build_fetch_and_promote url cacheValue isInit :
  cacheValue <> fingerprint ->
  keeps (build_at monitor fingerprint)
        (fetch_and_promote E monitor url cacheValue isInit).
Proof.
  intros Hne. unfold fetch_and_promote.
  apply keeps_bind; [|intros _].
  { unfold prepare_temp.
    apply keeps_bind; [apply keeps_existsSync|intros t].
    apply keeps_bind; [|intros _].
    { apply keeps_if; [|apply keeps_ret].
      by apply apart_rmSync, apart_from_build. }
    apply keeps_bind; [|intros _; apply node_info].
    by apply apart_mkdirSync, apart_from_build. }
  apply keeps_catch; [|intros e; apply node_error].
  apply keeps_bind.
  - intros w. unfold axios_get. by case_match.
  - intros [status bytes]. by apply build_staged.
Qed.

End Builds.

(** ** Exceptions that do not reach the caller *)

Section NoThrow.

Variable E : env.
Variable monitor : MonitorDetails.

Lemma detached_no_throw (m : M unit) (w : world) (e : string) :
  fst (detached m w) <> Throw e.
Proof.
  unfold detached, catch_, modify. by destruct (m w) as [[[]|e'|] w'].
Qed.

Lemma StopProfile_returns (p : string) (w : world) :
  exists b w', StopProfile E p w = (Ok b, w').
Proof.
  unfold StopProfile, mbind, M_bind.
  destruct (negb (includes (profiles (docker E)) p)); simpl; by eexists _, _.
Qed.

Lemma stopAndRestart_no_throw (w : world) (e : string) :
  fst (stopAndRestart E monitor w) <> Throw e.
Proof.
  unfold stopAndRestart, mbind at 1 2, M_bind at 1 2. simpl.
  destruct (StopProfile_returns (Profile monitor)
              (add_log Info ("Restarting docker profile " +:+ Profile monitor) w))
    as (b & w1 & ->).
  apply detached_no_throw.
Qed.

Lemma catch_no_throw {A} (m : M A) (h : string -> M A) (w : world) :
  (forall e, fst (m w) <> Throw e) -> catch_ m h w = m w.
Proof.
  intros H. unfold catch_. destruct (m w) as [[a|e|] w1]; try done.
  by destruct (H e).
Qed.

Lemma restart_after_update_no_throw (isInit : bool) (w : world) (e : string) :
  fst (restart_after_update E monitor isInit w) <> Throw e.
Proof.
  unfold restart_after_update.
  repeat case_match; try done; apply stopAndRestart_no_throw.
Qed.

End NoThrow.

(** ** What the resync leaves alone *)

Section Local.

Context {X : Type} (view : world -> X).
Hypothesis Hlocal : local view.

Ltac local_fs :=
  let w := fresh "w" in
  intros w; cbv beta delta [Node.utimesSync Node.cpSync];
  repeat case_match; simpl; try done; apply (local_fs _ Hlocal).

Lemma local_info msg : keeps view (Logger.info msg).
Proof. intros w. apply (local_log _ Hlocal). Qed.

Lemma local_new_Date : keeps view new_Date.
Proof. intros w. apply (local_obj _ Hlocal). Qed.

Lemma local_utimesSync p a b : keeps view (Node.utimesSync p a b).
Proof. local_fs. Qed.

Lemma local_cpSync p q : keeps view (Node.cpSync p q).
Proof. local_fs. Qed.

Lemma local_sync_one monitor file : keeps view (sync_one monitor file).
Proof.
  unfold sync_one.
  apply keeps_bind; [apply local_new_Date|intros sourceDate].
  apply keeps_bind; [apply local_new_Date|intros destinationDate].
  apply keeps_bind; [apply local_new_Date|intros atime].
  apply keeps_bind; [apply local_utimesSync|intros _].
  apply keeps_bind; [apply local_new_Date|intros atime'].
  apply keeps_bind; [apply local_utimesSync|intros _].
  apply keeps_if; [|apply keeps_ret].
  apply keeps_bind; [apply local_info|intros _; apply local_cpSync].
Qed.

Lemma local_syncMonitorFiles monitor : keeps view (syncMonitorFiles monitor).
Proof. apply keeps_forEach, local_sync_one. Qed.

End Local.

Lemma local_effects : local effects.
Proof. by split. Qed.

Lemma local_ps_runs : local ps_runs.
Proof. by split. Qed.

Lemma local_clock : local clock.
Proof. by split. Qed.

Lemma local_spawns : local spawns.
Proof. by split. Qed.

(** * The claims *)

(** ** Status Reader *)

(** C3, as the source has it.  When the status query succeeds, the snapshot
    holds, for every row whose service field is not empty, the up-state read
    from the STATUS text of that row ("begins with Up") under the row's
    service, provided no later row writes the same identifier as its
    service, container name or image field: the last writer decides.  Rows
    with an empty service field leave no trace.  Every known service is in
    the snapshot, and is down when no row writes it. *)
Theorem GetStatuses_snapshot (E : env) (w : world) :
  query_failed (exec_ps E (ps_runs w)) = false ->
  let lines := JS.split_lines (stdout (exec_ps E (ps_runs w))) in
  let c := header_columns (hd EmptyString lines) in
  exists snapshot : gmap string bool,
    GetStatuses E w = (Ok (true, snapshot), queried w)
    /\ (forall pre line post,
          tl lines = pre ++ line :: post ->
          contributes c line = true ->
          (forall l, l ∈ post -> contributes c l = true ->
                     row_service c line ∉ row_keys c l) ->
          snapshot !! row_service c line = Some (row_isUp c line))
    /\ snapshot
       = fill_services (services (docker E))
           (fold_left (row_step c) (List.filter (contributes c) (tl lines)) ∅)
    /\ (forall k, k ∈ services (docker E) ->
          is_Some (snapshot !! k)
          /\ ((forall l, l ∈ tl lines -> contributes c l = true ->
                         k ∉ row_keys c l) ->
              snapshot !! k = Some false)).
Proof.
  intros Hok lines c.
  exists (parse_statuses E (stdout (exec_ps E (ps_runs w)))).
  split; [by apply GetStatuses_succeeded|].
  unfold parse_statuses, parse_rows. fold lines. fold c.
  split; [|split].
  - intros pre line post Hrows Hc Hlast.
    apply fill_services_kept. rewrite Hrows. by apply rows_last_writer.
  - by rewrite <- rows_skip_empty.
  - intros k Hk. split; [by apply fill_services_known|].
    intros Hnone. apply fill_services_absent; [done|].
    rewrite rows_other by done. apply lookup_empty.
Qed.

Lemma GetStatuses_snapshot_witness :
  exists snapshot : gmap string bool,
    GetStatuses Sample.steady Sample.empty_world
    = (Ok (true, snapshot), queried Sample.empty_world)
    /\ snapshot !! "web" = Some true
    /\ snapshot !! "db" = Some false
    /\ snapshot !! "cache" = Some false.
Proof.
  destruct (GetStatuses_snapshot Sample.steady Sample.empty_world eq_refl)
    as (snapshot & Hrun & Hrow & _ & Hknown).
  exists snapshot. split; [exact Hrun|].
  split; [|split].
  - apply (Hrow []
             "app-1   nginx   run       web       2 days ago   Up 3 hours   80/tcp"
             ["app-2   mysql   run       db        2 days ago   Exited (1)   ";
              EmptyString]); [reflexivity|reflexivity|].
    intros l Hl Hc.
    apply elem_of_cons in Hl as [->|Hl]; [closed_decide|].
    apply list_elem_of_singleton in Hl as ->. discriminate Hc.
  - apply (Hrow
             ["app-1   nginx   run       web       2 days ago   Up 3 hours   80/tcp"]
             "app-2   mysql   run       db        2 days ago   Exited (1)   "
             [EmptyString]); [reflexivity|reflexivity|].
    intros l Hl Hc. apply list_elem_of_singleton in Hl as ->. discriminate Hc.
  - apply (Hknown "cache"); [closed_decide|].
    intros l Hl Hc. simpl in Hl.
    repeat (apply elem_of_cons in Hl as [->|Hl];
            [first [discriminate Hc | closed_decide]|]).
    apply elem_of_nil in Hl. destruct Hl.
Defined.

(** C3, as the claim has it, fails on a service with two containers: the
    first row's STATUS text begins with "Up", and the snapshot marks that
    row's service down, because the second row wrote the same service. *)
Lemma GetStatuses_replicas_counterexample :
  let lines := JS.split_lines Sample.table_replicas in
  let c := header_columns (hd EmptyString lines) in
  exists line snapshot,
    line ∈ tl lines
    /\ row_service c line = "web"
    /\ row_isUp c line = true
    /\ fst (GetStatuses Sample.replicas Sample.empty_world) = Ok (true, snapshot)
    /\ snapshot !! row_service c line = Some false.
Proof.
  exists "web-1   nginx   run       web       2 days ago   Up 3 hours   80/tcp".
  eexists. split; [closed_decide|].
  split; [reflexivity|]. split; [reflexivity|].
  split; [rewrite GetStatuses_succeeded by reflexivity; reflexivity|].
  by vm_compute.
Qed.

(** ** Process Supervisor *)



(** C6, on the source.  A status query that fails is handed on as "not up":
    waiting for "down" succeeds at the first poll although nothing is known
    about the container. *)
Theorem WaitForStatus_failed_query_counts_as_down :
  query_failed (exec_ps Sample.broken 0) = true
  /\ fst (GetStatuses Sample.broken Sample.empty_world) = Ok (false, ∅)
  /\ fst (WaitForStatus Sample.broken 12 "web" false 12 Sample.empty_world)
     = Ok true
  /\ ps_runs (snd (WaitForStatus Sample.broken 12 "web" false 12
                     Sample.empty_world)) = 1%nat.
Proof. repeat split. Qed.

(** ** Deployment Promoter *)

Section Promotion.

Variable E : env.
Variable monitor : MonitorDetails.

Lemma builds_of_build (cacheValue : string) (w : world) :
  is_Some (Fs.lookup (dest monitor ++ ["builds"; cacheValue]) (fs w)) ->
  is_Some (Fs.lookup (dest monitor ++ ["builds"]) (fs w)).
Proof.
  intros H. apply (lookup_app_is_Some _ [cacheValue]).
  by rewrite <- app_assoc.
Qed.

Lemma ensure_builds_present (w : world) :
  is_Some (Fs.lookup (dest monitor ++ ["builds"]) (fs w)) ->
  ensure_builds monitor w = (Ok tt, w).
Proof.
  intros [n Hn]. unfold ensure_builds, mbind, M_bind, Node.existsSync, get.
  by rewrite Hn.
Qed.

(** When the build is there, [downloadAndExtract] is [already_built]. *)
Lemma downloadAndExtract_built url cacheValue isInit (w : world) :
  is_Some (Fs.lookup (dest monitor ++ ["builds"; cacheValue]) (fs w)) ->
  downloadAndExtract E monitor url cacheValue isInit w
  = already_built E monitor cacheValue isInit w.
Proof.
  intros H. unfold downloadAndExtract, mbind at 1, M_bind at 1.
  rewrite ensure_builds_present by by eapply builds_of_build.
  destruct H as [n Hn].
  unfold mbind, M_bind, Node.existsSync, get. by rewrite Hn.
Qed.

End Promotion.

(** C1, as the source has it.  When [builds/<fingerprint>] is already there,
    [downloadAndExtract] makes no request and stages nothing, and it does not
    promote either: it records the fingerprint in the version cache and then
    restarts the profile exactly when [AutoRestart] is set or this is the
    initial run of an autostart profile.  Without a restart the file system
    is left as it was, [current] included. *)
Theorem downloadAndExtract_existing_build (E : env) (monitor : MonitorDetails)
    (url cacheValue : string) (isInit : bool) (w : world) :
  is_Some (Fs.lookup (dest monitor ++ ["builds"; cacheValue]) (fs w)) ->
  let recorded :=
    with_cache (<[Profile monitor := cacheValue]> (cache w))
      (add_log Info ("Build " +:+ cacheValue +:+ " already exists under "
                     +:+ Profile monitor +:+ " builds folder") w) in
  let w' := snd (downloadAndExtract E monitor url cacheValue isInit w) in
  downloadAndExtract E monitor url cacheValue isInit w
  = (if AutoRestart monitor || autostart E isInit monitor
     then stopAndRestart E monitor recorded
     else (Ok tt, recorded))
  /\ requests w' = requests w
  /\ cache w' !! Profile monitor = Some cacheValue
  /\ (AutoRestart monitor || autostart E isInit monitor = false -> fs w' = fs w).
Proof.
  intros Hbuilt recorded w'.
  assert (downloadAndExtract E monitor url cacheValue isInit w
          = (if AutoRestart monitor || autostart E isInit monitor
             then stopAndRestart E monitor recorded
             else (Ok tt, recorded))) as Heq.
  { rewrite downloadAndExtract_built by done.
    unfold already_built, mbind, M_bind. simpl. fold recorded.
    by destruct (AutoRestart monitor || autostart E isInit monitor). }
  split; [exact Heq|]. subst w'. rewrite Heq.
  destruct (AutoRestart monitor || autostart E isInit monitor); simpl.
  - split; [|split; [|done]].
    + by rewrite (keeps_stopAndRestart requests blind_requests).
    + rewrite (keeps_stopAndRestart cache blind_cache). apply lookup_insert_eq.
  - split; [done|]. split; [apply lookup_insert_eq|done].
Qed.

Lemma downloadAndExtract_existing_build_witness :
  let w' := snd (downloadAndExtract Site.upstream Site.site Site.archive_url
                   "v2" false Site.built) in
  requests w' = [] /\ cache w' !! "site" = Some "v2" /\ fs w' = fs Site.built.
Proof.
  destruct (downloadAndExtract_existing_build Site.upstream Site.site
              Site.archive_url "v2" false Site.built)
    as (_ & Hreq & Hcache & Hfs); [by eexists|].
  split; [exact Hreq|]. split; [exact Hcache|]. by apply Hfs.
Defined.

(** C1, as the claim has it, fails: with [builds/v2] in place and [v1]
    live, the call leaves [current] holding the old files, while a call that
    had to fetch [v2] does promote it. *)
Lemma existing_build_not_promoted :
  is_Some (Fs.lookup ["srv"; "builds"; "v2"] (fs Site.built))
  /\ ~ promoted Site.site "v2"
       (snd (downloadAndExtract Site.upstream Site.site Site.archive_url
               "v2" false Site.built))
  /\ files_at ["srv"; "current"]
       (snd (downloadAndExtract Site.upstream Site.site Site.archive_url
               "v2" false Site.built))
     = [(["index.html"], "old")]
  /\ promoted Site.site "v2"
       (snd (downloadAndExtract Site.upstream Site.site Site.archive_url
               "v2" false Site.fresh)).
Proof.
  split; [by eexists|]. split; [closed_decide|]. split; [reflexivity|].
  closed_decide.
Qed.

(** ** The version cache during a promotion *)

Section CacheLast.

Variable E : env.
Variable monitor : MonitorDetails.

Lemma cache_catch {A} (m : M A) (h : string -> M A) (w : world) :
  (forall e, keeps cache (h e)) ->
  cache (snd (catch_ m h w)) = cache (snd (m w)).
Proof.
  intros Hh. unfold catch_.
  destruct (m w) as [[a|e|] w1]; simpl; [done| |done]. by rewrite Hh.
Qed.

Lemma cache_detached (m : M unit) (w : world) :
  cache (snd (detached m w)) = cache (snd (m w)).
Proof. apply cache_catch. by intros e w'. Qed.

Lemma cache_finally {A} (m : M A) (k : M unit) (w : world) :
  keeps cache k ->
  cache (snd (finally_ m k w)) = cache (snd (m w)).
Proof.
  intros Hk. unfold finally_. destruct (m w) as [r w1]; simpl. by rewrite Hk.
Qed.

Lemma keeps_cache_axios_get {A} (feed : string -> axios A) url :
  keeps cache (axios_get feed url).
Proof. intros w. unfold axios_get. by destruct (feed url). Qed.

Lemma keeps_cache_ensure_builds : keeps cache (ensure_builds monitor).
Proof.
  unfold ensure_builds.
  apply keeps_bind; [apply keeps_existsSync|intros b].
  apply keeps_if; [|apply keeps_ret].
  apply keeps_bind; [apply (keeps_info cache blind_cache)|intros _].
  apply (keeps_mkdirSync cache blind_cache).
Qed.

Lemma keeps_cache_prepare_temp url : keeps cache (prepare_temp monitor url).
Proof.
  unfold prepare_temp.
  apply keeps_bind; [apply keeps_existsSync|intros t].
  apply keeps_bind.
  { apply keeps_if; [apply (keeps_rmSync cache blind_cache)|apply keeps_ret]. }
  intros _.
  apply keeps_bind; [apply (keeps_mkdirSync cache blind_cache)|intros _].
  apply (keeps_info cache blind_cache).
Qed.

(** The cache is written when, and only when, the three file-system steps
    of the promotion have all returned. *)
Lemma promote_cache cacheValue isInit (w : world) :
  cache (snd (promote E monitor cacheValue isInit w))
  = match fst (promote_files monitor cacheValue w) with
    | Ok _ => <[Profile monitor := cacheValue]> (cache w)
    | _ => cache w
    end.
Proof.
  unfold promote, mbind, M_bind.
  pose proof (keeps_promote_files cache blind_cache monitor cacheValue w) as Hk.
  destruct (promote_files monitor cacheValue w) as [[[]|e|] wp];
    simpl in *; [|done|done].
  rewrite (keeps_restart_after_update cache blind_cache E monitor isInit).
  simpl. by rewrite Hk.
Qed.

(** The archive that was written is the one that is extracted. *)
Lemma stage_unzips bytes (w ws : world) :
  stage E monitor bytes w = (Ok tt, ws) -> unzip E bytes <> None.
Proof.
  unfold stage, mbind, M_bind, Node.writeStream.
  set (tempZip := dest monitor ++ ["temp"; "files.zip"]).
  intros H Hnone.
  assert (forall f, Fs.put tempZip (Fs.File bytes (clock w)) (fs w) = Some f ->
                    extract E tempZip (dest monitor ++ ["temp"]) (with_fs f w)
                    = (Ok tt, ws) -> False) as Hex.
  { intros f Hput. unfold extract. simpl.
    rewrite (lookup_put _ _ _ _ Hput). by rewrite Hnone. }
  destruct (Fs.lookup tempZip (fs w)) as [[|]|];
    destruct (Fs.put tempZip (Fs.File bytes (clock w)) (fs w)) as [f|] eqn:Hput;
    try discriminate H; by eapply Hex.
Qed.

Lemma ensure_builds_absent cacheValue (w w1 : world) :
  Fs.lookup (dest monitor ++ ["builds"; cacheValue]) (fs w) = None ->
  ensure_builds monitor w = (Ok tt, w1) ->
  Fs.lookup (dest monitor ++ ["builds"; cacheValue]) (fs w1) = None.
Proof.
  intros Habs. unfold ensure_builds, mbind, M_bind, Node.existsSync, get.
  destruct (Fs.lookup (dest monitor ++ ["builds"]) (fs w)) eqn:Hb; simpl.
  - intros [= <-]. done.
  - unfold Node.mkdirSync. simpl. rewrite Hb.
    destruct (Fs.put (dest monitor ++ ["builds"]) (Fs.Dir (clock w) []) (fs w))
      as [f|] eqn:Hput; [|done].
    intros [= <-]. simpl.
    change (dest monitor ++ ["builds"; cacheValue])
      with (dest monitor ++ ["builds"] ++ [cacheValue]).
    rewrite app_assoc, lookup_app, (lookup_put _ _ _ _ Hput). done.
Qed.

(** The continuation of the download writes the cache exactly when the
    response is a 200, the staging returns, and so do the three steps of
    the promotion, run in the world the staging left. *)
Lemma staged_cache cacheValue isInit status bytes (w : world) :
  cache (snd (staged E monitor cacheValue isInit status bytes w))
  = if status =? 200 then
      match stage E monitor bytes w with
      | (Ok _, ws) =>
          match fst (promote_files monitor cacheValue ws) with
          | Ok _ => <[Profile monitor := cacheValue]> (cache w)
          | _ => cache w
          end
      | _ => cache w
      end
    else cache w.
Proof.
  unfold staged. destruct (status =? 200); simpl.
  - rewrite cache_catch.
    2:{ intros e. apply keeps_bind; [apply (keeps_error cache blind_cache)|].
        intros _. apply keeps_if; [|apply keeps_ret].
        apply (keeps_stopAndRestart cache blind_cache). }
    rewrite cache_detached. unfold mbind, M_bind.
    pose proof (keeps_stage cache blind_cache E monitor bytes w) as Hs.
    destruct (stage E monitor bytes w) as [[[]|e|] ws]; simpl in *;
      [|done|done].
    rewrite cache_finally by apply (keeps_rmSync cache blind_cache).
    rewrite promote_cache, Hs. done.
  - destruct (autostart E isInit monitor); [|done].
    apply (keeps_stopAndRestart cache blind_cache).
Qed.

Lemma fetch_and_promote_cache url cacheValue isInit (w : world) :
  cache (snd (fetch_and_promote E monitor url cacheValue isInit w))
  = match prepare_temp monitor url w with
    | (Ok _, w1) =>
        match get_archive E url with
        | Resolved status bytes =>
            cache (snd (staged E monitor cacheValue isInit status bytes
                          (add_effect (EGet url) w1)))
        | Rejected _ => cache w
        end
    | _ => cache w
    end.
Proof.
  unfold fetch_and_promote, mbind at 1, M_bind at 1.
  pose proof (keeps_cache_prepare_temp url w) as Hp.
  destruct (prepare_temp monitor url w) as [[[]|e|] w1]; simpl in *;
    [|done|done].
  rewrite cache_catch by (intros e; apply (keeps_error cache blind_cache)).
  unfold mbind, M_bind, axios_get.
  destruct (get_archive E url) as [e|status bytes]; simpl; done.
Qed.

Lemma downloadAndExtract_fresh url cacheValue isInit (w : world) :
  Fs.lookup (dest monitor ++ ["builds"; cacheValue]) (fs w) = None ->
  cache (snd (downloadAndExtract E monitor url cacheValue isInit w))
  = match ensure_builds monitor w with
    | (Ok _, w1) =>
        cache (snd (fetch_and_promote E monitor url cacheValue isInit w1))
    | _ => cache w
    end.
Proof.
  intros Habs. unfold downloadAndExtract, mbind at 1, M_bind at 1.
  pose proof (keeps_cache_ensure_builds w) as Hk.
  pose proof (ensure_builds_absent cacheValue w) as Hb.
  destruct (ensure_builds monitor w) as [[[]|e|] w1]; simpl in *;
    [|done|done].
  unfold mbind, M_bind, Node.existsSync, get.
  by rewrite (Hb w1 Habs eq_refl).
Qed.

Lemma requested_cache url (w : world) :
  cache (requested monitor url w) = cache w.
Proof.
  unfold requested. simpl.
  by rewrite keeps_cache_prepare_temp, keeps_cache_ensure_builds.
Qed.

(** The cache after a call that fetches, read off the run of that call. *)
Lemma downloadAndExtract_cache url cacheValue isInit (w : world) :
  Fs.lookup (dest monitor ++ ["builds"; cacheValue]) (fs w) = None ->
  cache (snd (downloadAndExtract E monitor url cacheValue isInit w))
  = if prepared monitor url w then
      match get_archive E url with
      | Resolved status bytes =>
          if status =? 200 then
            match fst (stage E monitor bytes (requested monitor url w)) with
            | Ok _ =>
                match fst (promote_files monitor cacheValue
                             (snd (stage E monitor bytes
                                     (requested monitor url w)))) with
                | Ok _ => <[Profile monitor := cacheValue]> (cache w)
                | _ => cache w
                end
            | _ => cache w
            end
          else cache w
      | Rejected _ => cache w
      end
    else cache w.
Proof.
  intros Habs. rewrite downloadAndExtract_fresh by done.
  unfold prepared, requested.
  pose proof (keeps_cache_ensure_builds w) as Hk.
  destruct (ensure_builds monitor w) as [[[]|e|] w1]; simpl in *;
    [|done|done].
  rewrite fetch_and_promote_cache.
  pose proof (keeps_cache_prepare_temp url w1) as Hp.
  destruct (prepare_temp monitor url w1) as [[[]|e|] w2]; simpl in *;
    [|done|done].
  destruct (get_archive E url) as [e|status bytes]; [done|].
  rewrite staged_cache. simpl. rewrite Hp, Hk.
  destruct (status =? 200); [|done].
  by destruct (stage E monitor bytes (add_effect (EGet url) w2))
    as [[[]|e|] ws].
Qed.

Lemma renameSync_Ok (src dst : Fs.path) (w w' : world) :
  Node.renameSync src dst w = (Ok tt, w') -> is_Some (Fs.lookup dst (fs w')).
Proof.
  unfold Node.renameSync.
  destruct (Fs.lookup src (fs w)) as [n|] eqn:Hsrc; [|done].
  destruct (decide (src = dst)) as [->|Hne].
  - rewrite bool_decide_eq_true_2 by done. intros [= <-]. by rewrite Hsrc.
  - rewrite bool_decide_eq_false_2 by done.
    destruct (Fs.is_prefix src dst); [done|].
    destruct (Node.rename_conflict n _); [done|].
    destruct (Fs.put dst n _) as [f|] eqn:Hput; [|done].
    intros [= <-]. simpl. by rewrite (lookup_put _ _ _ _ Hput).
Qed.

Lemma move_to_builds_builds cacheValue (w wa : world) :
  move_to_builds monitor cacheValue w = (Ok tt, wa) ->
  is_Some (build_at monitor cacheValue wa).
Proof.
  unfold move_to_builds, mbind, M_bind. simpl.
  destruct (RemoveParentFolder monitor).
  - destruct (Node.readdirSync _ _) as [[es|e|] w1]; [|done|done]. simpl.
    apply renameSync_Ok.
  - simpl. apply renameSync_Ok.
Qed.

(** The promotion is its three steps, one after the other. *)
Lemma promote_files_steps cacheValue (ws : world) :
  fst (promote_files monitor cacheValue ws) = Ok tt ->
  exists wa wb,
    move_to_builds monitor cacheValue ws = (Ok tt, wa)
    /\ replace_current monitor cacheValue wa = (Ok tt, wb)
    /\ copy_auxiliary monitor wb
       = (Ok tt, snd (promote_files monitor cacheValue ws)).
Proof.
  unfold promote_files, mbind, M_bind.
  destruct (move_to_builds monitor cacheValue ws) as [[[]|e|] wa]; [|done|done].
  destruct (replace_current monitor cacheValue wa) as [[[]|e|] wb] eqn:Hr;
    [|done|done].
  destruct (copy_auxiliary monitor wb) as [[[]|e|] wc] eqn:Hc; [|done|done].
  intros _. by exists wa, wb.
Qed.

Lemma promote_files_builds cacheValue (ws wp : world) :
  promote_files monitor cacheValue ws = (Ok tt, wp) ->
  is_Some (build_at monitor cacheValue wp).
Proof.
  intros Hpf.
  destruct (promote_files_steps cacheValue ws) as (wa & wb & Hm & Hr & Hc).
  { by rewrite Hpf. }
  rewrite Hpf in Hc. simpl in Hc.
  pose proof (build_copy_auxiliary monitor cacheValue wb) as Hkc.
  pose proof (build_replace_current monitor cacheValue cacheValue wa) as Hkr.
  rewrite Hc in Hkc. rewrite Hr in Hkr. simpl in Hkc, Hkr.
  rewrite Hkc, Hkr. by apply (move_to_builds_builds cacheValue ws).
Qed.

(** The world that a call leaves when it fetched, staged and promoted. *)
Lemma downloadAndExtract_promoted url cacheValue isInit bytes (w : world) :
  Fs.lookup (dest monitor ++ ["builds"; cacheValue]) (fs w) = None ->
  prepared monitor url w = true ->
  get_archive E url = Resolved 200 bytes ->
  fst (stage E monitor bytes (requested monitor url w)) = Ok tt ->
  fst (promote_files monitor cacheValue
         (snd (stage E monitor bytes (requested monitor url w)))) = Ok tt ->
  snd (downloadAndExtract E monitor url cacheValue isInit w)
  = snd (Node.rmSync (dest monitor ++ ["temp"; "files.zip"])
           (snd (restart_after_update E monitor isInit
                   (snd (cache_set monitor cacheValue
                           (snd (promote_files monitor cacheValue
                                   (snd (stage E monitor bytes
                                           (requested monitor url w)))))))))).
Proof.
  intros Habs Hprep Harch. unfold prepared in Hprep. unfold requested.
  unfold downloadAndExtract, mbind at 1, M_bind at 1.
  pose proof (ensure_builds_absent cacheValue w) as Hb.
  destruct (ensure_builds monitor w) as [[[]|e|] w1]; [|done|done].
  simpl in Hprep |- *.
  unfold mbind at 1, M_bind at 1, Node.existsSync, get.
  rewrite (Hb w1 Habs eq_refl). simpl.
  unfold fetch_and_promote, mbind at 1, M_bind at 1.
  destruct (prepare_temp monitor url w1) as [[[]|e|] w2]; [|done|done].
  simpl. clear Hprep.
  unfold catch_ at 1, mbind at 1, M_bind at 1, axios_get. rewrite Harch.
  unfold staged. simpl.
  set (w3 := add_effect (EGet url) w2).
  unfold catch_ at 1, detached, catch_ at 1, mbind at 1, M_bind at 1.
  destruct (stage E monitor bytes w3) as [[[]|e|] ws]; [|done|done].
  simpl. intros _ Hpf.
  unfold finally_, promote, mbind, M_bind.
  destruct (promote_files monitor cacheValue ws) as [[[]|e|] wp]; [|done|done].
  simpl.
  pose proof (restart_after_update_no_throw E monitor isInit
                (with_cache (<[Profile monitor:=cacheValue]> (cache wp)) wp))
    as Hnt.
  destruct (restart_after_update E monitor isInit _) as [[[]|e|] wr]; simpl;
    [done|by destruct (Hnt e)|done].
Qed.

(** A check that finds another fingerprint than the cached one, for a
    profile with a destination directory, is a call of
    [downloadAndExtract]. *)
Lemma runRepoMonitor_miss isInit upStatuses status sha (w : world) :
  cache w !! Profile monitor <> Some sha ->
  has_destination monitor = true ->
  get_tree E (repoUrl monitor) = Resolved status sha ->
  runRepoMonitor E monitor isInit upStatuses w
  = catch_
      (downloadAndExtract E monitor
         ("https://github.com/" +:+ Owner monitor +:+ "/" +:+ Repo monitor
          +:+ "/archive/refs/heads/main.zip") sha isInit)
      Logger.error
      (add_effect (EGet (repoUrl monitor))
         (add_log Info ("Run repo monitor for " +:+ Profile monitor) w)).
Proof.
  intros Hmiss Hdest Htree.
  unfold runRepoMonitor, mbind at 1, M_bind at 1. simpl.
  unfold catch_, mbind at 1, M_bind at 1, axios_get. rewrite Htree.
  unfold mbind at 1, M_bind at 1, cache_is, get. simpl.
  rewrite bool_decide_eq_false_2 by done. by rewrite Hdest.
Qed.

Lemma runReleaseMonitor_miss isInit upStatuses data first rest (w : world) :
  cache w !! Profile monitor <> Some (JS.strip_extension (asset_name first)) ->
  has_destination monitor = true ->
  get_releases E (releaseUrl monitor) = Resolved 200 data ->
  release_results E monitor data = first :: rest ->
  runReleaseMonitor E monitor isInit upStatuses w
  = catch_
      (downloadAndExtract E monitor (browser_download_url first)
         (JS.strip_extension (asset_name first)) isInit)
      Logger.error
      (add_effect (EGet (releaseUrl monitor))
         (add_log Info ("Run release monitor for " +:+ Profile monitor) w)).
Proof.
  intros Hmiss Hdest Hfeed Hres.
  unfold runReleaseMonitor, mbind at 1, M_bind at 1. simpl.
  unfold catch_, mbind at 1, M_bind at 1, axios_get. rewrite Hfeed. simpl.
  rewrite Hres. simpl.
  unfold mbind at 1, M_bind at 1. simpl.
  unfold mbind at 1, M_bind at 1, cache_is, get. simpl.
  rewrite bool_decide_eq_false_2 by done. by rewrite Hdest.
Qed.

End CacheLast.

(** C2, as the source has it.  In a call of [downloadAndExtract] that finds
    no [builds/<fingerprint>], the cache entry of the profile is written
    last.  It stays as it was when the preparation fails, when the download
    is rejected or answered by another status than 200, when the archive
    cannot be staged, and when the move to [builds/<fingerprint>], the
    replacement of [current] or an auxiliary copy of this call throws.  When
    all of them return, the cache is still as it was in the world that the
    last auxiliary copy leaves, the build is in place there, and what
    follows is the write of the cache, the restart if one is due, and the
    removal of the archive.  A cache left as it was makes the next check
    find the fingerprint different from the cached one, and call
    [downloadAndExtract] again. *)
Theorem cache_set_after_promotion (E : env) (monitor : MonitorDetails)
    (url cacheValue : string) (isInit : bool) (w : world) :
  Fs.lookup (dest monitor ++ ["builds"; cacheValue]) (fs w) = None ->
  let w' := snd (downloadAndExtract E monitor url cacheValue isInit w) in
  let w3 := requested monitor url w in
  (cache w' = cache w \/ cache w' = <[Profile monitor := cacheValue]> (cache w))
  /\ (cache w' <> cache w ->
      prepared monitor url w = true
      /\ exists bytes,
          get_archive E url = Resolved 200 bytes
          /\ fst (stage E monitor bytes w3) = Ok tt
          /\ fst (promote_files monitor cacheValue
                    (snd (stage E monitor bytes w3))) = Ok tt)
  /\ (prepared monitor url w = false -> cache w' = cache w)
  /\ (forall e, get_archive E url = Rejected e -> cache w' = cache w)
  /\ (forall status bytes,
        get_archive E url = Resolved status bytes -> status <> 200 ->
        cache w' = cache w)
  /\ (forall status bytes,
        get_archive E url = Resolved status bytes -> unzip E bytes = None ->
        cache w' = cache w)
  /\ (forall bytes,
        get_archive E url = Resolved 200 bytes ->
        let ws := snd (stage E monitor bytes w3) in
        let wp := snd (promote_files monitor cacheValue ws) in
        (fst (stage E monitor bytes w3) <> Ok tt -> cache w' = cache w)
        /\ (fst (promote_files monitor cacheValue ws) <> Ok tt ->
            cache w' = cache w)
        /\ (fst (promote_files monitor cacheValue ws) = Ok tt ->
            exists wa wb,
              move_to_builds monitor cacheValue ws = (Ok tt, wa)
              /\ replace_current monitor cacheValue wa = (Ok tt, wb)
              /\ copy_auxiliary monitor wb = (Ok tt, wp))
        /\ (prepared monitor url w = true ->
            fst (stage E monitor bytes w3) = Ok tt ->
            fst (promote_files monitor cacheValue ws) = Ok tt ->
            cache wp = cache w
            /\ is_Some (build_at monitor cacheValue wp)
            /\ w' = snd (Node.rmSync (dest monitor ++ ["temp"; "files.zip"])
                           (snd (restart_after_update E monitor isInit
                                   (snd (cache_set monitor cacheValue wp)))))
            /\ cache w' = <[Profile monitor := cacheValue]> (cache w)))
  /\ (cache w' = cache w -> cache w !! Profile monitor <> Some cacheValue ->
      fst (cache_is monitor cacheValue w') = Ok false
      /\ (has_destination monitor = true ->
          (forall isInit' upStatuses status,
              get_tree E (repoUrl monitor) = Resolved status cacheValue ->
              runRepoMonitor E monitor isInit' upStatuses w'
              = catch_
                  (downloadAndExtract E monitor
                     ("https://github.com/" +:+ Owner monitor +:+ "/"
                      +:+ Repo monitor +:+ "/archive/refs/heads/main.zip")
                     cacheValue isInit')
                  Logger.error
                  (add_effect (EGet (repoUrl monitor))
                     (add_log Info ("Run repo monitor for " +:+ Profile monitor)
                        w')))
          /\ (forall isInit' upStatuses data first rest,
                get_releases E (releaseUrl monitor) = Resolved 200 data ->
                release_results E monitor data = first :: rest ->
                JS.strip_extension (asset_name first) = cacheValue ->
                runReleaseMonitor E monitor isInit' upStatuses w'
                = catch_
                    (downloadAndExtract E monitor (browser_download_url first)
                       cacheValue isInit')
                    Logger.error
                    (add_effect (EGet (releaseUrl monitor))
                       (add_log Info
                          ("Run release monitor for " +:+ Profile monitor)
                          w'))))).
Proof.
  intros Habs w' w3.
  pose proof (downloadAndExtract_cache E monitor url cacheValue isInit w Habs)
    as Hcache.
  fold w' w3 in Hcache.
  split; [|split; [|split; [|split; [|split; [|split; [|split]]]]]].
  - rewrite Hcache. repeat case_match; first [by left|by right].
  - rewrite Hcache. intros Hne.
    destruct (prepared monitor url w); [|done]. split; [done|].
    destruct (get_archive E url) as [e|status bytes]; [done|].
    destruct (Z.eqb_spec status 200) as [->|]; [|done].
    exists bytes. split; [done|].
    destruct (fst (stage E monitor bytes w3)) as [[]| |]; [|done|done].
    split; [done|].
    by destruct (fst (promote_files monitor cacheValue
                        (snd (stage E monitor bytes w3)))) as [[]| |].
  - intros Hp. by rewrite Hcache, Hp.
  - intros e He. rewrite Hcache, He. by case_match.
  - intros status bytes Hs Hne. rewrite Hcache, Hs.
    destruct (Z.eqb_spec status 200); [done|]. by case_match.
  - intros status bytes Hs Hz. rewrite Hcache, Hs.
    destruct (prepared monitor url w); [|done].
    destruct (status =? 200); [|done].
    destruct (stage E monitor bytes w3) as [[[]|e|] ws] eqn:Hst; [|done|done].
    destruct (stage_unzips E monitor bytes w3 ws Hst Hz).
  - intros bytes Hs ws wp. rewrite Hcache, Hs. simpl.
    split; [|split; [|split]].
    + intros Hst. destruct (prepared monitor url w); [|done].
      by destruct (fst (stage E monitor bytes w3)) as [[]| |].
    + intros Hpf. destruct (prepared monitor url w); [|done].
      destruct (fst (stage E monitor bytes w3)) as [[]| |]; [|done|done].
      fold ws. by destruct (fst (promote_files monitor cacheValue ws)) as [[]| |].
    + apply promote_files_steps.
    + intros Hp Hst Hpf. rewrite Hp, Hst. fold ws. rewrite Hpf.
      split; [|split; [|split]]; [| |by apply downloadAndExtract_promoted|done].
      * subst wp ws w3. rewrite (keeps_promote_files cache blind_cache).
        rewrite (keeps_stage cache blind_cache). apply requested_cache.
      * apply (promote_files_builds monitor cacheValue ws).
        subst wp. by destruct (promote_files monitor cacheValue ws) as [[[]| |] ?].
  - intros Hsame Hold. split.
    { unfold cache_is, get. simpl.
      rewrite Hsame. by rewrite bool_decide_eq_false_2. }
    intros Hdest. split.
    + intros isInit' ups status Htree.
      apply (runRepoMonitor_miss E monitor isInit' ups status);
        [by rewrite Hsame|done|done].
    + intros isInit' ups data first rest Hfeed Hres Hname. subst cacheValue.
      by apply (runReleaseMonitor_miss E monitor isInit' ups data first rest);
        [rewrite Hsame| | |].
Qed.

(** On [Site.fresh] the promotion of [v2] goes through and the cache is
    written; on [Site.lacking], where the auxiliary file is missing, the
    build is moved, the copy throws and the cache stays empty; with the
    archive out of reach it stays empty too. *)
Lemma cache_set_after_promotion_witness :
  cache (snd (downloadAndExtract Site.upstream Site.site Site.archive_url
                "v2" false Site.fresh)) = {[ "site" := "v2" ]}
  /\ cache (snd (downloadAndExtract Site.upstream Site.site Site.archive_url
                   "v2" false Site.lacking)) = ∅
  /\ cache (snd (downloadAndExtract Site.no_archive Site.site Site.archive_url
                   "v2" false Site.fresh)) = ∅.
Proof.
  split; [|split].
  - destruct (cache_set_after_promotion Site.upstream Site.site Site.archive_url
                "v2" false Site.fresh eq_refl)
      as (_ & _ & _ & _ & _ & _ & Hsteps & _).
    destruct (Hsteps "PK v2" eq_refl) as (_ & _ & _ & Hdone).
    destruct Hdone as (_ & _ & _ & Hset);
      [vm_compute; reflexivity..|].
    rewrite Hset. vm_compute. reflexivity.
  - destruct (cache_set_after_promotion Site.upstream Site.site Site.archive_url
                "v2" false Site.lacking eq_refl)
      as (_ & _ & _ & _ & _ & _ & Hsteps & _).
    destruct (Hsteps "PK v2" eq_refl) as (_ & Hfail & _).
    rewrite Hfail; [reflexivity|]. vm_compute. discriminate.
  - destruct (cache_set_after_promotion Site.no_archive Site.site
                Site.archive_url "v2" false Site.fresh eq_refl)
      as (_ & _ & _ & Hrejected & _).
    apply (Hrejected "ETIMEDOUT"). reflexivity.
Defined.

(** C2, as the claim has it, fails over two cycles.  In the first the copy
    of the auxiliary file throws (its source is missing) after the build was
    moved to [builds/v2]: the cache is left alone.  In the second the build
    is found in place, nothing is fetched or copied, and the cache is set to
    [v2] although the auxiliary copy has never succeeded.  It is so too
    when the second cycle is the initial one of a process started anew. *)
Lemma cache_set_without_auxiliary_copy :
  let w1 := snd (runMonitor Site.upstream [Site.site] false Site.lacking) in
  let w2 := snd (runMonitor Site.upstream [Site.site] false w1) in
  cache w1 !! "site" = None
  /\ last (effects w1) = Some (EUnhandled "ENOENT")
  /\ fst (copy_auxiliary Site.site w1) = Throw "ENOENT"
  /\ cache w2 !! "site" = Some "v2"
  /\ requests w2 = requests w1 ++ [EGet (repoUrl Site.site)]
  /\ fs w2 = fs w1
  /\ Fs.lookup ["srv"; "current"; "env.txt"] (fs w2) = None
  /\ cache (snd (runMonitor Site.upstream [Site.site] true
                   (with_cache ∅ w1))) !! "site" = Some "v2".
Proof.
  intros w1 w2.
  split; [vm_compute; reflexivity|].
  split; [vm_compute; reflexivity|].
  split; [vm_compute; reflexivity|].
  split; [vm_compute; reflexivity|].
  split; [vm_compute; reflexivity|].
  split; [vm_compute; reflexivity|].
  split; vm_compute; reflexivity.
Qed.

(** ** Artifact Fetcher *)





(** C7.  When the feed answers 200 and no asset survives the filters, the
    empty feed included, the evaluation of the profile ends without an
    exception: the failed read of the first asset is caught and logged, the
    only request made is the one for the feed, nothing is spawned, and the
    cache and the file system are as before. *)
Theorem no_surviving_asset_is_skipped (E : env) (monitor : MonitorDetails)
    (isInit : bool) (upStatuses : gmap string bool) (data : list release)
    (w : world) :
  get_releases E (releaseUrl monitor) = Resolved 200 data ->
  release_results E monitor data = [] ->
  exists w',
    runReleaseMonitor E monitor isInit upStatuses w = (Ok tt, w')
    /\ cache w' = cache w
    /\ fs w' = fs w
    /\ effects w' = effects w ++ [EGet (releaseUrl monitor)]
    /\ logs w'
       = logs w
         ++ [(Info, "Run release monitor for " +:+ Profile monitor);
             (Error,
              "TypeError: Cannot read properties of undefined (reading 'name')")].
Proof.
  intros Hfeed Hnone.
  unfold runReleaseMonitor, mbind, M_bind, catch_, axios_get. simpl.
  rewrite Hfeed. simpl. rewrite Hnone. simpl.
  eexists. split; [reflexivity|]. simpl.
  repeat split. by rewrite <- app_assoc.
Qed.

Lemma no_surviving_asset_is_skipped_witness :
  exists w',
    runReleaseMonitor (Feed.serving Feed.notes_only) Feed.tool true ∅
      (Feed.cached "v1") = (Ok tt, w')
    /\ cache w' = cache (Feed.cached "v1")
    /\ effects w' = [EGet (releaseUrl Feed.tool)].
Proof.
  destruct (no_surviving_asset_is_skipped (Feed.serving Feed.notes_only)
              Feed.tool true ∅ Feed.notes_only (Feed.cached "v1")
              eq_refl eq_refl) as (w' & Hrun & Hcache & _ & Heff & _).
  exists w'. split; [exact Hrun|]. split; [exact Hcache|exact Heff].
Defined.

(** ** Update Policy Engine *)

(** C10.  When the status query at the start of a cycle fails, the cycle
    ends there: the world differs from the one before only by the query and
    its error line, so no profile is evaluated, no request is made, nothing
    is spawned, and the cache and the file system are untouched.  When it
    succeeds, every profile is evaluated under its snapshot. *)
Theorem runMonitor_needs_snapshot (E : env) (monitors : list MonitorDetails)
    (isInit : bool) (w : world) :
  (query_failed (exec_ps E (ps_runs w)) = true ->
   exists msg,
     runMonitor E monitors isInit w = (Ok tt, add_log Error msg (queried w))
     /\ cache (snd (runMonitor E monitors isInit w)) = cache w
     /\ fs (snd (runMonitor E monitors isInit w)) = fs w
     /\ effects (snd (runMonitor E monitors isInit w))
        = effects w ++ [EExec compose_ps])
  /\ (query_failed (exec_ps E (ps_runs w)) = false ->
      runMonitor E monitors isInit w
      = forEach
          (evaluate E isInit (parse_statuses E (stdout (exec_ps E (ps_runs w)))))
          monitors (queried w)).
Proof.
  split; intros Hq; unfold runMonitor, mbind, M_bind.
  - destruct (GetStatuses_failed E w Hq) as [msg Hrun].
    exists msg. rewrite Hrun. by simpl.
  - by rewrite (GetStatuses_succeeded E w Hq).
Qed.

Lemma runMonitor_needs_snapshot_witness :
  (exists msg,
      runMonitor Sample.broken [Site.site] true Site.fresh
      = (Ok tt, add_log Error msg (queried Site.fresh)))
  /\ requests (snd (runMonitor Site.upstream [Site.site] true Site.fresh))
     = [EGet (repoUrl Site.site); EGet Site.archive_url].
Proof.
  destruct (runMonitor_needs_snapshot Sample.broken [Site.site] true Site.fresh)
    as [Hfail _].
  destruct (runMonitor_needs_snapshot Site.upstream [Site.site] true Site.fresh)
    as [_ Hok].
  split.
  - destruct (Hfail eq_refl) as (msg & Hrun & _). by exists msg.
  - rewrite (Hok eq_refl). reflexivity.
Defined.

(** ** Auxiliary files *)

(** Two dates made one after the other are two objects. *)
Lemma fresh_dates_differ (w w1 w2 : world) (d1 d2 : Date) :
  new_Date w = (Ok d1, w1) -> new_Date w1 = (Ok d2, w2) ->
  object_neq d1 d2 = true.
Proof.
  unfold new_Date, object_neq. intros [= <- <-] [= <- <-]. simpl.
  apply negb_true_iff, Nat.eqb_neq. lia.
Qed.

(** A resync of an entry that returns has copied it: the comparison of the
    two dates never holds the copy back. *)
Lemma sync_one_copies (monitor : MonitorDetails) (file : Fs.path) (w w' : world) :
  sync_one monitor file w = (Ok tt, w') ->
  logs w'
  = logs w ++ [(Info, "Copying " +:+ Node.show (dest monitor ++ file) +:+ " to "
                      +:+ Node.show (dest monitor ++ ["current"] ++ file))].
Proof.
  unfold sync_one, mbind, M_bind. simpl.
  unfold Node.utimesSync at 1. simpl.
  destruct (Fs.lookup (dest monitor ++ file) (fs w)) as [n|]; [|done].
  destruct (Fs.put (dest monitor ++ file) _ (fs w)) as [f1|]; [|done]. simpl.
  unfold Node.utimesSync at 1. simpl.
  destruct (Fs.lookup (dest monitor ++ "current" :: file) f1) as [n'|]; [|done].
  destruct (Fs.put (dest monitor ++ "current" :: file) _ f1) as [f2|]; [|done].
  simpl. unfold object_neq. simpl.
  destruct (Nat.eqb_spec (next_obj w) (S (next_obj w))) as [Heq|_]; [lia|].
  simpl. unfold Node.cpSync. simpl.
  repeat case_match; intros [= <-]; reflexivity.
Qed.

(** C8, on the source.  The source file and its active copy hold the same
    text and carry the same modification time; the resync copies the file
    all the same, and both end with the time of the call. *)
Theorem syncMonitorFiles_copies_unchanged_file :
  let w' := snd (syncMonitorFiles Site.site Site.fresh) in
  Fs.lookup ["srv"; "env.txt"] (fs Site.fresh) = Some (Fs.File "SECRET" 5)
  /\ Fs.lookup ["srv"; "current"; "env.txt"] (fs Site.fresh)
     = Some (Fs.File "SECRET" 5)
  /\ fst (syncMonitorFiles Site.site Site.fresh) = Ok tt
  /\ logs w' = [(Info, "Copying srv/env.txt to srv/current/env.txt")]
  /\ Fs.lookup ["srv"; "env.txt"] (fs w') = Some (Fs.File "SECRET" 1000)
  /\ Fs.lookup ["srv"; "current"; "env.txt"] (fs w')
     = Some (Fs.File "SECRET" 1000).
Proof. repeat split. Qed.

(** ** The resync of one entry *)

Lemma sync_paths_apart (d file : Fs.path) (n : Fs.node) c t :
  Fs.lookup (d ++ file) n = Some (Fs.File c t) ->
  is_Some (Fs.lookup (d ++ "current" :: file) n) ->
  exists r a b p' q',
    d ++ file = r ++ a :: p' /\ d ++ "current" :: file = r ++ b :: q' /\ a <> b.
Proof.
  intros Hsrc Hdst. apply paths_apart.
  - destruct (Fs.is_prefix (d ++ file) (d ++ "current" :: file)) eqn:Hp; [|done].
    destruct (is_prefix_app _ _ Hp) as [rest Hrest].
    assert (rest <> []) as Hne.
    { intros ->. apply (f_equal length) in Hrest.
      rewrite !length_app in Hrest. simpl in Hrest. lia. }
    rewrite Hrest, (lookup_below_file _ _ _ _ _ Hsrc Hne) in Hdst.
    by destruct Hdst.
  - destruct (Fs.is_prefix (d ++ "current" :: file) (d ++ file)) eqn:Hp; [|done].
    destruct (is_prefix_app _ _ Hp) as [rest Hrest].
    apply (f_equal length) in Hrest. rewrite !length_app in Hrest.
    simpl in Hrest. lia.
Qed.

Lemma sync_one_both_files (monitor : MonitorDetails) (file : Fs.path) (w : world)
    (c c' : string) (t t' : Z) :
  Fs.lookup (dest monitor ++ file) (fs w) = Some (Fs.File c t) ->
  Fs.lookup (dest monitor ++ "current" :: file) (fs w) = Some (Fs.File c' t') ->
  exists w',
    sync_one monitor file w = (Ok tt, w')
    /\ Fs.lookup (dest monitor ++ file) (fs w') = Some (Fs.File c (clock w))
    /\ Fs.lookup (dest monitor ++ "current" :: file) (fs w')
       = Some (Fs.File c (clock w))
    /\ cache w' = cache w /\ effects w' = effects w
    /\ clock w' = clock w.
Proof.
  intros Hsrc Hdst.
  set (src := dest monitor ++ file) in *.
  set (dst := dest monitor ++ "current" :: file) in *.
  destruct (sync_paths_apart (dest monitor) file (fs w) c t Hsrc)
    as (r & a & b & p' & q' & Hs & Hd & Hne); [by eexists|].
  fold src in Hs. fold dst in Hd.
  (* the times of the source are written *)
  destruct (put_existing src (Fs.File c (clock w)) (fs w)) as [f1 Hf1];
    [by eexists|].
  assert (Fs.lookup dst f1 = Some (Fs.File c' t')) as Hdst1.
  { rewrite Hd. rewrite Hs in Hf1.
    rewrite (lookup_put_apart r b a q' p' _ _ _ (not_eq_sym Hne) Hf1).
    by rewrite <- Hd. }
  (* the times of the active copy are written *)
  destruct (put_existing dst (Fs.File c' (clock w)) f1) as [f2 Hf2];
    [by eexists|].
  assert (Fs.lookup src f2 = Some (Fs.File c (clock w))) as Hsrc2.
  { rewrite Hs. rewrite Hd in Hf2.
    rewrite (lookup_put_apart r a b p' q' _ _ _ Hne Hf2).
    rewrite <- Hs. by apply (lookup_put _ _ _ _ Hf1). }
  pose proof (lookup_put _ _ _ _ Hf2) as Hdst2.
  (* the copy *)
  assert (Fs.is_prefix src dst = false) as Hpre.
  { destruct (Fs.is_prefix src dst) eqn:Hp; [|done].
    destruct (is_prefix_app _ _ Hp) as [rest Hrest].
    rewrite Hs, Hd in Hrest. rewrite <- app_assoc in Hrest.
    apply app_inv_head in Hrest. by inversion Hrest. }
  destruct (lookup_parent dst f2 _ ltac:(subst dst; by destruct (dest monitor))
              Hdst2) as (tp & esp & Hparent).
  destruct (put_existing dst (Fs.File c (clock w)) f2) as [f3 Hf3];
    [by eexists|].
  eexists. split.
  - unfold sync_one, mbind, M_bind, new_Date. simpl.
    fold src. fold dst.
    unfold Node.utimesSync at 1. simpl. rewrite Hsrc. cbn [Fs.set_mtime].
    rewrite Hf1. simpl.
    unfold Node.utimesSync at 1. simpl. rewrite Hdst1. cbn [Fs.set_mtime].
    rewrite Hf2. simpl.
    unfold object_neq. simpl.
    destruct (Nat.eqb_spec (next_obj w) (S (next_obj w))) as [Heq|_]; [lia|].
    simpl. unfold Node.cpSync, Node.parent. simpl.
    rewrite Hsrc2, Hpre, (mkdirs_existing _ _ _ _ _ Hparent), Hdst2. simpl.
    rewrite Hf3. reflexivity.
  - simpl. split; [|split; [by apply (lookup_put _ _ _ _ Hf3)|done]].
    rewrite Hs. rewrite Hd in Hf3.
    rewrite (lookup_put_apart r a b p' q' _ _ _ Hne Hf3).
    by rewrite <- Hs.
Qed.


(** ** The resync of plain entries *)

Lemma files_apart (p q : Fs.path) (n : Fs.node) c t c' t' :
  Fs.lookup p n = Some (Fs.File c t) -> Fs.lookup q n = Some (Fs.File c' t') ->
  p <> q -> apart p q.
Proof.
  intros Hp Hq Hne. apply paths_apart.
  - destruct (Fs.is_prefix p q) eqn:H; [|done].
    destruct (is_prefix_app _ _ H) as [rest ->].
    destruct rest as [|x rest]; [by rewrite app_nil_r in Hne|].
    by rewrite (lookup_below_file _ (x :: rest) _ _ _ Hp) in Hq.
  - destruct (Fs.is_prefix q p) eqn:H; [|done].
    destruct (is_prefix_app _ _ H) as [rest ->].
    destruct rest as [|x rest]; [by rewrite app_nil_r in Hne|].
    by rewrite (lookup_below_file _ (x :: rest) _ _ _ Hq) in Hp.
Qed.

Section Resync.

Variable monitor : MonitorDetails.

(** The resync of an entry writes at its two paths only. *)
Lemma sync_one_apart (T file : Fs.path) :
  apart T (dest monitor ++ file) ->
  apart T (dest monitor ++ "current" :: file) ->
  keeps (node_at T) (sync_one monitor file).
Proof.
  intros Hs Hd. unfold sync_one.
  repeat (apply keeps_bind; [apply node_new_Date|intros ?]).
  apply keeps_bind; [by apply apart_utimesSync|intros _].
  apply keeps_bind; [apply node_new_Date|intros ?].
  apply keeps_bind; [by apply apart_utimesSync|intros _].
  apply keeps_if; [|apply keeps_ret].
  apply keeps_bind; [apply node_info|intros _].
  by apply apart_cpSync.
Qed.

(** The resync of one plain entry leaves the two files of another one as
    they are. *)
Lemma sync_one_other (f g : Fs.path) (w : world) :
  f <> g ->
  (exists a rest, f = a :: rest /\ a <> "current") ->
  (exists a rest, g = a :: rest /\ a <> "current") ->
  (exists c t, Fs.lookup (dest monitor ++ f) (fs w) = Some (Fs.File c t)) ->
  (exists c t,
      Fs.lookup (dest monitor ++ "current" :: f) (fs w) = Some (Fs.File c t)) ->
  (exists c t, Fs.lookup (dest monitor ++ g) (fs w) = Some (Fs.File c t)) ->
  (exists c t,
      Fs.lookup (dest monitor ++ "current" :: g) (fs w) = Some (Fs.File c t)) ->
  Fs.lookup (dest monitor ++ f) (fs (snd (sync_one monitor g w)))
  = Fs.lookup (dest monitor ++ f) (fs w)
  /\ Fs.lookup (dest monitor ++ "current" :: f) (fs (snd (sync_one monitor g w)))
     = Fs.lookup (dest monitor ++ "current" :: f) (fs w).
Proof.
  intros Hne (a & rest & -> & Ha) (b & rest' & -> & Hb)
         (c1 & t1 & Hsf) (c2 & t2 & Haf) (c3 & t3 & Hsg) (c4 & t4 & Hag).
  split.
  - apply (sync_one_apart (dest monitor ++ a :: rest) (b :: rest')).
    + apply (files_apart _ _ _ _ _ _ _ Hsf Hsg).
      intros Heq. by apply app_inv_head in Heq.
    + exists (dest monitor), a, "current", rest, (b :: rest'). done.
  - apply (sync_one_apart (dest monitor ++ "current" :: a :: rest) (b :: rest')).
    + exists (dest monitor), "current", b, (a :: rest), rest'.
      repeat split; done.
    + apply (files_apart _ _ _ _ _ _ _ Haf Hag).
      intros Heq. apply app_inv_head in Heq. injection Heq as -> ->.
      by destruct Hne.
Qed.

Lemma sync_entries (all : list Fs.path) (w0 : world) :
  (forall f, f ∈ all -> exists a rest, f = a :: rest /\ a <> "current") ->
  forall (l : list Fs.path) (w : world),
    (forall f, f ∈ l -> f ∈ all) ->
    clock w = clock w0 ->
    (forall f, f ∈ all ->
               exists c,
                 (exists t, Fs.lookup (dest monitor ++ f) (fs w0)
                            = Some (Fs.File c t))
                 /\ (exists t, Fs.lookup (dest monitor ++ f) (fs w)
                               = Some (Fs.File c t))) ->
    (forall f, f ∈ all ->
               exists c t, Fs.lookup (dest monitor ++ "current" :: f) (fs w)
                           = Some (Fs.File c t)) ->
    exists w1,
      forEach (sync_one monitor) l w = (Ok tt, w1)
      /\ clock w1 = clock w0
      /\ logs w1 = logs w ++ map (copying_line monitor) l
      /\ (forall f c t,
            f ∈ l ->
            Fs.lookup (dest monitor ++ f) (fs w0) = Some (Fs.File c t) ->
            Fs.lookup (dest monitor ++ f) (fs w1) = Some (Fs.File c (clock w0))
            /\ Fs.lookup (dest monitor ++ "current" :: f) (fs w1)
               = Some (Fs.File c (clock w0)))
      /\ (forall f, f ∈ all -> f ∉ l ->
            Fs.lookup (dest monitor ++ f) (fs w1)
            = Fs.lookup (dest monitor ++ f) (fs w)
            /\ Fs.lookup (dest monitor ++ "current" :: f) (fs w1)
               = Fs.lookup (dest monitor ++ "current" :: f) (fs w)).
Proof.
  intros Hout l. induction l as [|g l IH]; intros w Hsub Hclk Hsrc Hact.
  - exists w. simpl. rewrite app_nil_r.
    split; [done|]. split; [done|]. split; [done|]. split; [|done].
    intros f c t Hf. by apply elem_of_nil in Hf.
  - assert (g ∈ all) as Hg by (apply Hsub; by left).
    destruct (Hsrc g Hg) as (cg & [tg0 Hg0] & [tg Hgs]).
    destruct (Hact g Hg) as (cg' & tg' & Hga).
    destruct (sync_one_both_files monitor g w cg cg' tg tg' Hgs Hga)
      as (w' & Hrun & Hs' & Ha' & _ & _ & Hclk').
    pose proof (sync_one_copies monitor g w w' Hrun) as Hlog.
    assert (forall f, f ∈ all -> f <> g ->
              Fs.lookup (dest monitor ++ f) (fs w')
              = Fs.lookup (dest monitor ++ f) (fs w)
              /\ Fs.lookup (dest monitor ++ "current" :: f) (fs w')
                 = Fs.lookup (dest monitor ++ "current" :: f) (fs w)) as Hframe.
    { intros f Hf Hne.
      destruct (Hsrc f Hf) as (cf & _ & [tf Hfs]).
      pose proof (sync_one_other f g w Hne (Hout f Hf) (Hout g Hg)
                    ltac:(by eexists _, _) (Hact f Hf)
                    ltac:(by eexists _, _) ltac:(by eexists _, _)) as Hk.
      by rewrite Hrun in Hk. }
    destruct (IH w') as (w1 & Hrest & Hclk1 & Hlog1 & Hdone & Hkept).
    + intros f Hf. apply Hsub. by right.
    + by rewrite Hclk'.
    + intros f Hf. destruct (decide (f = g)) as [->|Hne].
      * exists cg. split; [by exists tg0|]. by eexists.
      * destruct (Hsrc f Hf) as (cf & H0 & [tf Hfs]).
        exists cf. split; [done|]. exists tf.
        by rewrite (proj1 (Hframe f Hf Hne)).
    + intros f Hf. destruct (decide (f = g)) as [->|Hne].
      * by eexists _, _.
      * destruct (Hact f Hf) as (cf & tf & Hfa).
        exists cf, tf. by rewrite (proj2 (Hframe f Hf Hne)).
    + exists w1. split; [|split; [done|split; [|split]]].
      * cbn [forEach]. unfold mbind, M_bind. by rewrite Hrun.
      * rewrite Hlog1, Hlog. cbn [map]. by rewrite <- app_assoc.
      * intros f c t Hf Hf0.
        destruct (decide (f ∈ l)) as [Hin|Hnin]; [by apply (Hdone f c t)|].
        apply elem_of_cons in Hf as [->|Hin]; [|done].
        rewrite Hg0 in Hf0. injection Hf0 as <- <-.
        destruct (Hkept g Hg Hnin) as [-> ->].
        by rewrite Hs', Ha', Hclk.
      * intros f Hf Hnin. apply not_elem_of_cons in Hnin as [Hne Hnin].
        destruct (Hkept f Hf Hnin) as [-> ->]. by apply Hframe.
Qed.

(** The resync of plain entries returns; it has then copied each of
    them, in the order of the list, and every active copy holds the text of
    its source. *)
Lemma syncMonitorFiles_plain (w : world) :
  plain_entries monitor w ->
  exists w1,
    syncMonitorFiles monitor w = (Ok tt, w1)
    /\ resynced monitor w w1
    /\ logs w1 = logs w ++ map (copying_line monitor) (CopyFiles monitor).
Proof.
  intros Hplain.
  destruct (sync_entries (CopyFiles monitor) w
              (fun f Hf => proj1 (Hplain f Hf))
              (CopyFiles monitor) w) as (w1 & Hrun & _ & Hlog & Hdone & _).
  - done.
  - done.
  - intros f Hf. destruct (Hplain f Hf) as (_ & (c & t & Hs) & _).
    exists c. split; by exists t.
  - intros f Hf. by destruct (Hplain f Hf) as (_ & _ & Ha).
  - exists w1. split; [exact Hrun|]. split; [|exact Hlog].
    intros f c t Hf Hs. by apply (Hdone f c t).
Qed.

(** A resync that returns has logged the copy of each entry. *)
Lemma syncMonitorFiles_logs (w w1 : world) :
  syncMonitorFiles monitor w = (Ok tt, w1) ->
  logs w1 = logs w ++ map (copying_line monitor) (CopyFiles monitor).
Proof.
  unfold syncMonitorFiles. revert w.
  induction (CopyFiles monitor) as [|g l IH]; intros w; simpl.
  - intros [= <-]. by rewrite app_nil_r.
  - unfold mbind, M_bind.
    destruct (sync_one monitor g w) as [[[]|e|] w'] eqn:Hrun; [|done|done].
    intros Hrest. rewrite (IH w' Hrest), (sync_one_copies monitor g w w' Hrun).
    by rewrite <- app_assoc.
Qed.

End Resync.

(** ** Profiles that are up to date *)

Section UpToDate.

Variable E : env.
Variable monitor : MonitorDetails.

Lemma count_running (upStatuses : gmap string bool) (l : list string) (k : nat) :
  fold_left (fun n x => if running upStatuses x then S n else n) l k
  = (k + length (List.filter (running upStatuses) l))%nat.
Proof.
  revert k. induction l as [|x l IH]; intros k; simpl; [lia|].
  rewrite IH. destruct (running upStatuses x); simpl; lia.
Qed.

Lemma all_kept {A} (f : A -> bool) (l : list A) :
  length (List.filter f l) = length l <-> forallb f l = true.
Proof.
  induction l as [|x l IH]; simpl; [done|].
  pose proof (List.filter_length_le f l) as Hle.
  destruct (f x); simpl; [|split; [lia|done]].
  rewrite <- IH. split; lia.
Qed.

(** The profile is restarted exactly when containers are named and one of
    them is not up in the snapshot. *)
Lemma checkMonitorStatus_cases (upStatuses : gmap string bool) (w : world) :
  checkMonitorStatus E monitor upStatuses w
  = if (length (MonitorContainers monitor) =? 0)%nat then (Ok tt, w)
    else if forallb (running upStatuses) (MonitorContainers monitor)
    then (Ok tt,
          add_log Info (Profile monitor
                        +:+ " up-to-date and running successfully")
            (add_log Info (status_report monitor upStatuses) w))
    else stopAndRestart E monitor
           (add_log Info ("One or more images for " +:+ Profile monitor
                          +:+ " was not found. Restarting.")
              (add_log Info (status_report monitor upStatuses) w)).
Proof.
  unfold checkMonitorStatus.
  destruct (length (MonitorContainers monitor) =? 0)%nat; [done|].
  rewrite count_running. simpl.
  unfold mbind, M_bind. simpl.
  destruct (forallb (running upStatuses) (MonitorContainers monitor)) eqn:Hall.
  - apply all_kept in Hall. rewrite Hall, Nat.eqb_refl. done.
  - destruct (Nat.eqb_spec
                (length (List.filter (running upStatuses)
                           (MonitorContainers monitor)))
                (length (MonitorContainers monitor))) as [Heq|Hne]; [|done].
    apply all_kept in Heq. congruence.
Qed.

Lemma checkMonitorStatus_no_throw (upStatuses : gmap string bool)
    (w : world) (e : string) :
  fst (checkMonitorStatus E monitor upStatuses w) <> Throw e.
Proof.
  rewrite checkMonitorStatus_cases.
  repeat case_match; try done. apply stopAndRestart_no_throw.
Qed.

(** The branch of a cache hit: the resync, and the liveness check when
    the resync returned; an exception of the resync is what the [catch] of
    the promise logs. *)
Lemma hit_branch (upStatuses : gmap string bool) (w0 : world) :
  (forall w1,
      syncMonitorFiles monitor w0 = (Ok tt, w1) ->
      catch_ (syncMonitorFiles monitor ;; checkMonitorStatus E monitor upStatuses)
             Logger.error w0
      = checkMonitorStatus E monitor upStatuses w1)
  /\ (forall e w1,
        syncMonitorFiles monitor w0 = (Throw e, w1) ->
        catch_ (syncMonitorFiles monitor ;; checkMonitorStatus E monitor upStatuses)
               Logger.error w0
        = (Ok tt, add_log Error e w1)).
Proof.
  split.
  - intros w1 Hsync. rewrite catch_no_throw.
    + unfold mbind, M_bind. by rewrite Hsync.
    + intros e. unfold mbind, M_bind. rewrite Hsync.
      apply checkMonitorStatus_no_throw.
  - intros e w1 Hsync. unfold catch_, mbind, M_bind. by rewrite Hsync.
Qed.

Lemma runRepoMonitor_hit (isInit : bool) (upStatuses : gmap string bool)
    (status : Z) (v : string) (w : world) :
  cache w !! Profile monitor = Some v ->
  get_tree E (repoUrl monitor) = Resolved status v ->
  runRepoMonitor E monitor isInit upStatuses w
  = catch_ (syncMonitorFiles monitor ;; checkMonitorStatus E monitor upStatuses)
           Logger.error
           (hit_world ("Run repo monitor for " +:+ Profile monitor)
                      (repoUrl monitor) monitor v w).
Proof.
  intros Hcached Htree.
  unfold runRepoMonitor, mbind at 1, M_bind at 1. simpl.
  unfold catch_, mbind at 1, M_bind at 1, axios_get. rewrite Htree.
  unfold mbind at 1, M_bind at 1, cache_is, get. simpl.
  rewrite bool_decide_eq_true_2 by done.
  unfold mbind at 1, M_bind at 1. reflexivity.
Qed.

Lemma runReleaseMonitor_hit (isInit : bool) (upStatuses : gmap string bool)
    (data : list release) (first : asset) (rest : list asset) (v : string)
    (w : world) :
  cache w !! Profile monitor = Some v ->
  get_releases E (releaseUrl monitor) = Resolved 200 data ->
  release_results E monitor data = first :: rest ->
  JS.strip_extension (asset_name first) = v ->
  runReleaseMonitor E monitor isInit upStatuses w
  = catch_ (syncMonitorFiles monitor ;; checkMonitorStatus E monitor upStatuses)
           Logger.error
           (hit_world ("Run release monitor for " +:+ Profile monitor)
                      (releaseUrl monitor) monitor v w).
Proof.
  intros Hcached Hfeed Hres Hname.
  unfold runReleaseMonitor, mbind at 1, M_bind at 1. simpl.
  unfold catch_, mbind at 1, M_bind at 1, axios_get. rewrite Hfeed. simpl.
  rewrite Hres. simpl.
  unfold mbind at 1, M_bind at 1. simpl.
  unfold mbind at 1, M_bind at 1, cache_is, get. simpl.
  rewrite Hname, bool_decide_eq_true_2 by done.
  unfold mbind at 1, M_bind at 1. reflexivity.
Qed.

End UpToDate.

(** C9, as the source has it.  When the fingerprint resolved for a profile
    is the cached one, its evaluation, for a branch source and for a release
    source, is the resync of the auxiliary files and, when the resync
    returns, the liveness check in the world that the resync left; when the
    resync throws, the exception is logged and there is no liveness check.
    The resync makes no request and spawns nothing; when it returns it has
    logged the copy of each entry, and for entries that are plain files it
    does return, every active copy then holding the text of its source.
    The check restarts the profile exactly when the profile names monitored
    containers and one of them is not up in the snapshot of the cycle, and
    does nothing when it names none; it makes no request and leaves the
    cache alone. *)
Theorem up_to_date_reconciles (E : env) (monitor : MonitorDetails)
    (isInit : bool) (upStatuses : gmap string bool) (v : string) (w : world) :
  cache w !! Profile monitor = Some v ->
  (forall status,
      get_tree E (repoUrl monitor) = Resolved status v ->
      let w0 := hit_world ("Run repo monitor for " +:+ Profile monitor)
                  (repoUrl monitor) monitor v w in
      (forall w1,
          syncMonitorFiles monitor w0 = (Ok tt, w1) ->
          runRepoMonitor E monitor isInit upStatuses w
          = checkMonitorStatus E monitor upStatuses w1)
      /\ (forall e w1,
            syncMonitorFiles monitor w0 = (Throw e, w1) ->
            runRepoMonitor E monitor isInit upStatuses w
            = (Ok tt, add_log Error e w1)))
  /\ (forall data first rest,
        get_releases E (releaseUrl monitor) = Resolved 200 data ->
        release_results E monitor data = first :: rest ->
        JS.strip_extension (asset_name first) = v ->
        let w0 := hit_world ("Run release monitor for " +:+ Profile monitor)
                    (releaseUrl monitor) monitor v w in
        (forall w1,
            syncMonitorFiles monitor w0 = (Ok tt, w1) ->
            runReleaseMonitor E monitor isInit upStatuses w
            = checkMonitorStatus E monitor upStatuses w1)
        /\ (forall e w1,
              syncMonitorFiles monitor w0 = (Throw e, w1) ->
              runReleaseMonitor E monitor isInit upStatuses w
              = (Ok tt, add_log Error e w1)))
  /\ (forall announce url o w1,
        let w0 := hit_world announce url monitor v w in
        syncMonitorFiles monitor w0 = (o, w1) ->
        effects w1 = effects w ++ [EGet url]
        /\ cache w1 = cache w
        /\ (o = Ok tt ->
            logs w1 = logs w0 ++ map (copying_line monitor) (CopyFiles monitor))
        /\ (plain_entries monitor w -> o = Ok tt /\ resynced monitor w w1))
  /\ (forall w1,
        checkMonitorStatus E monitor upStatuses w1
        = (if (length (MonitorContainers monitor) =? 0)%nat then (Ok tt, w1)
           else if forallb (running upStatuses) (MonitorContainers monitor)
           then (Ok tt,
                 add_log Info (Profile monitor
                               +:+ " up-to-date and running successfully")
                   (add_log Info (status_report monitor upStatuses) w1))
           else stopAndRestart E monitor
                  (add_log Info ("One or more images for " +:+ Profile monitor
                                 +:+ " was not found. Restarting.")
                     (add_log Info (status_report monitor upStatuses) w1)))
        /\ requests (snd (checkMonitorStatus E monitor upStatuses w1))
           = requests w1
        /\ cache (snd (checkMonitorStatus E monitor upStatuses w1)) = cache w1).
Proof.
  intros Hcached.
  split; [|split; [|split]].
  - intros status Htree w0.
    rewrite (runRepoMonitor_hit E monitor isInit upStatuses status v w
               Hcached Htree).
    apply hit_branch.
  - intros data first rest Hfeed Hres Hname w0.
    rewrite (runReleaseMonitor_hit E monitor isInit upStatuses data first rest
               v w Hcached Hfeed Hres Hname).
    apply hit_branch.
  - intros announce url o w1 w0 Hsync.
    pose proof (local_syncMonitorFiles effects local_effects monitor w0) as He.
    pose proof (keeps_syncMonitorFiles cache blind_cache monitor w0) as Hc.
    rewrite Hsync in He, Hc. simpl in He, Hc.
    split; [exact He|]. split; [exact Hc|]. split.
    + intros ->. by apply syncMonitorFiles_logs.
    + intros Hplain.
      destruct (syncMonitorFiles_plain monitor w0 Hplain)
        as (w1' & Hrun & Hre & _).
      rewrite Hsync in Hrun. by injection Hrun as -> ->.
  - intros w1. split; [apply checkMonitorStatus_cases|]. split.
    + apply (keeps_checkMonitorStatus requests blind_requests).
    + apply (keeps_checkMonitorStatus cache blind_cache).
Qed.

(** [Site.settled] is up to date.  With [web] monitored, which is up,
    nothing is restarted; with [db] monitored, which is down, the profile is
    stopped and started; and the release source does the same when the
    cached fingerprint is that of the first asset. *)
Lemma up_to_date_reconciles_witness :
  effects (snd (runRepoMonitor Site.upstream Site.site false Site.snapshot
                  Site.settled))
  = [EGet (repoUrl Site.site)]
  /\ effects (snd (runRepoMonitor Site.upstream Site.watching_db false
                     Site.snapshot Site.settled))
     = [EGet (repoUrl Site.site);
        ESpawn "docker compose --profile site stop";
        EExec compose_ps;
        ESpawn "docker compose --profile site up --build"]
  /\ effects (snd (runReleaseMonitor (Feed.serving Feed.feed) Feed.tool true
                     Site.snapshot (Feed.cached "b")))
     = [EGet (releaseUrl Feed.tool)]
  /\ Fs.lookup ["srv"; "current"; "env.txt"]
       (fs (snd (syncMonitorFiles Site.site
                   (hit_world "Run repo monitor for site" (repoUrl Site.site)
                      Site.site "v2" Site.settled))))
     = Some (Fs.File "SECRET" 1000).
Proof.
  assert (cache Site.settled !! "site" = Some "v2") as Hcached
    by (vm_compute; reflexivity).
  assert (cache (Feed.cached "b") !! "tool" = Some "b") as Hcached'
    by (vm_compute; reflexivity).
  split; [|split; [|split]].
  - destruct (up_to_date_reconciles Site.upstream Site.site false Site.snapshot
                "v2" Site.settled Hcached) as (Hrepo & _ & _ & Hcheck).
    destruct (Hrepo 200 eq_refl) as (Hok & _).
    rewrite (Hok (snd (syncMonitorFiles Site.site
                         (hit_world "Run repo monitor for site"
                            (repoUrl Site.site) Site.site "v2" Site.settled))))
      by (vm_compute; reflexivity).
    destruct (Hcheck (snd (syncMonitorFiles Site.site
                             (hit_world "Run repo monitor for site"
                                (repoUrl Site.site) Site.site "v2"
                                Site.settled)))) as (-> & _).
    vm_compute. reflexivity.
  - destruct (up_to_date_reconciles Site.upstream Site.watching_db false
                Site.snapshot "v2" Site.settled Hcached)
      as (Hrepo & _ & _ & Hcheck).
    destruct (Hrepo 200 eq_refl) as (Hok & _).
    rewrite (Hok (snd (syncMonitorFiles Site.watching_db
                         (hit_world "Run repo monitor for site"
                            (repoUrl Site.watching_db) Site.watching_db "v2"
                            Site.settled)))) by (vm_compute; reflexivity).
    destruct (Hcheck (snd (syncMonitorFiles Site.watching_db
                             (hit_world "Run repo monitor for site"
                                (repoUrl Site.watching_db) Site.watching_db
                                "v2" Site.settled)))) as (-> & _).
    vm_compute. reflexivity.
  - destruct (up_to_date_reconciles (Feed.serving Feed.feed) Feed.tool true
                Site.snapshot "b" (Feed.cached "b") Hcached')
      as (_ & Hrelease & _ & Hcheck).
    destruct (Hrelease Feed.feed (Feed.named "b.zip") [])
      as (Hok & _); [reflexivity|vm_compute; reflexivity..|].
    rewrite (Hok _ eq_refl).
    destruct (Hcheck (hit_world "Run release monitor for tool"
                        (releaseUrl Feed.tool) Feed.tool "b" (Feed.cached "b")))
      as (-> & _).
    vm_compute. reflexivity.
  - destruct (up_to_date_reconciles Site.upstream Site.site false Site.snapshot
                "v2" Site.settled Hcached) as (_ & _ & Hsync & _).
    destruct (Hsync "Run repo monitor for site" (repoUrl Site.site)
                (fst (syncMonitorFiles Site.site
                        (hit_world "Run repo monitor for site"
                           (repoUrl Site.site) Site.site "v2" Site.settled)))
                (snd (syncMonitorFiles Site.site
                        (hit_world "Run repo monitor for site"
                           (repoUrl Site.site) Site.site "v2" Site.settled))))
      as (_ & _ & _ & Hplain); [by destruct (syncMonitorFiles _ _)|].
    destruct Hplain as [_ Hre].
    + intros file Hin. apply list_elem_of_singleton in Hin as ->.
      split; [by exists "env.txt", []|].
      split; by eexists _, _.
    + destruct (Hre ["env.txt"] "SECRET" 5) as [_ Hactive];
        [by apply list_elem_of_singleton|reflexivity|exact Hactive].
Defined.

(** C9, as the claim has it, fails when the resync throws.  The cycle
    before found [builds/v2] in place and set the cache without copying the
    auxiliary file.  Now the fingerprint resolved is the cached one and the
    monitored container [db] is down; the resync throws on the missing
    active copy, the exception is logged, and the profile is not
    restarted. *)
Lemma up_to_date_without_reconciliation :
  let w1 := snd (runMonitor Site.upstream [Site.watching_db] false Site.built) in
  let w2 := snd (runMonitor Site.upstream [Site.watching_db] false w1) in
  cache w1 !! "site" = Some "v2"
  /\ get_tree Site.upstream (repoUrl Site.watching_db) = Resolved 200 "v2"
  /\ MonitorContainers Site.watching_db = ["db"]
  /\ running Site.snapshot "db" = false
  /\ fst (syncMonitorFiles Site.watching_db w1) = Throw "ENOENT"
  /\ effects w2
     = effects w1 ++ [EExec compose_ps; EGet (repoUrl Site.watching_db)]
  /\ spawns w2 = []
  /\ last (logs w2) = Some (Error, "ENOENT").
Proof.
  intros w1 w2.
  split; [vm_compute; reflexivity|].
  split; [reflexivity|].
  split; [reflexivity|].
  split; [vm_compute; reflexivity|].
  split; [vm_compute; reflexivity|].
  split; [vm_compute; reflexivity|].
  split; vm_compute; reflexivity.
Qed.

(** * Further properties of the sources *)

(** ** The status table, continued *)

(** X1.  The header is searched for "COMMND", which no header of the status
    listing holds; the offset is then [-1], the slice for the image is the
    slice for the container name, and a row writes its container name where
    the image was meant. *)
Theorem image_column_is_name_column (h line : string) :
  JS.indexOf h "COMMND" = -1 ->
  row_image (header_columns h) line = row_name (header_columns h) line
  /\ row_keys (header_columns h) line
     = [row_service (header_columns h) line;
        row_name (header_columns h) line;
        row_name (header_columns h) line].
Proof.
  intros Hno.
  assert (row_image (header_columns h) line = row_name (header_columns h) line)
    as Heq.
  { unfold row_image, row_name, header_columns. simpl. rewrite Hno.
    unfold JS.substring, JS.clamp. f_equal.
    replace (Z.to_nat (Z.min (Z.max (-1) 0) (Z.of_nat (String.length line))))
      with O by lia.
    replace (Z.to_nat (Z.min (Z.max 0 0) (Z.of_nat (String.length line))))
      with O by lia.
    by rewrite Nat.min_comm, Nat.max_comm. }
  split; [exact Heq|]. unfold row_keys. by rewrite Heq.
Qed.

Lemma image_column_is_name_column_witness :
  row_image (header_columns (hd EmptyString (JS.split_lines Sample.table)))
    "app-1   nginx   run       web       2 days ago   Up 3 hours   80/tcp"
  = "app-1".
Proof.
  destruct (image_column_is_name_column
              (hd EmptyString (JS.split_lines Sample.table))
              "app-1   nginx   run       web       2 days ago   Up 3 hours   80/tcp")
    as [Heq _]; [vm_compute; reflexivity|].
  rewrite Heq. vm_compute. reflexivity.
Defined.

(** ** GetContainerStatus *)







(** ** ExecuteCommand *)





(** ** The constructor of Docker *)

Lemma includes_elem_of (l : list string) (x : string) :
  includes l x = true <-> x ∈ l.
Proof.
  unfold includes. rewrite existsb_exists. split.
  - intros (y & Hin & Heq). apply String.eqb_eq in Heq as ->.
    by apply list_elem_of_In.
  - intros Hin. exists x. split; [by apply list_elem_of_In|].
    apply String.eqb_refl.
Qed.

Lemma spawns_add_log l msg w : spawns (add_log l msg w) = spawns w.
Proof. reflexivity. Qed.

Lemma spawns_add_spawn cmd w :
  spawns (add_effect (ESpawn cmd) w) = spawns w ++ [ESpawn cmd].
Proof. unfold spawns. simpl. by rewrite List.filter_app. Qed.

Lemma autostart_loop (E : env) (d : Docker) (l : list string) (w : world) :
  exists w',
    forEach (fun profile => _ ← StartProfile (with_docker d E) profile; mret tt)
            l w = (Ok tt, w')
    /\ spawns w'
       = spawns w
         ++ map (fun p => ESpawn ("docker compose --profile " +:+ p +:+ " up --build"))
              (List.filter (includes (profiles d)) l).
Proof.
  revert w. induction l as [|p l IH]; intros w.
  - exists w. split; [done|]. simpl. by rewrite app_nil_r.
  - cbn [forEach List.filter]. unfold mbind at 1, M_bind at 1.
    unfold mbind at 1, M_bind at 1. rewrite StartProfile_run.
    change (profiles (docker (with_docker d E))) with (profiles d).
    destruct (includes (profiles d) p).
    + destruct (IH (add_effect
                      (ESpawn ("docker compose --profile " +:+ p +:+ " up --build"))
                      (add_log Info ("Starting profile " +:+ p) w)))
        as (w' & Hrun & Hs).
      exists w'. split; [exact Hrun|].
      rewrite Hs, spawns_add_spawn, spawns_add_log. simpl.
      by rewrite <- app_assoc.
    + destruct (IH (add_log Error ("Invalid profile " +:+ p)
                      (add_log Info ("Starting profile " +:+ p) w)))
        as (w' & Hrun & Hs).
      exists w'. split; [exact Hrun|]. by rewrite Hs.
Qed.

(** X4.  The profiles that [StartProfile] and [StopProfile] accept are those
    that some service of the compose file lists; the constructor starts, in
    their order, the autostart profiles that are among them, and spawns
    nothing for the others. *)
Theorem Docker_constructor_autostart (E : env) (stringify : list string -> string)
    (yaml : compose_file) (AutostartProfiles : list string) (w : world) :
  (forall p,
      includes (profiles (Docker_of yaml)) p = true
      <-> exists service ps, (service, Some ps) ∈ yaml /\ p ∈ ps)
  /\ fst (Docker_constructor E stringify yaml AutostartProfiles w)
     = Ok (Docker_of yaml)
  /\ spawns (snd (Docker_constructor E stringify yaml AutostartProfiles w))
     = spawns w
       ++ map (fun p => ESpawn ("docker compose --profile " +:+ p +:+ " up --build"))
            (List.filter (includes (profiles (Docker_of yaml)))
                         AutostartProfiles).
Proof.
  split; [|].
  - intros p. rewrite includes_elem_of. unfold Docker_of. simpl.
    rewrite list_elem_of_In, in_flat_map. split.
    + intros ([service [ps|]] & Hin & Hp); simpl in Hp; [|done].
      exists service, ps. split; by apply list_elem_of_In.
    + intros (service & ps & Hin & Hp).
      exists (service, Some ps). split; by apply list_elem_of_In.
  - destruct (autostart_loop E (Docker_of yaml) AutostartProfiles
                (add_log Info
                   ("Docker profiles: " +:+ stringify (profiles (Docker_of yaml)))
                   w)) as (w' & Hrun & Hs).
    assert (Docker_constructor E stringify yaml AutostartProfiles w
            = (Ok (Docker_of yaml), w')) as ->.
    { unfold Docker_constructor, Logger.info, modify.
      unfold mbind, M_bind in Hrun |- *. by rewrite Hrun. }
    split; [done|]. cbn [snd]. by rewrite Hs, spawns_add_log.
Qed.

(** ** environment.ts *)

Lemma split_on_cons (c : ascii) (s : string) :
  exists l ls, split_on c s = l :: ls.
Proof.
  destruct s as [|a s]; simpl; [by eexists _, _|].
  destruct (Ascii.eqb a c); [by eexists _, _|].
  destruct (split_on c s); by eexists _, _.
Qed.

Lemma concat_cons_char (sep : string) (a : ascii) (l : string) (ls : list string) :
  String.concat sep (String a l :: ls) = String a (String.concat sep (l :: ls)).
Proof. by destruct ls. Qed.

(** X5.  A list read from the environment is empty when the variable is not set;
    when it is set the list is never empty, its pieces hold no comma, and
    joined by commas they give the variable back: a variable set to the
    empty string gives one piece, the empty name. *)
Theorem env_list_pieces :
  env_list None = []
  /\ env_list (Some EmptyString) = [EmptyString]
  /\ forall s,
       env_list (Some s) <> []
       /\ String.concat "," (env_list (Some s)) = s
       /\ Forall (fun piece => contains_char ","%char piece = false)
                 (env_list (Some s)).
Proof.
  split; [done|]. split; [done|]. intros s. unfold env_list.
  split; [|split].
  - by destruct (split_on_cons ","%char s) as (l & ls & ->).
  - induction s as [|a s IH]; [done|]. simpl.
    destruct (Ascii.eqb_spec a ","%char) as [->|Hne].
    + destruct (split_on_cons ","%char s) as (l & ls & Hs).
      rewrite Hs in IH |- *. simpl in IH |- *. by rewrite IH.
    + destruct (split_on_cons ","%char s) as (l & ls & Hs).
      rewrite Hs in IH |- *. rewrite concat_cons_char. by rewrite IH.
  - induction s as [|a s IH]; simpl; [by repeat constructor|].
    destruct (Ascii.eqb a ","%char) eqn:Ha.
    + by constructor.
    + destruct (split_on ","%char s) as [|l ls].
      * repeat constructor. simpl. by rewrite Ha.
      * inversion IH; subst. constructor; [|done]. simpl. by rewrite Ha.
Qed.

(** ** Fingerprints of release assets *)

Lemma last_dot_none (s : string) :
  contains_char "."%char s = false -> JS.last_dot s = None.
Proof.
  induction s as [|a s IH]; simpl; [done|].
  intros H. apply orb_false_iff in H as [Ha Hs].
  by rewrite (IH Hs), Ha.
Qed.

Lemma last_dot_append (base ext : string) :
  contains_char "."%char ext = false ->
  JS.last_dot (base +:+ String "."%char ext) = Some (base, ext).
Proof.
  intros Hext. induction base as [|a base IH]; simpl.
  - by rewrite (last_dot_none ext Hext).
  - by rewrite IH.
Qed.

Lemma prefix_refl (s : string) : String.prefix s s = true.
Proof.
  induction s as [|a s IH]; simpl; [done|].
  by destruct (ascii_dec a a).
Qed.

Lemma last_dot_prefix (s pre ext : string) :
  JS.last_dot s = Some (pre, ext) -> String.prefix pre s = true.
Proof.
  revert pre. induction s as [|a s IH]; intros pre; simpl; [done|].
  destruct (JS.last_dot s) as [[pre' ext']|].
  - intros [= <- <-]. simpl. destruct (ascii_dec a a); [by apply IH|done].
  - destruct (Ascii.eqb a "."%char); [|done]. by intros [= <- <-].
Qed.

(** X6.  The fingerprint of an asset [base.ext], where [ext] is not empty and
    holds neither a dot nor a slash, is [base]: only the last extension
    goes.  A name without a dot is its own fingerprint, and a fingerprint
    is always a prefix of the asset's name. *)
Theorem strip_extension_cases (s : string) :
  (forall base ext,
      s = base +:+ String "."%char ext ->
      JS.truthy ext = true ->
      contains_char "."%char ext = false ->
      JS.has_slash ext = false ->
      JS.strip_extension s = base)
  /\ (contains_char "."%char s = false -> JS.strip_extension s = s)
  /\ String.prefix (JS.strip_extension s) s = true.
Proof.
  split; [|split].
  - intros base ext -> Hne Hdot Hslash. unfold JS.strip_extension.
    by rewrite (last_dot_append base ext Hdot), Hne, Hslash.
  - intros Hdot. unfold JS.strip_extension. by rewrite (last_dot_none s Hdot).
  - unfold JS.strip_extension.
    destruct (JS.last_dot s) as [[pre ext]|] eqn:Hl; [|apply prefix_refl].
    destruct (JS.truthy ext && negb (JS.has_slash ext)); [|apply prefix_refl].
    by apply (last_dot_prefix s pre ext).
Qed.

Lemma strip_extension_cases_witness :
  JS.strip_extension "tool-v1.2.3.zip" = "tool-v1.2.3"
  /\ JS.strip_extension "LICENSE" = "LICENSE".
Proof.
  split.
  - destruct (strip_extension_cases "tool-v1.2.3.zip") as (Hext & _).
    apply (Hext "tool-v1.2.3" "zip"); reflexivity.
  - destruct (strip_extension_cases "LICENSE") as (_ & Hnone & _).
    apply Hnone. reflexivity.
Defined.

(** ** Computations that come to an end *)

Section Settles.

Lemma settles_ret {A} (a : A) : settles (mret a).
Proof. by intros w. Qed.

Lemma settles_bind {A B} (m : M A) (f : A -> M B) :
  settles m -> (forall a, settles (f a)) -> settles (m ≫= f).
Proof.
  intros Hm Hf w. unfold mbind, M_bind. specialize (Hm w).
  destruct (m w) as [[a|e|] w']; simpl in *; [apply Hf|done|done].
Qed.



Lemma settles_forEach {A} (f : A -> M unit) (l : list A) :
  (forall a, settles (f a)) -> settles (forEach f l).
Proof.
  intros Hf. induction l as [|a l IH]; simpl; [apply settles_ret|].
  apply settles_bind; [apply Hf|by intros _].
Qed.

Lemma settles_if {A} (b : bool) (m1 m2 : M A) :
  settles m1 -> settles m2 -> settles (if b then m1 else m2).
Proof. by destruct b. Qed.

Lemma settles_modify (f : world -> world) : settles (modify f).
Proof. by intros w. Qed.




Ltac settled :=
  let w := fresh "w" in
  intros w;
  cbv beta delta [Node.existsSync Node.mkdirSync Node.rmSync Node.renameSync
    Node.cpSync Node.utimesSync Node.readdirSync Node.writeStream extract
    axios_get new_Date get modify fst];
  repeat case_match; simplify_eq; simpl; done.

Lemma settles_cpSync p q : settles (Node.cpSync p q).
Proof. settled. Qed.
Lemma settles_utimesSync p a b : settles (Node.utimesSync p a b).
Proof. settled. Qed.
Lemma settles_new_Date : settles new_Date.
Proof. settled. Qed.

Variable E : env.


Lemma settles_GetStatuses : settles (GetStatuses E).
Proof. intros w. rewrite GetStatuses_run. simpl. by repeat case_match. Qed.




Lemma settles_sync_one monitor file : settles (sync_one monitor file).
Proof.
  unfold sync_one.
  apply settles_bind; [apply settles_new_Date|intros sourceDate].
  apply settles_bind; [apply settles_new_Date|intros destinationDate].
  apply settles_bind; [apply settles_new_Date|intros atime].
  apply settles_bind; [apply settles_utimesSync|intros _].
  apply settles_bind; [apply settles_new_Date|intros atime'].
  apply settles_bind; [apply settles_utimesSync|intros _].
  apply settles_if; [|apply settles_ret].
  apply settles_bind; [apply settles_modify|intros _; apply settles_cpSync].
Qed.

Lemma settles_syncMonitorFiles monitor : settles (syncMonitorFiles monitor).
Proof. apply settles_forEach, settles_sync_one. Qed.












End Settles.



(** ** Restarts *)

Lemma first_reached (P : nat -> bool) (n : nat) :
  (forall j, (j < n)%nat -> P j = false)
  \/ exists k, (k < n)%nat /\ P k = true /\ forall j, (j < k)%nat -> P j = false.
Proof.
  induction n as [|n IH]; [left; intros j Hj; lia|].
  destruct IH as [Hnone|(k & Hk & Hpk & Hbefore)].
  - destruct (P n) eqn:Hn.
    + right. exists n. split; [lia|]. split; [done|exact Hnone].
    + left. intros j Hj. destruct (decide (j = n)) as [->|]; [done|].
      apply Hnone. lia.
  - right. exists k. split; [lia|done].
Qed.

Lemma filter_rounds (f : effect -> bool) (k : nat) :
  f (EExec compose_ps) = false -> f (ETimeout 5000) = false ->
  List.filter f (rounds k) = [].
Proof.
  intros H1 H2. induction k as [|k IH]; [done|].
  simpl. by rewrite H1, H2.
Qed.

Section Restart.

Variable E : env.
Variable monitor : MonitorDetails.

Lemma stop_of_restart (w : world) :
  exists w1,
    StopProfile E (Profile monitor)
      (add_log Info ("Restarting docker profile " +:+ Profile monitor) w)
    = (Ok (includes (profiles (docker E)) (Profile monitor)), w1)
    /\ effects w1 = effects w ++ stop_effects E monitor
    /\ ps_runs w1 = ps_runs w /\ clock w1 = clock w
    /\ fs w1 = fs w /\ cache w1 = cache w.
Proof.
  rewrite StopProfile_run. unfold stop_effects.
  destruct (includes (profiles (docker E)) (Profile monitor)); simpl;
    eexists; (split; [reflexivity|]); simpl; rewrite ?app_nil_r; done.
Qed.

Lemma stopAndRestart_unfold (w w1 : world) (b : bool) :
  StopProfile E (Profile monitor)
    (add_log Info ("Restarting docker profile " +:+ Profile monitor) w)
  = (Ok b, w1) ->
  stopAndRestart E monitor w
  = detached
      (success ← WaitForStatus E 12 (Profile monitor) false 12;
       if success : bool then
         syncMonitorFiles monitor ;;
         _ ← StartProfile E (Profile monitor);
         mret tt
       else
         Logger.error ("Unable to start docker profile " +:+ Profile monitor))
      w1.
Proof.
  intros Hstop. unfold stopAndRestart, mbind at 1 2, M_bind at 1 2.
  unfold Logger.info at 1, modify at 1. by rewrite Hstop.
Qed.

(** When each of the twelve polls shows the profile's name up, the restart
    gives up: the stop was issued, twelve queries and twelve timers of five
    seconds followed, the failure is logged, and nothing else happened; the
    profile is not started, the auxiliary files are not resynchronized. *)
Lemma restart_gives_up (w : world) :
  (forall j, (j < 12)%nat ->
             reached E (Profile monitor) false (ps_runs w + j) = false) ->
  exists w',
    stopAndRestart E monitor w = (Ok tt, w')
    /\ effects w' = effects w ++ stop_effects E monitor ++ rounds 12
    /\ ps_runs w' = (ps_runs w + 12)%nat
    /\ clock w' = clock w + 60000
    /\ fs w' = fs w /\ cache w' = cache w
    /\ last (logs w')
       = Some (Error, "Unable to start docker profile " +:+ Profile monitor).
Proof.
  intros Hnever.
  destruct (stop_of_restart w) as (w1 & Hstop & Heff1 & Hps1 & Hclk1 & Hfs1 & Hc1).
  rewrite (stopAndRestart_unfold w w1 _ Hstop).
  destruct (WaitForStatus_exhausts E (Profile monitor) false 12 12 w1 (le_n 12))
    as (w2 & Hwait & Hps2 & Heff2 & Hclk2 & Hfs2 & Hc2).
  { intros j Hj. rewrite Hps1. by apply Hnever. }
  change (Z.of_nat 12) with 12 in Hwait.
  unfold detached, catch_, mbind, M_bind. rewrite Hwait. simpl.
  eexists. split; [reflexivity|]. simpl.
  rewrite Heff2, Heff1, Hps2, Hps1, Hclk2, Hclk1, Hfs2, Hfs1, Hc2, Hc1, <- app_assoc.
  repeat split; try done. apply last_snoc.
Qed.

(** When a poll among the twelve shows the profile's name not up, the wait
    ends there and the resync runs; the profile is started when the resync
    returns, and is left stopped when the resync throws. *)
Lemma restart_proceeds (w : world) (k : nat) :
  (k < 12)%nat ->
  reached E (Profile monitor) false (ps_runs w + k) = true ->
  (forall j, (j < k)%nat ->
             reached E (Profile monitor) false (ps_runs w + j) = false) ->
  let w2 := after_wait E monitor w in
  effects w2 = effects w ++ stop_effects E monitor ++ rounds k ++ [EExec compose_ps]
  /\ ps_runs w2 = (ps_runs w + S k)%nat
  /\ clock w2 = clock w + 5000 * Z.of_nat k
  /\ fs w2 = fs w /\ cache w2 = cache w
  /\ (forall w3,
        syncMonitorFiles monitor w2 = (Ok tt, w3) ->
        stopAndRestart E monitor w
        = (Ok tt, snd (StartProfile E (Profile monitor) w3))
        /\ effects (snd (StartProfile E (Profile monitor) w3))
           = effects w2 ++ start_effects E monitor)
  /\ (forall e w3,
        syncMonitorFiles monitor w2 = (Throw e, w3) ->
        stopAndRestart E monitor w = (Ok tt, add_effect (EUnhandled e) w3)
        /\ effects (add_effect (EUnhandled e) w3)
           = effects w2 ++ [EUnhandled e]).
Proof.
  intros Hk Hnow Hbefore w2.
  destruct (stop_of_restart w) as (w1 & Hstop & Heff1 & Hps1 & Hclk1 & Hfs1 & Hc1).
  rewrite (stopAndRestart_unfold w w1 _ Hstop).
  destruct (WaitForStatus_reaches E (Profile monitor) false k 12 12 w1 Hk (le_n 12))
    as (w2' & Hwait & Hps2 & Heff2 & Hclk2 & Hfs2 & Hc2).
  { by rewrite Hps1. }
  { intros j Hj. rewrite Hps1. by apply Hbefore. }
  change (Z.of_nat 12) with 12 in Hwait.
  assert (w2 = w2') as ->.
  { subst w2. unfold after_wait. rewrite Hstop. cbn [snd]. by rewrite Hwait. }
  split; [by rewrite Heff2, Heff1, <- app_assoc|].
  split; [congruence|]. split; [congruence|].
  split; [congruence|]. split; [congruence|]. split.
  - intros w3 Hsync.
    pose proof (local_syncMonitorFiles effects local_effects monitor w2') as He.
    rewrite Hsync in He. simpl in He.
    unfold detached, catch_, mbind, M_bind. rewrite Hwait, Hsync.
    rewrite StartProfile_run. unfold start_effects.
    destruct (includes (profiles (docker E)) (Profile monitor)); simpl;
      rewrite ?He, ?app_nil_r; done.
  - intros e w3 Hsync.
    pose proof (local_syncMonitorFiles effects local_effects monitor w2') as He.
    rewrite Hsync in He. simpl in He.
    unfold detached, catch_, mbind, M_bind. rewrite Hwait, Hsync. simpl.
    by rewrite He.
Qed.

End Restart.

(** X8.  When each of the twelve polls of a restart shows the profile's name up,
    the restart gives up: the stop was issued (for a profile of the compose
    file), twelve queries and twelve timers of five seconds followed, the
    failure is logged, and nothing else happened; the profile is not
    started and the auxiliary files are not resynchronized. *)
Theorem stopAndRestart_gives_up (E : env) (monitor : MonitorDetails) (w : world) :
  (forall j, (j < 12)%nat ->
             reached E (Profile monitor) false (ps_runs w + j) = false) ->
  exists w',
    stopAndRestart E monitor w = (Ok tt, w')
    /\ effects w' = effects w ++ stop_effects E monitor ++ rounds 12
    /\ ps_runs w' = (ps_runs w + 12)%nat
    /\ clock w' = clock w + 60000
    /\ fs w' = fs w /\ cache w' = cache w
    /\ last (logs w')
       = Some (Error, "Unable to start docker profile " +:+ Profile monitor).
Proof. apply restart_gives_up. Qed.

(** X9.  When the poll [k] of a restart is the first to show the profile's name
    not up, the wait ends there, after [k] timers, and the resync runs: the
    profile is started when the resync returns, and is left stopped, the
    exception unhandled, when the resync throws. *)
Theorem stopAndRestart_proceeds (E : env) (monitor : MonitorDetails) (w : world)
    (k : nat) :
  (k < 12)%nat ->
  reached E (Profile monitor) false (ps_runs w + k) = true ->
  (forall j, (j < k)%nat ->
             reached E (Profile monitor) false (ps_runs w + j) = false) ->
  let w2 := after_wait E monitor w in
  effects w2 = effects w ++ stop_effects E monitor ++ rounds k ++ [EExec compose_ps]
  /\ ps_runs w2 = (ps_runs w + S k)%nat
  /\ clock w2 = clock w + 5000 * Z.of_nat k
  /\ fs w2 = fs w /\ cache w2 = cache w
  /\ (forall w3,
        syncMonitorFiles monitor w2 = (Ok tt, w3) ->
        stopAndRestart E monitor w
        = (Ok tt, snd (StartProfile E (Profile monitor) w3))
        /\ effects (snd (StartProfile E (Profile monitor) w3))
           = effects w2 ++ start_effects E monitor)
  /\ (forall e w3,
        syncMonitorFiles monitor w2 = (Throw e, w3) ->
        stopAndRestart E monitor w = (Ok tt, add_effect (EUnhandled e) w3)
        /\ effects (add_effect (EUnhandled e) w3)
           = effects w2 ++ [EUnhandled e]).
Proof. apply restart_proceeds. Qed.

Lemma stopAndRestart_gives_up_witness :
  exists w',
    stopAndRestart Sample.steady Web.web Sample.empty_world = (Ok tt, w')
    /\ effects w' = rounds 12
    /\ clock w' = 60000.
Proof.
  destruct (stopAndRestart_gives_up Sample.steady Web.web Sample.empty_world)
    as (w' & Hrun & Heff & _ & Hclk & _).
  - intros j Hj. vm_compute. reflexivity.
  - exists w'. split; [exact Hrun|]. split; [exact Heff|exact Hclk].
Defined.

Lemma stopAndRestart_proceeds_witness :
  effects (snd (stopAndRestart Site.upstream Site.site Site.settled))
  = [ESpawn "docker compose --profile site stop"; EExec compose_ps;
     ESpawn "docker compose --profile site up --build"]
  /\ effects (snd (stopAndRestart Site.upstream Site.site Site.lacking))
     = [ESpawn "docker compose --profile site stop"; EExec compose_ps;
        EUnhandled "ENOENT"].
Proof.
  split.
  - destruct (stopAndRestart_proceeds Site.upstream Site.site Site.settled 0)
      as (Heff & _ & _ & _ & _ & Hok & _).
    + lia.
    + vm_compute. reflexivity.
    + intros j Hj. lia.
    + destruct (Hok (snd (syncMonitorFiles Site.site
                            (after_wait Site.upstream Site.site Site.settled))))
        as [Hrun Hstart]; [vm_compute; reflexivity|].
      rewrite Hrun. cbn [snd]. rewrite Hstart, Heff. vm_compute. reflexivity.
  - destruct (stopAndRestart_proceeds Site.upstream Site.site Site.lacking 0)
      as (Heff & _ & _ & _ & _ & _ & Hthrow).
    + lia.
    + vm_compute. reflexivity.
    + intros j Hj. lia.
    + destruct (Hthrow "ENOENT"
                  (snd (syncMonitorFiles Site.site
                          (after_wait Site.upstream Site.site Site.lacking))))
        as [Hrun Hunhandled]; [vm_compute; reflexivity|].
      rewrite Hrun. cbn [snd]. rewrite Hunhandled, Heff. vm_compute. reflexivity.
Defined.

(** X10.  The wait of a restart asks for the state of the profile's name.  When
    the status query fails, or when that name is not [in] the snapshot (no
    row of the listing and no known service carries it, and no object
    inherits it), the first poll counts as "down": the restart
    goes on after one query, with no timer, and starts the profile as soon
    as the resync returns. *)
Theorem restart_does_not_wait_without_match (E : env) (monitor : MonitorDetails)
    (w : world) :
  query_failed (exec_ps E (ps_runs w)) = true
  \/ JS.has (parse_statuses E (stdout (exec_ps E (ps_runs w)))) (Profile monitor)
     = false ->
  let w2 := after_wait E monitor w in
  effects w2 = effects w ++ stop_effects E monitor ++ [EExec compose_ps]
  /\ ps_runs w2 = S (ps_runs w)
  /\ clock w2 = clock w
  /\ (forall w3,
        syncMonitorFiles monitor w2 = (Ok tt, w3) ->
        stopAndRestart E monitor w
        = (Ok tt, snd (StartProfile E (Profile monitor) w3))).
Proof.
  intros Hunknown w2.
  assert (reached E (Profile monitor) false (ps_runs w + 0) = true) as Hnow.
  { rewrite Nat.add_0_r. unfold reached, container_isUp.
    destruct Hunknown as [->| Hnone]; [done|].
    destruct (query_failed _); [done|]. by rewrite Hnone. }
  destruct (restart_proceeds E monitor w 0 ltac:(lia) Hnow)
    as (Heff & Hps & Hclk & _ & _ & Hok & _).
  { intros j Hj. lia. }
  fold w2 in Heff, Hps, Hclk, Hok.
  split; [exact Heff|]. split; [lia|]. split; [lia|].
  intros w3 Hsync. by destruct (Hok w3 Hsync).
Qed.

Lemma restart_does_not_wait_without_match_witness :
  ps_runs (after_wait Site.upstream Site.site Site.settled) = 1%nat
  /\ clock (after_wait Site.upstream Site.site Site.settled)
     = clock Site.settled.
Proof.
  destruct (restart_does_not_wait_without_match Site.upstream Site.site
              Site.settled) as (_ & Hps & Hclk & _).
  - right. vm_compute. reflexivity.
  - split; [exact Hps|exact Hclk].
Defined.

(** X11.  A restart always returns to its caller.  It makes at least one and at
    most twelve status queries, sleeps at most a minute in all, makes no
    HTTP request and leaves the version cache alone. *)
Theorem stopAndRestart_bounded (E : env) (monitor : MonitorDetails) (w : world) :
  exists w',
    stopAndRestart E monitor w = (Ok tt, w')
    /\ (ps_runs w < ps_runs w' <= ps_runs w + 12)%nat
    /\ clock w <= clock w' <= clock w + 60000
    /\ cache w' = cache w
    /\ requests w' = requests w.
Proof.
  pose proof (keeps_stopAndRestart cache blind_cache E monitor w) as Hc.
  pose proof (keeps_stopAndRestart requests blind_requests E monitor w) as Hr.
  destruct (first_reached
              (fun j => reached E (Profile monitor) false (ps_runs w + j)) 12)
    as [Hnever|(k & Hk & Hnow & Hbefore)].
  - destruct (restart_gives_up E monitor w Hnever)
      as (w' & Hrun & _ & Hps & Hclk & _).
    rewrite Hrun in Hc, Hr. exists w'. split; [exact Hrun|].
    repeat split; simpl in *; try done; lia.
  - destruct (restart_proceeds E monitor w k Hk Hnow Hbefore)
      as (_ & Hps & Hclk & _ & _ & Hok & Hthrow).
    set (w2 := after_wait E monitor w) in *.
    pose proof (local_syncMonitorFiles ps_runs local_ps_runs monitor w2) as Hp3.
    pose proof (local_syncMonitorFiles clock local_clock monitor w2) as Hk3.
    pose proof (settles_syncMonitorFiles monitor w2) as Hs.
    destruct (syncMonitorFiles monitor w2) as [[[]|e|] w3] eqn:Hsync;
      simpl in *; [| |done].
    + destruct (Hok w3 eq_refl) as [Hrun _].
      rewrite Hrun in Hc, Hr. eexists. split; [exact Hrun|].
      rewrite StartProfile_run in *.
      destruct (includes (profiles (docker E)) (Profile monitor));
        simpl in *; repeat split; try done; lia.
    + destruct (Hthrow e w3 eq_refl) as [Hrun _].
      rewrite Hrun in Hc, Hr. eexists. split; [exact Hrun|].
      simpl in *. repeat split; try done; lia.
Qed.

(** ** Which cache entries a cycle can write *)

Section Frame.

Variable E : env.
Variable key : string.

Lemma blind_cache_at : blind (cache_at key).
Proof. by split. Qed.

Lemma keeps_cache_lift {A} (m : M A) : keeps cache m -> keeps (cache_at key) m.
Proof. intros Hm w. unfold cache_at. by rewrite Hm. Qed.

Lemma keeps_at_cache_set monitor v :
  Profile monitor <> key -> keeps (cache_at key) (cache_set monitor v).
Proof. intros Hne w. unfold cache_at. simpl. by rewrite lookup_insert_ne. Qed.

Lemma keeps_at_hit monitor ups :
  keeps (cache_at key)
    (syncMonitorFiles monitor ;; checkMonitorStatus E monitor ups).
Proof.
  apply keeps_bind; [apply (keeps_syncMonitorFiles _ blind_cache_at)|intros _].
  apply (keeps_checkMonitorStatus _ blind_cache_at).
Qed.

Lemma keeps_at_downloadAndExtract monitor url v isInit :
  Profile monitor <> key ->
  keeps (cache_at key) (downloadAndExtract E monitor url v isInit).
Proof.
  intros Hne. unfold downloadAndExtract.
  apply keeps_bind; [apply keeps_cache_lift, keeps_cache_ensure_builds|intros _].
  apply keeps_bind; [apply keeps_existsSync|intros e].
  apply keeps_if.
  - unfold already_built.
    apply keeps_bind; [apply (keeps_info _ blind_cache_at)|intros _].
    apply keeps_bind; [by apply keeps_at_cache_set|intros _].
    apply keeps_if; [apply (keeps_stopAndRestart _ blind_cache_at)|apply keeps_ret].
  - unfold fetch_and_promote.
    apply keeps_bind; [apply keeps_cache_lift, keeps_cache_prepare_temp|intros _].
    apply keeps_catch; [|intros e0; apply (keeps_error _ blind_cache_at)].
    apply keeps_bind; [apply keeps_cache_lift, keeps_cache_axios_get|].
    intros [status bytes]. unfold staged.
    apply keeps_if.
    { apply keeps_if; [apply (keeps_stopAndRestart _ blind_cache_at)|apply keeps_ret]. }
    apply keeps_catch.
    + apply (keeps_detached _ blind_cache_at).
      apply keeps_bind; [apply (keeps_stage _ blind_cache_at)|intros _].
      apply keeps_finally; [|apply (keeps_rmSync _ blind_cache_at)].
      unfold promote.
      apply keeps_bind; [apply (keeps_promote_files _ blind_cache_at)|intros _].
      apply keeps_bind; [by apply keeps_at_cache_set|intros _].
      apply (keeps_restart_after_update _ blind_cache_at).
    + intros e0. apply keeps_bind; [apply (keeps_error _ blind_cache_at)|intros _].
      apply keeps_if; [apply (keeps_stopAndRestart _ blind_cache_at)|apply keeps_ret].
Qed.

Lemma keeps_at_runRepoMonitor monitor isInit ups :
  (has_destination monitor = true -> Profile monitor <> key) ->
  keeps (cache_at key) (runRepoMonitor E monitor isInit ups).
Proof.
  intros Hne. unfold runRepoMonitor.
  apply keeps_bind; [apply (keeps_info _ blind_cache_at)|intros _].
  apply keeps_catch; [|intros e; apply (keeps_error _ blind_cache_at)].
  apply keeps_bind; [apply keeps_cache_lift, keeps_cache_axios_get|].
  intros [status sha].
  apply keeps_bind; [apply keeps_get|intros hit].
  apply keeps_if.
  { apply keeps_bind; [apply (keeps_info _ blind_cache_at)|intros _].
    apply keeps_at_hit. }
  destruct (has_destination monitor) eqn:Hd.
  { apply keeps_at_downloadAndExtract. by apply Hne. }
  apply keeps_if; [apply (keeps_stopAndRestart _ blind_cache_at)|].
  apply keeps_if; [apply (keeps_stopAndRestart _ blind_cache_at)|].
  apply (keeps_checkMonitorStatus _ blind_cache_at).
Qed.

Lemma keeps_at_runReleaseMonitor monitor isInit ups :
  (has_destination monitor = true -> Profile monitor <> key) ->
  keeps (cache_at key) (runReleaseMonitor E monitor isInit ups).
Proof.
  intros Hne. unfold runReleaseMonitor.
  apply keeps_bind; [apply (keeps_info _ blind_cache_at)|intros _].
  apply keeps_catch; [|intros e; apply (keeps_error _ blind_cache_at)].
  apply keeps_bind; [apply keeps_cache_lift, keeps_cache_axios_get|].
  intros [status data].
  apply keeps_if.
  { apply keeps_if; [apply (keeps_stopAndRestart _ blind_cache_at)|apply keeps_ret]. }
  apply keeps_if; [apply (keeps_info _ blind_cache_at)|].
  apply keeps_bind.
  { unfold resolve_first. case_match; [apply keeps_throw|apply keeps_ret]. }
  intros [name downloadUrl].
  apply keeps_bind; [apply keeps_get|intros hit].
  apply keeps_if.
  { apply keeps_bind; [apply (keeps_info _ blind_cache_at)|intros _].
    apply keeps_at_hit. }
  destruct (has_destination monitor) eqn:Hd.
  { apply keeps_at_downloadAndExtract. by apply Hne. }
  apply keeps_if; [apply (keeps_stopAndRestart _ blind_cache_at)|].
  apply (keeps_checkMonitorStatus _ blind_cache_at).
Qed.

Lemma keeps_at_evaluate monitor isInit ups :
  (has_destination monitor = true -> Profile monitor <> key) ->
  keeps (cache_at key) (evaluate E isInit ups monitor).
Proof.
  intros Hne. unfold evaluate. apply keeps_catch.
  - apply keeps_if; [by apply keeps_at_runRepoMonitor|].
    apply keeps_if; [by apply keeps_at_runReleaseMonitor|apply keeps_ret].
  - intros e. apply keeps_bind; [apply (keeps_error _ blind_cache_at)|intros _].
    apply (keeps_error _ blind_cache_at).
Qed.

End Frame.

(** X12.  A cycle writes the cache entry of no profile but those that are
    monitored with a destination directory: every other entry is after the
    cycle what it was before, whatever the profiles did. *)
Theorem runMonitor_cache_frame (E : env) (monitors : list MonitorDetails)
    (isInit : bool) (key : string) (w : world) :
  (forall monitor,
      monitor ∈ monitors -> has_destination monitor = true ->
      Profile monitor <> key) ->
  cache (snd (runMonitor E monitors isInit w)) !! key = cache w !! key.
Proof.
  intros Hkey. change (cache_at key (snd (runMonitor E monitors isInit w))
                       = cache_at key w).
  revert w. change (keeps (cache_at key) (runMonitor E monitors isInit)).
  unfold runMonitor.
  apply keeps_bind; [apply (keeps_GetStatuses _ (blind_cache_at key))|].
  intros [success ups]. apply keeps_if; [apply keeps_ret|].
  induction monitors as [|m ms IH]; simpl; [apply keeps_ret|].
  apply keeps_bind.
  - apply keeps_at_evaluate. apply Hkey. by left.
  - intros _. apply IH. intros m' Hin. apply Hkey. by right.
Qed.

Lemma runMonitor_cache_frame_witness :
  cache (snd (runMonitor Site.upstream [Site.site; Web.web] true Site.fresh))
    !! "web" = None.
Proof.
  rewrite (runMonitor_cache_frame Site.upstream [Site.site; Web.web] true "web"
             Site.fresh); [reflexivity|].
  intros monitor Hin Hdest.
  apply elem_of_cons in Hin as [->|Hin]; [discriminate|].
  apply list_elem_of_singleton in Hin as ->. discriminate Hdest.
Defined.

(** X13.  A profile without a destination directory is never recorded in the
    cache, so each cycle finds its version new: with [AutoRestart] set it is
    restarted in every cycle whose version query is answered, and the cache
    entry is as absent after the cycle as before. *)
Theorem unstaged_profile_restarts_each_cycle (E : env) (monitor : MonitorDetails)
    (isInit : bool) (upStatuses : gmap string bool) (status : Z) (sha : string)
    (w : world) :
  has_destination monitor = false ->
  AutoRestart monitor = true ->
  cache w !! Profile monitor = None ->
  get_tree E (repoUrl monitor) = Resolved status sha ->
  runRepoMonitor E monitor isInit upStatuses w
  = stopAndRestart E monitor
      (add_effect (EGet (repoUrl monitor))
         (add_log Info ("Run repo monitor for " +:+ Profile monitor) w))
  /\ cache (snd (runRepoMonitor E monitor isInit upStatuses w)) !! Profile monitor
     = None.
Proof.
  intros Hdest Hauto Hcache Htree.
  assert (runRepoMonitor E monitor isInit upStatuses w
          = stopAndRestart E monitor
              (add_effect (EGet (repoUrl monitor))
                 (add_log Info ("Run repo monitor for " +:+ Profile monitor) w)))
    as Hrun.
  { unfold runRepoMonitor, mbind at 1, M_bind at 1. simpl.
    assert (forall w0,
              cache w0 = cache w ->
              ('(_, sha0) ← axios_get (get_tree E) (repoUrl monitor);
               hit ← cache_is monitor sha0;
               if hit : bool then
                 Logger.info (Profile monitor +:+ " has up-to-date version of "
                              +:+ sha0) ;;
                 syncMonitorFiles monitor ;;
                 checkMonitorStatus E monitor upStatuses
               else if has_destination monitor then
                 downloadAndExtract E monitor
                   ("https://github.com/" +:+ Owner monitor +:+ "/"
                    +:+ Repo monitor +:+ "/archive/refs/heads/main.zip")
                   sha0 isInit
               else if AutoRestart monitor then stopAndRestart E monitor
               else if autostart E isInit monitor then stopAndRestart E monitor
               else checkMonitorStatus E monitor upStatuses) w0
              = stopAndRestart E monitor (add_effect (EGet (repoUrl monitor)) w0))
      as Hbody.
    { intros w0 Hc0. unfold mbind at 1, M_bind at 1, axios_get. rewrite Htree.
      unfold mbind at 1, M_bind at 1, cache_is, get. simpl.
      rewrite Hc0, Hcache, bool_decide_eq_false_2 by done.
      by rewrite Hdest, Hauto. }
    rewrite catch_no_throw; [by apply Hbody|].
    intros e. rewrite Hbody by done. apply stopAndRestart_no_throw. }
  split; [exact Hrun|]. rewrite Hrun.
  pose proof (keeps_stopAndRestart cache blind_cache E monitor
                (add_effect (EGet (repoUrl monitor))
                   (add_log Info ("Run repo monitor for " +:+ Profile monitor) w)))
    as Hk.
  rewrite Hk. exact Hcache.
Qed.

Lemma unstaged_profile_restarts_each_cycle_witness :
  effects (snd (runRepoMonitor Site.upstream Web.web false Site.snapshot
                  Sample.empty_world))
  = EGet (repoUrl Web.web) :: rounds 12.
Proof.
  destruct (unstaged_profile_restarts_each_cycle Site.upstream Web.web false
              Site.snapshot 200 "v2" Sample.empty_world eq_refl eq_refl
              eq_refl eq_refl) as [Hrun _].
  rewrite Hrun. vm_compute. reflexivity.
Defined.

(** X14.  The resync of an entry whose source and active copy are both files
    returns, and leaves the active copy with the text of the source; both
    files then carry the time of the call.  It touches nothing but the file
    system, the log and the object counter. *)
Theorem sync_one_file (monitor : MonitorDetails) (file : Fs.path) (w : world)
    (c c' : string) (t t' : Z) :
  Fs.lookup (dest monitor ++ file) (fs w) = Some (Fs.File c t) ->
  Fs.lookup (dest monitor ++ "current" :: file) (fs w) = Some (Fs.File c' t') ->
  exists w',
    sync_one monitor file w = (Ok tt, w')
    /\ Fs.lookup (dest monitor ++ file) (fs w') = Some (Fs.File c (clock w))
    /\ Fs.lookup (dest monitor ++ "current" :: file) (fs w')
       = Some (Fs.File c (clock w))
    /\ cache w' = cache w /\ effects w' = effects w.
Proof.
  intros Hsrc Hdst.
  destruct (sync_one_both_files monitor file w c c' t t' Hsrc Hdst)
    as (w' & Hrun & Hs & Hd & Hc & He & _).
  by exists w'.
Qed.

Lemma sync_one_file_witness :
  exists w',
    sync_one Site.site ["env.txt"] Site.fresh = (Ok tt, w')
    /\ Fs.lookup ["srv"; "current"; "env.txt"] (fs w')
       = Some (Fs.File "SECRET" 1000).
Proof.
  destruct (sync_one_file Site.site ["env.txt"] Site.fresh "SECRET" "SECRET" 5 5
              eq_refl eq_refl) as (w' & Hrun & _ & Hdst & _).
  exists w'. split; [exact Hrun|exact Hdst].
Defined.

(** X15.  The resync of an entry needs both copies to be there.  Without the
    source it throws at once and the file system is as it was.  With the
    source a file and no active copy it throws after the times of the source
    were written: nothing is copied, the active copy is still missing.  And
    an entry that throws ends the resync: the entries after it are not
    looked at. *)
Theorem sync_one_needs_both_copies (monitor : MonitorDetails) (file : Fs.path)
    (w : world) :
  (Fs.lookup (dest monitor ++ file) (fs w) = None ->
   exists w',
     sync_one monitor file w = (Throw "ENOENT", w')
     /\ fs w' = fs w /\ logs w' = logs w)
  /\ (forall c t,
        Fs.lookup (dest monitor ++ file) (fs w) = Some (Fs.File c t) ->
        Fs.lookup (dest monitor ++ "current" :: file) (fs w) = None ->
        exists w',
          sync_one monitor file w = (Throw "ENOENT", w')
          /\ Fs.lookup (dest monitor ++ "current" :: file) (fs w') = None
          /\ logs w' = logs w)
  /\ (forall e w' rest,
        sync_one monitor file w = (Throw e, w') ->
        forEach (sync_one monitor) (file :: rest) w = (Throw e, w')).
Proof.
  split; [|split].
  - intros Hsrc. eexists. split.
    + unfold sync_one, mbind, M_bind, new_Date. simpl.
      unfold Node.utimesSync at 1. simpl. rewrite Hsrc. reflexivity.
    + by simpl.
  - intros c t Hsrc Hdst.
    set (src := dest monitor ++ file) in *.
    set (dst := dest monitor ++ "current" :: file) in *.
    destruct (put_existing src (Fs.File c (clock w)) (fs w)) as [f1 Hf1];
      [by eexists|].
    assert (Fs.lookup dst f1 = None) as Hdst1.
    { destruct (Fs.is_prefix src dst) eqn:Hp.
      - destruct (is_prefix_app _ _ Hp) as [rest Hrest].
        assert (rest <> []) as Hne.
        { intros ->. apply (f_equal length) in Hrest. subst src dst.
          rewrite !length_app in Hrest. simpl in Hrest. lia. }
        rewrite Hrest.
        by apply (lookup_below_file _ _ _ c (clock w) (lookup_put _ _ _ _ Hf1)).
      - destruct (paths_apart src dst Hp) as (r & a & b & p' & q' & Hs & Hd & Hne).
        { destruct (Fs.is_prefix dst src) eqn:Hq; [|done].
          destruct (is_prefix_app _ _ Hq) as [rest Hrest].
          apply (f_equal length) in Hrest. subst src dst.
          rewrite !length_app in Hrest. simpl in Hrest. lia. }
        rewrite Hd. rewrite Hs in Hf1.
        rewrite (lookup_put_apart r b a q' p' _ _ _ (not_eq_sym Hne) Hf1).
        by rewrite <- Hd. }
    eexists. split.
    + unfold sync_one, mbind, M_bind, new_Date. simpl. fold src. fold dst.
      unfold Node.utimesSync at 1. simpl. rewrite Hsrc. cbn [Fs.set_mtime].
      rewrite Hf1. simpl.
      unfold Node.utimesSync at 1. simpl. rewrite Hdst1. reflexivity.
    + by simpl.
  - intros e w' rest Hthrow. simpl. unfold mbind, M_bind. by rewrite Hthrow.
Qed.

Lemma sync_one_needs_both_copies_witness :
  fst (sync_one Site.site ["env.txt"] Site.lacking) = Throw "ENOENT"
  /\ fst (sync_one Site.site ["env.txt"] Site.built) = Throw "ENOENT"
  /\ fst (syncMonitorFiles Site.site Site.built) = Throw "ENOENT".
Proof.
  destruct (sync_one_needs_both_copies Site.site ["env.txt"] Site.lacking)
    as (Hsrc & _ & _).
  destruct (sync_one_needs_both_copies Site.site ["env.txt"] Site.built)
    as (_ & Hdst & Hrest).
  destruct (Hsrc eq_refl) as (w1 & Hrun1 & _).
  destruct (Hdst "SECRET" 5 eq_refl eq_refl) as (w2 & Hrun2 & _).
  split; [by rewrite Hrun1|]. split; [by rewrite Hrun2|].
  pose proof (Hrest "ENOENT" w2 [] Hrun2) as Hall.
  change (syncMonitorFiles Site.site Site.built = (Throw "ENOENT", w2)) in Hall.
  by rewrite Hall.
Defined.

(** ** What the preparation of a fetch leaves alone *)

Section LocalFetch.

Context {X : Type} (view : world -> X).
Hypothesis Hlocal : local view.

Lemma local_mkdirSync p : keeps view (Node.mkdirSync p).
Proof.
  intros w. unfold Node.mkdirSync.
  repeat case_match; simpl; try done; apply (local_fs _ Hlocal).
Qed.

Lemma local_rmSync p : keeps view (Node.rmSync p).
Proof. intros w. apply (local_fs _ Hlocal). Qed.

Lemma local_ensure_builds monitor : keeps view (ensure_builds monitor).
Proof.
  unfold ensure_builds.
  apply keeps_bind; [apply keeps_existsSync|intros b].
  apply keeps_if; [|apply keeps_ret].
  apply keeps_bind; [by apply local_info|intros _; apply local_mkdirSync].
Qed.

Lemma local_prepare_temp monitor url : keeps view (prepare_temp monitor url).
Proof.
  unfold prepare_temp.
  apply keeps_bind; [apply keeps_existsSync|intros t].
  apply keeps_bind.
  { apply keeps_if; [apply local_rmSync|apply keeps_ret]. }
  intros _.
  apply keeps_bind; [apply local_mkdirSync|intros _; by apply local_info].
Qed.

End LocalFetch.

(** ** What a failed fetch leaves behind *)

Section Current.

Variable E : env.
Variable monitor : MonitorDetails.
Variable q : Fs.path.

Lemma keeps_current_ensure_builds :
  keeps (in_current monitor q) (ensure_builds monitor).
Proof.
  intros w. unfold ensure_builds, mbind, M_bind, Node.existsSync, get.
  destruct (Fs.lookup (dest monitor ++ ["builds"]) (fs w)) eqn:Hb; simpl; [done|].
  unfold Node.mkdirSync. simpl. rewrite Hb.
  destruct (Fs.put (dest monitor ++ ["builds"]) _ (fs w)) as [f|] eqn:Hput;
    simpl; [|done].
  unfold in_current. simpl.
  by apply (lookup_put_apart (dest monitor) "current" "builds" q [] _ _ _
              ltac:(done) Hput).
Qed.

Lemma keeps_current_prepare_temp url :
  keeps (in_current monitor q) (prepare_temp monitor url).
Proof.
  intros w. unfold prepare_temp, mbind, M_bind, Node.existsSync, get.
  assert (forall w0,
            in_current monitor q w0 = in_current monitor q w ->
            in_current monitor q
              (snd (let (o, w') := Node.mkdirSync (dest monitor ++ ["temp"]) w0 in
                    match o with
                    | Ok _ =>
                        Logger.info ("Downloading " +:+ url +:+ " to "
                                     +:+ Node.show (dest monitor
                                                    ++ ["temp"; "files.zip"])) w'
                    | Throw e => (Throw e, w')
                    | Fuel => (Fuel, w')
                    end))
            = in_current monitor q w) as Hmk.
  { intros w0 Hw0. unfold Node.mkdirSync.
    destruct (Fs.lookup (dest monitor ++ ["temp"]) (fs w0)); [done|].
    destruct (Fs.put (dest monitor ++ ["temp"]) _ (fs w0)) as [f|] eqn:Hput;
      simpl; [|done].
    rewrite <- Hw0. unfold in_current. simpl.
    by apply (lookup_put_apart (dest monitor) "current" "temp" q [] _ _ _
                ltac:(done) Hput). }
  destruct (Fs.lookup (dest monitor ++ ["temp"]) (fs w)); simpl.
  - apply Hmk. unfold in_current. simpl.
    apply (lookup_remove_apart (dest monitor) "current" "temp" q [] (fs w)).
    done.
  - by apply Hmk.
Qed.

End Current.

(** X16.  A fetch that does not get its archive, because the request is rejected
    or, outside an autostart, answered by another status than 200, leaves
    every path below [current] as it was, spawns nothing and leaves the
    cache alone.  (The [builds] directory and an empty [temp] are what it
    may leave behind.) *)
Theorem failed_download_leaves_current (E : env) (monitor : MonitorDetails)
    (url cacheValue : string) (isInit : bool) (w : world) :
  Fs.lookup (dest monitor ++ ["builds"; cacheValue]) (fs w) = None ->
  (exists e, get_archive E url = Rejected e)
  \/ (exists status bytes,
        get_archive E url = Resolved status bytes /\ status <> 200
        /\ autostart E isInit monitor = false) ->
  let w' := snd (downloadAndExtract E monitor url cacheValue isInit w) in
  (forall q, in_current monitor q w' = in_current monitor q w)
  /\ spawns w' = spawns w
  /\ cache w' = cache w.
Proof.
  intros Habs Hfail w'.
  assert (forall X (view : world -> X),
            keeps view (ensure_builds monitor) ->
            (forall u, keeps view (prepare_temp monitor u)) ->
            (forall l msg w0, view (add_log l msg w0) = view w0) ->
            (forall u w0, view (add_effect (EGet u) w0) = view w0) ->
            view w' = view w) as Hview.
  { intros X view Hb Hp Hlog Hget. subst w'.
    unfold downloadAndExtract, mbind at 1, M_bind at 1.
    pose proof (Hb w) as Hb'.
    pose proof (ensure_builds_absent monitor cacheValue w) as Habs'.
    destruct (ensure_builds monitor w) as [[[]|e|] w1]; simpl in *;
      [|done|done].
    unfold mbind at 1, M_bind at 1, Node.existsSync, get.
    rewrite (Habs' w1 Habs eq_refl). rewrite <- Hb'.
    unfold fetch_and_promote, mbind at 1, M_bind at 1.
    pose proof (Hp url w1) as Hp'.
    destruct (prepare_temp monitor url w1) as [[[]|e|] w2]; simpl in *;
      [|done|done].
    rewrite <- Hp'. unfold catch_, mbind, M_bind, axios_get.
    destruct Hfail as [[e ->]|(status & bytes & -> & Hne & Hauto)]; simpl.
    - by rewrite Hlog, Hget.
    - unfold staged. destruct (Z.eqb_spec status 200) as [|_]; [done|].
      simpl. rewrite Hauto. simpl. by rewrite Hget. }
  split; [|split].
  - intros q. apply (Hview _ (in_current monitor q)); try done.
    + apply keeps_current_ensure_builds.
    + intros u. apply keeps_current_prepare_temp.
  - apply (Hview _ spawns); try done.
    + apply (local_ensure_builds _ local_spawns).
    + intros u. apply (local_prepare_temp _ local_spawns).
    + intros u w0. unfold spawns. simpl. rewrite List.filter_app. simpl.
      apply app_nil_r.
  - apply (Hview _ cache); try done.
    + apply keeps_cache_ensure_builds.
    + intros u. apply keeps_cache_prepare_temp.
Qed.

Lemma failed_download_leaves_current_witness :
  in_current Site.site ["index.html"]
    (snd (downloadAndExtract Site.no_archive Site.site Site.archive_url "v2"
            false Site.fresh))
  = Some (Fs.File "old" 1).
Proof.
  destruct (failed_download_leaves_current Site.no_archive Site.site
              Site.archive_url "v2" false Site.fresh eq_refl) as (Hcur & _).
  - left. by exists "ETIMEDOUT".
  - rewrite Hcur. reflexivity.
Defined.

(** X17.  When the preparation of a fetch returns, [temp] is a directory with
    nothing in it, whatever it held before. *)
Theorem prepare_temp_empties (monitor : MonitorDetails) (url : string)
    (w w' : world) :
  prepare_temp monitor url w = (Ok tt, w') ->
  Fs.lookup (dest monitor ++ ["temp"]) (fs w') = Some (Fs.Dir (clock w) []).
Proof.
  unfold prepare_temp, mbind, M_bind, Node.existsSync, get.
  assert (forall w0,
            clock w0 = clock w ->
            (let (o, w1) := Node.mkdirSync (dest monitor ++ ["temp"]) w0 in
             match o with
             | Ok _ =>
                 Logger.info ("Downloading " +:+ url +:+ " to "
                              +:+ Node.show (dest monitor ++ ["temp"; "files.zip"]))
                             w1
             | Throw e => (Throw e, w1)
             | Fuel => (Fuel, w1)
             end) = (Ok tt, w') ->
            Fs.lookup (dest monitor ++ ["temp"]) (fs w')
            = Some (Fs.Dir (clock w) [])) as Hmk.
  { intros w0 Hclk. unfold Node.mkdirSync.
    destruct (Fs.lookup (dest monitor ++ ["temp"]) (fs w0)); [done|].
    destruct (Fs.put (dest monitor ++ ["temp"]) _ (fs w0)) as [f|] eqn:Hput;
      [|done].
    intros [= <-]. simpl. rewrite <- Hclk. by apply (lookup_put _ _ _ _ Hput). }
  destruct (Fs.lookup (dest monitor ++ ["temp"]) (fs w)); simpl; by apply Hmk.
Qed.

Lemma prepare_temp_empties_witness :
  Fs.lookup ["srv"; "temp"]
    (fs (snd (prepare_temp Site.site Site.archive_url
                (snd (runMonitor Site.upstream [Site.site] false Site.lacking)))))
  = Some (Fs.Dir 1000 []).
Proof.
  apply (prepare_temp_empties Site.site Site.archive_url
           (snd (runMonitor Site.upstream [Site.site] false Site.lacking))).
  vm_compute. reflexivity.
Defined.

(** ** An archive without a top-level folder *)

(** X18.  With [RemoveParentFolder] set, the folder to move is the first directory
    of [temp].  When the archive unpacked to no directory, the name of the
    folder is the text "undefined"; unless [temp] holds an entry of that
    name the move throws, and the promotion ends there: the cache and the
    file system are as they were. *)
Theorem promotion_without_top_folder (E : env) (monitor : MonitorDetails)
    (cacheValue : string) (isInit : bool) (w : world) (t : Z)
    (es : list (string * Fs.node)) :
  RemoveParentFolder monitor = true ->
  Fs.lookup (dest monitor ++ ["temp"]) (fs w) = Some (Fs.Dir t es) ->
  List.filter (fun x => Fs.is_dir (snd x)) es = [] ->
  Fs.assoc "undefined" es = None ->
  fst (move_to_builds monitor cacheValue w) = Throw "ENOENT"
  /\ fst (promote E monitor cacheValue isInit w) = Throw "ENOENT"
  /\ fs (snd (promote E monitor cacheValue isInit w)) = fs w
  /\ cache (snd (promote E monitor cacheValue isInit w)) = cache w.
Proof.
  intros Hflag Htemp Hnodir Hnone.
  assert (exists w1,
             move_to_builds monitor cacheValue w = (Throw "ENOENT", w1)
             /\ fs w1 = fs w /\ cache w1 = cache w) as (w1 & Hmove & Hfs & Hc).
  { unfold move_to_builds, mbind, M_bind. simpl. rewrite Hflag.
    unfold Node.readdirSync. simpl. rewrite Htemp. simpl. rewrite Hnodir.
    unfold Node.renameSync. simpl.
    rewrite lookup_app, Htemp. simpl. rewrite Hnone.
    by eexists. }
  split; [by rewrite Hmove|].
  unfold promote, promote_files, mbind, M_bind. rewrite Hmove. done.
Qed.

Lemma promotion_without_top_folder_witness :
  fst (promote Site.upstream Site.site "v2" false
         (Site.on_disk [("temp", Fs.Dir 9 [("index.html", Fs.File "new" 9)])]))
  = Throw "ENOENT".
Proof.
  destruct (promotion_without_top_folder Site.upstream Site.site "v2" false
              (Site.on_disk [("temp", Fs.Dir 9 [("index.html", Fs.File "new" 9)])])
              9 [("index.html", Fs.File "new" 9)] eq_refl eq_refl eq_refl eq_refl)
    as (_ & Hpromote & _).
  exact Hpromote.
Defined.

(** ** Version queries that fail *)

(** X19.  A version query that is rejected, as it is by a network error or
    by an answer whose status is not one of 200 to 299, is logged and ends
    the evaluation of the profile: one request, no spawn, cache and file
    system as before.  A release feed answered by one of these statuses
    other than 200 ends it as well, but for an autostart profile on the
    initial run, which is restarted. *)
Theorem version_query_failure (E : env) (monitor : MonitorDetails)
    (isInit : bool) (upStatuses : gmap string bool) (w : world) :
  (forall e,
      get_tree E (repoUrl monitor) = Rejected e ->
      runRepoMonitor E monitor isInit upStatuses w
      = (Ok tt,
         add_log Error e
           (add_effect (EGet (repoUrl monitor))
              (add_log Info ("Run repo monitor for " +:+ Profile monitor) w))))
  /\ (forall e,
        get_releases E (releaseUrl monitor) = Rejected e ->
        runReleaseMonitor E monitor isInit upStatuses w
        = (Ok tt,
           add_log Error e
             (add_effect (EGet (releaseUrl monitor))
                (add_log Info ("Run release monitor for " +:+ Profile monitor)
                   w))))
  /\ (forall status data,
        get_releases E (releaseUrl monitor) = Resolved status data ->
        200 <= status < 300 ->
        status <> 200 ->
        runReleaseMonitor E monitor isInit upStatuses w
        = (if autostart E isInit monitor
           then stopAndRestart E monitor
           else mret tt)
            (add_effect (EGet (releaseUrl monitor))
               (add_log Info ("Run release monitor for " +:+ Profile monitor) w))).
Proof.
  split; [|split].
  - intros e Htree. unfold runRepoMonitor, mbind, M_bind, catch_, axios_get.
    simpl. by rewrite Htree.
  - intros e Hfeed. unfold runReleaseMonitor, mbind, M_bind, catch_, axios_get.
    simpl. by rewrite Hfeed.
  - intros status data Hfeed _ Hne.
    unfold runReleaseMonitor, mbind at 1, M_bind at 1. simpl.
    rewrite catch_no_throw.
    + unfold mbind, M_bind, axios_get. rewrite Hfeed.
      by destruct (Z.eqb_spec status 200).
    + intros e. unfold mbind, M_bind, axios_get. rewrite Hfeed.
      destruct (Z.eqb_spec status 200); [done|]. simpl.
      destruct (autostart E isInit monitor); [|done].
      apply stopAndRestart_no_throw.
Qed.

Lemma version_query_failure_witness :
  effects (snd (runRepoMonitor (Sample.offline (fun _ => Sample.answers Sample.table))
                  Site.site true Site.snapshot Site.fresh))
  = [EGet (repoUrl Site.site)]
  /\ effects (snd (runReleaseMonitor
                     (Sample.offline (fun _ => Sample.answers Sample.table))
                     Feed.tool true Site.snapshot (Feed.cached "b")))
     = [EGet (releaseUrl Feed.tool)]
  /\ effects (snd (runReleaseMonitor Feed.no_content Feed.tool false
                     Site.snapshot (Feed.cached "b")))
     = [EGet (releaseUrl Feed.tool)].
Proof.
  destruct (version_query_failure
              (Sample.offline (fun _ => Sample.answers Sample.table))
              Site.site true Site.snapshot Site.fresh) as (Hrepo & _).
  destruct (version_query_failure
              (Sample.offline (fun _ => Sample.answers Sample.table))
              Feed.tool true Site.snapshot (Feed.cached "b"))
    as (_ & Hrelease & _).
  destruct (version_query_failure Feed.no_content Feed.tool false
              Site.snapshot (Feed.cached "b")) as (_ & _ & Hstatus).
  split; [|split].
  - rewrite (Hrepo "ENOTFOUND" eq_refl). reflexivity.
  - rewrite (Hrelease "ENOTFOUND" eq_refl). reflexivity.
  - rewrite (Hstatus 204 [] eq_refl); [reflexivity|lia|lia].
Defined.

(** ** GET /start/:name *)

(** X20.  The handler of [/start/:name] resynchronizes the auxiliary files of the
    profile when it is monitored, then starts it.  For a profile that is
    not monitored the answer is 200 with one spawned command when the
    compose file has the profile, 500 with none when it has not.  For a
    monitored profile the start follows the resync only when the resync
    returns: when it throws, the handler throws and nothing is spawned. *)
Theorem route_start_answers (E : env) (monitors : list MonitorDetails)
    (name : string) (w : world) :
  (List.find (fun x => String.eqb (Profile x) name) monitors = None ->
   route_start E monitors name w
   = (Ok (if includes (profiles (docker E)) name then 200 else 500,
          includes (profiles (docker E)) name),
      snd (StartProfile E name w))
   /\ fs (snd (route_start E monitors name w)) = fs w)
  /\ (forall monitor,
        List.find (fun x => String.eqb (Profile x) name) monitors = Some monitor ->
        (forall w1,
            syncMonitorFiles monitor w = (Ok tt, w1) ->
            route_start E monitors name w
            = (Ok (if includes (profiles (docker E)) name then 200 else 500,
                   includes (profiles (docker E)) name),
               snd (StartProfile E name w1)))
        /\ (forall e w1,
              syncMonitorFiles monitor w = (Throw e, w1) ->
              route_start E monitors name w = (Throw e, w1)
              /\ spawns w1 = spawns w)).
Proof.
  split.
  - intros Hnone. unfold route_start, syncProfileFiles. rewrite Hnone.
    unfold mbind, M_bind. simpl. rewrite StartProfile_run.
    by destruct (includes (profiles (docker E)) name).
  - intros monitor Hsome. unfold route_start, syncProfileFiles. rewrite Hsome.
    split.
    + intros w1 Hsync. unfold mbind, M_bind. rewrite Hsync, StartProfile_run.
      by destruct (includes (profiles (docker E)) name).
    + intros e w1 Hsync. unfold mbind, M_bind. rewrite Hsync.
      split; [done|].
      pose proof (local_syncMonitorFiles spawns local_spawns monitor w) as Hk.
      by rewrite Hsync in Hk.
Qed.

Lemma route_start_answers_witness :
  fst (route_start Site.upstream [Site.site] "db" Site.built) = Ok (500, false)
  /\ fst (route_start Site.upstream [Site.site] "site" Site.settled)
     = Ok (200, true)
  /\ fst (route_start Site.upstream [Site.site] "site" Site.built)
     = Throw "ENOENT".
Proof.
  destruct (route_start_answers Site.upstream [Site.site] "db" Site.built)
    as [Hfree _].
  destruct (route_start_answers Site.upstream [Site.site] "site" Site.settled)
    as [_ Hsettled].
  destruct (route_start_answers Site.upstream [Site.site] "site" Site.built)
    as [_ Hbuilt].
  split; [|split].
  - destruct (Hfree eq_refl) as [Hrun _]. by rewrite Hrun.
  - destruct (Hsettled Site.site eq_refl) as [Hok _].
    rewrite (Hok (snd (syncMonitorFiles Site.site Site.settled)));
      [reflexivity|vm_compute; reflexivity].
  - destruct (Hbuilt Site.site eq_refl) as [_ Hthrow].
    destruct (Hthrow "ENOENT" (snd (syncMonitorFiles Site.site Site.built)))
      as [Hrun _]; [vm_compute; reflexivity|].
    by rewrite Hrun.
Defined.

(** ** A build is not touched again *)

(** X21.  Once [builds/<fingerprint>] is there, no call of [downloadAndExtract]
    of the profile, for this fingerprint or for another one, changes it or
    anything below it, whatever the download, the extraction, the promotion
    and the restart do and wherever they fail; the auxiliary files have to
    be named outside [builds]. *)
Theorem build_is_kept (E : env) (monitor : MonitorDetails)
    (url fingerprint cacheValue : string) (isInit : bool) (w : world)
    (n : Fs.node) :
  outside_builds monitor ->
  build_at monitor fingerprint w = Some n ->
  build_at monitor fingerprint
    (snd (downloadAndExtract E monitor url cacheValue isInit w)) = Some n.
Proof.
  intros Hout Hn. unfold downloadAndExtract, mbind at 1, M_bind at 1.
  pose proof (build_ensure_builds monitor fingerprint w) as Hb.
  destruct (ensure_builds monitor w) as [[[]|e|] w1]; simpl in *;
    [|by rewrite Hb..].
  rewrite <- Hb in Hn. rewrite <- Hn.
  destruct (decide (cacheValue = fingerprint)) as [->|Hne].
  - unfold mbind, M_bind, Node.existsSync, get.
    unfold build_at, node_at in Hn. rewrite Hn.
    apply (build_already_built E monitor fingerprint Hout).
  - apply keeps_bind; [apply keeps_existsSync|intros b].
    apply keeps_if.
    + by apply build_already_built.
    + by apply build_fetch_and_promote.
Qed.

Lemma build_is_kept_witness :
  let w' := snd (downloadAndExtract Site.upstream Site.site Site.archive_url
                   "v3" false Site.built) in
  build_at Site.site "v2" w'
  = Some (Fs.Dir 7 [("index.html", Fs.File "new" 7)])
  /\ is_Some (build_at Site.site "v3" w').
Proof.
  split; [|vm_compute; by eexists].
  apply (build_is_kept Site.upstream Site.site Site.archive_url "v2" "v3"
           false Site.built); [|reflexivity].
  intros file Hin. apply list_elem_of_singleton in Hin as ->.
  by exists "env.txt", [].
Defined.
